(** * market_data_feeder: supervisor / worker lifecycle and its IPC substrate

    A shallow embedding of
      - [common/types.h]            (enumerations and constants),
      - [common/ipc_manager.cpp]    (the coordination substrate),
      - [master/master_process.cpp] (the supervisor),
      - [worker/worker_process.cpp] (the worker runtime),
      - [common/config_manager.cpp] (the configuration file and its checks).

    Every function is written in a small state monad.  The state is the C++
    object the method belongs to; the second component, the [World], holds the
    operating system as the process sees it: an oracle that answers each
    system call, and the list of calls issued so far. *)

From Stdlib Require Import ZArith Bool Lia String List.
From Stdlib Require Import Ascii DecimalString DecimalZ.
Import ListNotations.
Local Open Scope Z_scope.

(* ------------------------------------------------------------------ *)
(** ** common/types.h *)

Module constants.
Definition MAX_WORKER_PROCESSES : Z := 64.
Definition HEARTBEAT_TIMEOUT : Z := 60.
Definition GRACEFUL_SHUTDOWN_TIMEOUT : Z := 30.
Definition MAX_CONNECTIONS_PER_WORKER : Z := 10240.
End constants.

(** [ProcessStatus].  [types.h] lists the first five; the worker runtime also
    reports [ProcessStatus::ERROR]. *)
Inductive ProcessStatus :=
| STARTING | RUNNING | STOPPING | STOPPED | CRASHED | ERROR.

Inductive MarketDataType := TICK | KLINE | DEPTH | INDEX | NEWS.

Definition MarketDataType_eqb (a b : MarketDataType) : bool :=
  match a, b with
  | TICK, TICK | KLINE, KLINE | DEPTH, DEPTH | INDEX, INDEX | NEWS, NEWS => true
  | _, _ => false
  end.

(** The order in which a [std::map<MarketDataType, _>] is traversed. *)
Definition MarketDataType_all : list MarketDataType :=
  [TICK; KLINE; DEPTH; INDEX; NEWS].

(** [MarketData]: only the fields the worker runtime looks at are kept (the
    price, a [double], and the raw text are carried by no decision). *)
Record MarketData := mkMarketData {
  md_symbol : string;
  md_type : MarketDataType;
  md_volume : Z
}.

Inductive LogLevel := TRACE | DBG | INFO | WARN | LERROR.

(** Unsigned 64-bit arithmetic ([uint64_t], [size_t]). *)
Definition u64 (z : Z) : Z := z mod 2 ^ 64.

(* ------------------------------------------------------------------ *)
(** ** Records of common/ipc_manager.cpp *)

(** One entry of the shared process table, with the fields
    [IPCManager::addWorkerProcess] fills in. *)
Module ProcessInfo.
Record t := mk {
  pid : Z;
  worker_id : Z;
  status : ProcessStatus;
  start_time : Z;
  last_heartbeat : Z
}.
(** What [memset(shared_data_, 0, ...)] leaves in a slot. *)
Definition zero : t := mk 0 0 STARTING 0 0.
Definition set_status (s : ProcessStatus) (p : t) : t :=
  mk (pid p) (worker_id p) s (start_time p) (last_heartbeat p).
Definition set_last_heartbeat (h : Z) (p : t) : t :=
  mk (pid p) (worker_id p) (status p) (start_time p) h.
End ProcessInfo.

Module ProcessStatistics.
Record t := mk {
  worker_id : Z;
  start_time : Z;
  messages_processed : Z;
  data_received : Z;
  data_sent : Z;
  errors : Z;
  last_update : Z
}.
Definition zero : t := mk 0 0 0 0 0 0 0.
Definition set_last_update (u : Z) (s : t) : t :=
  mk (worker_id s) (start_time s) (messages_processed s) (data_received s)
     (data_sent s) (errors s) u.
End ProcessStatistics.

Module SharedMemoryData.
Record t := mk {
  workers : list ProcessInfo.t;     (* ProcessInfo workers[MAX_WORKER_PROCESSES] *)
  worker_count : Z;
  stats : ProcessStatistics.t;
  master_pid : Z;
  start_time : Z;
  shutdown_flag : bool;
  reload_flag : bool
}.
Definition set_workers (ws : list ProcessInfo.t) (n : Z) (d : t) : t :=
  mk ws n (stats d) (master_pid d) (start_time d) (shutdown_flag d) (reload_flag d).
Definition set_stats (s : ProcessStatistics.t) (d : t) : t :=
  mk (workers d) (worker_count d) s (master_pid d) (start_time d)
     (shutdown_flag d) (reload_flag d).
Definition set_shutdown_flag (b : bool) (d : t) : t :=
  mk (workers d) (worker_count d) (stats d) (master_pid d) (start_time d)
     b (reload_flag d).
Definition set_reload_flag (b : bool) (d : t) : t :=
  mk (workers d) (worker_count d) (stats d) (master_pid d) (start_time d)
     (shutdown_flag d) b.
(** The table is a fixed array and the live count stays within it. *)
Definition wf (d : t) : Prop :=
  length (workers d) = Z.to_nat constants.MAX_WORKER_PROCESSES /\
  0 <= worker_count d <= constants.MAX_WORKER_PROCESSES.
(** The live records: the first [worker_count] slots. *)
Definition live (d : t) : list ProcessInfo.t :=
  firstn (Z.to_nat (worker_count d)) (workers d).
End SharedMemoryData.

Inductive MessageType :=
| HEARTBEAT | STATUS_UPDATE | ERROR_REPORT | STATISTICS | SHUTDOWN | RELOAD | ANY.

(** The [data] union of a message: one member is written by each sender. *)
Inductive MessageData :=
| heartbeat_data (worker_id : Z)
| status_data (worker_id : Z) (status : ProcessStatus)
| error_data (worker_id : Z) (error_message : string)
| stats_data (s : ProcessStatistics.t).

Record IPCMessage := mkIPCMessage {
  type : MessageType;
  sender_pid : Z;
  receiver_pid : Z;
  timestamp : Z;
  data : MessageData
}.

(* ------------------------------------------------------------------ *)
(** ** The operating system, as one process sees it *)

(** Linux values of the flags and error numbers the code names. *)
Definition IPC_CREAT : Z := 512.
Definition IPC_EXCL : Z := 1024.
Definition IPC_NOWAIT : Z := 2048.
Definition IPC_RMID : Z := 0.
Definition SETVAL : Z := 16.
Definition SEM_UNDO : Z := 4096.
Definition perm_0666 : Z := 438.
Definition EEXIST : Z := 17.
Definition EAGAIN : Z := 11.
Definition ENOMSG : Z := 42.
Definition SIGHUP : Z := 1.
Definition SIGINT : Z := 2.
Definition SIGKILL : Z := 9.
Definition SIGTERM : Z := 15.
Definition SIGCHLD : Z := 17.

Inductive Syscall :=
| Ftok (proj_id : Z)
| Msgget (key msgflg : Z)
| Msgctl (msqid cmd : Z)
| Msgsnd (msqid : Z) (msg : IPCMessage) (msgflg : Z)
| Msgrcv (msqid : Z) (msgflg : Z)     (* msgtyp 0: MessageType::ANY *)
| Shmget (key shmflg : Z)
| Shmctl (shmid cmd : Z)
| Shmat (shmid : Z)
| Semget (key nsems semflg : Z)
| Semctl (semid semnum cmd val : Z)
| Semop (semid sem_num sem_op sem_flg : Z)
| TimeNow                             (* time(nullptr), seconds *)
| SteadyNow                           (* steady_clock::now(), nanoseconds *)
| Getpid
| Getppid
| Kill (pid sig : Z)
| Fork
| Waitpid                             (* waitpid(-1, &status, WNOHANG) *)
| SleepFor (ms : Z)
| SaveBatch (batch : list MarketData) (* DatabaseManager::saveMarketDataBatch *)
| SdkConnectionStatus                 (* sdk_->getConnectionStatus(); 0: CONNECTED *)
| ReloadConfig                        (* ConfigManager::reloadConfig() *)
| Log (level : LogLevel) (text : string).

(** The answer to a call: its return value and [errno]. *)
Record Sysret := mkSysret { rv : Z; errno : Z }.

(** The environment answers the [n]-th call of the run.  A drain loop
    ([while ((pid = waitpid(...)) > 0)], [while (receiveMessage(...))]) asks
    for the finite run of values the kernel hands out before it answers
    "nothing more": a process has finitely many children and a queue holds
    finitely many messages. *)
Record Env := mkEnv {
  answer : nat -> Syscall -> Sysret;
  reaped : nat -> list Z;
  inbox : nat -> list IPCMessage;
  segment : nat -> SharedMemoryData.t;
  signals : nat -> list Z
}.

(** [trace] lists the calls issued so far, the latest first. *)
Record World := mkWorld { env : Env; trace : list Syscall }.

Definition issue (c : Syscall) (w : World) : World :=
  mkWorld (env w) (c :: trace w).

(** Why a computation stops without a result. *)
Inductive abort :=
| WorkerImage (worker_id : Z)  (* fork() answered 0: this is the child, which
                                  runs the worker and exits *)
| Segfault                     (* a dereference of (void* )-1 *)
| OutOfFuel.                   (* a loop ran for more turns than the fuel given *)

Inductive outcome (A : Type) :=
| Done (a : A)
| Abort (r : abort).
Arguments Done {A} a.
Arguments Abort {A} r.

Definition M (S A : Type) : Type := S -> World -> outcome A * S * World.

Definition ret {S A} (a : A) : M S A := fun s w => (Done a, s, w).

Definition bind {S A B} (c : M S A) (k : A -> M S B) : M S B :=
  fun s w =>
    match c s w with
    | (Done a, s', w') => k a s' w'
    | (Abort r, s', w') => (Abort r, s', w')
    end.

Declare Scope m_scope.
Delimit Scope m_scope with m.
Notation "x <- c ;; k" := (bind c (fun x => k))
  (at level 61, c at next level, right associativity) : m_scope.
Notation "c ;;; k" := (bind c (fun _ => k))
  (at level 61, right associativity) : m_scope.
Local Open Scope m_scope.

Definition get {S} : M S S := fun s w => (Done s, s, w).
Definition put {S} (s : S) : M S unit := fun _ w => (Done tt, s, w).
Definition modify {S} (f : S -> S) : M S unit := fun s w => (Done tt, f s, w).
Definition stop {S A} (r : abort) : M S A := fun s w => (Abort r, s, w).

(** One system call: the oracle answers, the call is recorded. *)
Definition sys {S} (c : Syscall) : M S Sysret :=
  fun s w => (Done (answer (env w) (length (trace w)) c), s, issue c w).

Definition log {S} (l : LogLevel) (text : string) : M S unit :=
  sys (Log l text) ;;; ret tt.

Definition when {S} (b : bool) (c : M S unit) : M S unit :=
  if b then c else ret tt.

(** Run a method of a member object inside its owner. *)
Definition zoom {S T A} (proj : S -> T) (inj : T -> S -> S) (c : M T A) : M S A :=
  fun s w =>
    match c (proj s) w with
    | (o, t', w') => (o, inj t' s, w')
    end.

(** [for (x : xs) body]. *)
Fixpoint for_each {S X} (xs : list X) (body : X -> M S unit) : M S unit :=
  match xs with
  | [] => ret tt
  | x :: rest => body x ;;; for_each rest body
  end.

(** [time(nullptr)] *)
Definition time_nullptr {S} : M S Z := r <- sys TimeNow ;; ret (rv r).

(** The calls a run issued between two worlds, in the order they were made. *)
Definition calls_between (w w' : World) : list Syscall :=
  rev (firstn (length (trace w') - length (trace w)) (trace w')).

(* ------------------------------------------------------------------ *)
(** ** common/ipc_manager.cpp *)

(** The ftok project ids and the semaphore indices come from a header that
    the source tree does not hold; the functions below take them as
    parameters. *)
Record IpcConstants := mkIpcConstants {
  MSG_QUEUE_ID : Z;
  SHM_ID : Z;
  SEM_ID : Z;
  SEM_COUNT : Z;
  SEM_WORKER_LIST : Z;
  SEM_STATISTICS : Z
}.

(** [SharedMemoryData* shared_data_]: null, the [(void* )-1] a failed [shmat]
    returns, or the attached segment with its present content. *)
Inductive shm_ptr :=
| nullptr
| invalid_ptr
| mapped (d : SharedMemoryData.t).

(** [a[i] = x] on an array kept as a list; an index outside the array is
    undefined behaviour in the source and leaves the list as it is here. *)
Fixpoint upd {A} (i : nat) (x : A) (l : list A) : list A :=
  match l, i with
  | [], _ => []
  | _ :: t, O => x :: t
  | h :: t, S i' => h :: upd i' x t
  end.

Module IPCManager.

Record t := mk {
  is_master_ : bool;
  initialized_ : bool;
  msg_queue_id_ : Z;
  shm_id_ : Z;
  sem_id_ : Z;
  shared_data_ : shm_ptr
}.

Definition set_msg_queue_id_ (v : Z) (m : t) : t :=
  mk (is_master_ m) (initialized_ m) v (shm_id_ m) (sem_id_ m) (shared_data_ m).
Definition set_shm_id_ (v : Z) (m : t) : t :=
  mk (is_master_ m) (initialized_ m) (msg_queue_id_ m) v (sem_id_ m) (shared_data_ m).
Definition set_sem_id_ (v : Z) (m : t) : t :=
  mk (is_master_ m) (initialized_ m) (msg_queue_id_ m) (shm_id_ m) v (shared_data_ m).
Definition set_shared_data_ (p : shm_ptr) (m : t) : t :=
  mk (is_master_ m) (initialized_ m) (msg_queue_id_ m) (shm_id_ m) (sem_id_ m) p.

Section Methods.
Variable K : IpcConstants.

(** [IPCManager::createMessageQueue] *)
Definition createMessageQueue : M t bool :=
  key <- sys (Ftok (MSG_QUEUE_ID K)) ;;
  if rv key =? -1 then
    log LERROR "Failed to generate key for message queue" ;;; ret false
  else
    r <- sys (Msgget (rv key) (Z.lor (Z.lor IPC_CREAT IPC_EXCL) perm_0666)) ;;
    modify (set_msg_queue_id_ (rv r)) ;;;
    if rv r =? -1 then
      (if errno r =? EEXIST then
         (* the queue exists: remove it, then create it again *)
         r1 <- sys (Msgget (rv key) perm_0666) ;;
         modify (set_msg_queue_id_ (rv r1)) ;;;
         when (negb (rv r1 =? -1)) (sys (Msgctl (rv r1) IPC_RMID) ;;; ret tt) ;;;
         r2 <- sys (Msgget (rv key) (Z.lor IPC_CREAT perm_0666)) ;;
         modify (set_msg_queue_id_ (rv r2))
       else ret tt) ;;;
      m <- get ;;
      if msg_queue_id_ m =? -1 then
        log LERROR "Failed to create message queue" ;;; ret false
      else
        log DBG "Message queue created" ;;; ret true
    else
      log DBG "Message queue created" ;;; ret true.

(** [shmat(shm_id_, nullptr, 0)]: the pointer it returns. *)
Definition shmat (shmid : Z) : M t shm_ptr :=
  fun s w =>
    let r := answer (env w) (length (trace w)) (Shmat shmid) in
    (Done (if rv r =? -1 then invalid_ptr
           else mapped (segment (env w) (length (trace w)))),
     s, issue (Shmat shmid) w).

(** [IPCManager::createSharedMemory] *)
Definition createSharedMemory : M t bool :=
  key <- sys (Ftok (SHM_ID K)) ;;
  if rv key =? -1 then
    log LERROR "Failed to generate key for shared memory" ;;; ret false
  else
    r <- sys (Shmget (rv key) (Z.lor (Z.lor IPC_CREAT IPC_EXCL) perm_0666)) ;;
    modify (set_shm_id_ (rv r)) ;;;
    created <-
      (if rv r =? -1 then
         (if errno r =? EEXIST then
            (* the segment exists: remove it, then create it again *)
            r1 <- sys (Shmget (rv key) perm_0666) ;;
            modify (set_shm_id_ (rv r1)) ;;;
            when (negb (rv r1 =? -1)) (sys (Shmctl (rv r1) IPC_RMID) ;;; ret tt) ;;;
            r2 <- sys (Shmget (rv key) (Z.lor IPC_CREAT perm_0666)) ;;
            modify (set_shm_id_ (rv r2))
          else ret tt) ;;;
         m <- get ;;
         if shm_id_ m =? -1 then
           log LERROR "Failed to create shared memory" ;;; ret false
         else ret true
       else ret true) ;;
    if negb created then ret false
    else
      (* map the segment *)
      m <- get ;;
      p <- shmat (shm_id_ m) ;;
      modify (set_shared_data_ p) ;;;
      match p with
      | invalid_ptr => log LERROR "Failed to attach shared memory" ;;; ret false
      | _ => log DBG "Shared memory created" ;;; ret true
      end.

(** The loop of [createSemaphores] that sets every semaphore to 1: [n]
    semaphores are left, the next one is [i]. *)
Fixpoint init_semaphores (n : nat) (i : Z) : M t bool :=
  match n with
  | O => ret true
  | S n' =>
      m <- get ;;
      r <- sys (Semctl (sem_id_ m) i SETVAL 1) ;;
      if rv r =? -1 then
        log LERROR "Failed to initialize semaphore" ;;; ret false
      else init_semaphores n' (i + 1)
  end.

(** [IPCManager::createSemaphores] *)
Definition createSemaphores : M t bool :=
  key <- sys (Ftok (SEM_ID K)) ;;
  if rv key =? -1 then
    log LERROR "Failed to generate key for semaphores" ;;; ret false
  else
    r <- sys (Semget (rv key) (SEM_COUNT K)
                (Z.lor (Z.lor IPC_CREAT IPC_EXCL) perm_0666)) ;;
    modify (set_sem_id_ (rv r)) ;;;
    created <-
      (if rv r =? -1 then
         (if errno r =? EEXIST then
            (* the set exists: remove it, then create it again *)
            r1 <- sys (Semget (rv key) (SEM_COUNT K) perm_0666) ;;
            modify (set_sem_id_ (rv r1)) ;;;
            when (negb (rv r1 =? -1))
                 (sys (Semctl (rv r1) 0 IPC_RMID 0) ;;; ret tt) ;;;
            r2 <- sys (Semget (rv key) (SEM_COUNT K) (Z.lor IPC_CREAT perm_0666)) ;;
            modify (set_sem_id_ (rv r2))
          else ret tt) ;;;
         m <- get ;;
         if sem_id_ m =? -1 then
           log LERROR "Failed to create semaphores" ;;; ret false
         else ret true
       else ret true) ;;
    if negb created then ret false
    else
      ok <- init_semaphores (Z.to_nat (SEM_COUNT K)) 0 ;;
      if negb ok then ret false
      else log DBG "Semaphores created" ;;; ret true.

(** [IPCManager::sendMessage] *)
Definition sendMessage (message : IPCMessage) : M t bool :=
  m <- get ;;
  if negb (initialized_ m) || (msg_queue_id_ m =? -1) then
    log LERROR "IPC manager not initialized or message queue not available" ;;;
    ret false
  else
    r <- sys (Msgsnd (msg_queue_id_ m) message IPC_NOWAIT) ;;
    if rv r =? -1 then
      when (negb (errno r =? EAGAIN)) (log LERROR "Failed to send message") ;;;
      ret false
    else
      log TRACE "Message sent" ;;; ret true.

(** [IPCManager::lockSharedMemory] *)
Definition lockSharedMemory (sem_index : Z) : M t bool :=
  m <- get ;;
  if negb (initialized_ m) || (sem_id_ m =? -1) then ret false
  else
    r <- sys (Semop (sem_id_ m) sem_index (-1) SEM_UNDO) ;;   (* P *)
    if rv r =? -1 then log LERROR "Failed to lock semaphore" ;;; ret false
    else ret true.

(** [IPCManager::unlockSharedMemory] *)
Definition unlockSharedMemory (sem_index : Z) : M t bool :=
  m <- get ;;
  if negb (initialized_ m) || (sem_id_ m =? -1) then ret false
  else
    r <- sys (Semop (sem_id_ m) sem_index 1 SEM_UNDO) ;;      (* V *)
    if rv r =? -1 then log LERROR "Failed to unlock semaphore" ;;; ret false
    else ret true.

(** [IPCManager::addWorkerProcess] *)
Definition addWorkerProcess (pid worker_id : Z) : M t bool :=
  locked <- lockSharedMemory (SEM_WORKER_LIST K) ;;
  if negb locked then ret false
  else
    m <- get ;;
    success <-
      match shared_data_ m with
      | nullptr => ret false
      | invalid_ptr => stop Segfault
      | mapped d =>
          if SharedMemoryData.worker_count d <? constants.MAX_WORKER_PROCESSES then
            t_start <- time_nullptr ;;
            t_beat <- time_nullptr ;;
            let info := ProcessInfo.mk pid worker_id STARTING t_start t_beat in
            let i := Z.to_nat (SharedMemoryData.worker_count d) in
            put (set_shared_data_
                   (mapped (SharedMemoryData.set_workers
                              (upd i info (SharedMemoryData.workers d))
                              (SharedMemoryData.worker_count d + 1) d)) m) ;;;
            log INFO "Worker process added" ;;;
            ret true
          else ret false
      end ;;
    unlockSharedMemory (SEM_WORKER_LIST K) ;;;
    ret success.

(** The scan [for (int i = 0; i < worker_count; ++i) if (workers[i].pid == pid)]:
    [n] slots are left, the next one is [i]. *)
Fixpoint find_pid (ws : list ProcessInfo.t) (pid : Z) (i n : nat) : option nat :=
  match n with
  | O => None
  | S n' =>
      if ProcessInfo.pid (nth i ws ProcessInfo.zero) =? pid then Some i
      else find_pid ws pid (S i) n'
  end.

(** [for (int j = i; j < worker_count - 1; ++j) workers[j] = workers[j + 1]]:
    [n] moves are left, the next one is into slot [j]. *)
Fixpoint shift_down (ws : list ProcessInfo.t) (j n : nat) : list ProcessInfo.t :=
  match n with
  | O => ws
  | S n' => shift_down (upd j (nth (S j) ws ProcessInfo.zero) ws) (S j) n'
  end.

(** [IPCManager::removeWorkerProcess] *)
Definition removeWorkerProcess (pid : Z) : M t bool :=
  locked <- lockSharedMemory (SEM_WORKER_LIST K) ;;
  if negb locked then ret false
  else
    m <- get ;;
    success <-
      match shared_data_ m with
      | nullptr => ret false
      | invalid_ptr => stop Segfault
      | mapped d =>
          let ws := SharedMemoryData.workers d in
          let n := SharedMemoryData.worker_count d in
          match find_pid ws pid 0 (Z.to_nat n) with
          | Some i =>
              put (set_shared_data_
                     (mapped (SharedMemoryData.set_workers
                                (shift_down ws i (Z.to_nat (n - 1) - i))
                                (n - 1) d)) m) ;;;
              log INFO "Worker process removed" ;;;
              ret true
          | None => ret false
          end
      end ;;
    unlockSharedMemory (SEM_WORKER_LIST K) ;;;
    ret success.

(** [IPCManager::updateWorkerStatus] *)
Definition updateWorkerStatus (pid : Z) (status : ProcessStatus) : M t bool :=
  locked <- lockSharedMemory (SEM_WORKER_LIST K) ;;
  if negb locked then ret false
  else
    m <- get ;;
    success <-
      match shared_data_ m with
      | nullptr => ret false
      | invalid_ptr => stop Segfault
      | mapped d =>
          let ws := SharedMemoryData.workers d in
          match find_pid ws pid 0 (Z.to_nat (SharedMemoryData.worker_count d)) with
          | Some i =>
              now <- time_nullptr ;;
              let rec := nth i ws ProcessInfo.zero in
              let rec := ProcessInfo.set_status status rec in
              let rec := ProcessInfo.set_last_heartbeat now rec in
              put (set_shared_data_
                     (mapped (SharedMemoryData.set_workers
                                (upd i rec ws)
                                (SharedMemoryData.worker_count d) d)) m) ;;;
              ret true
          | None => ret false
          end
      end ;;
    unlockSharedMemory (SEM_WORKER_LIST K) ;;;
    ret success.

(** [IPCManager::updateStatistics] *)
Definition updateStatistics (stats : ProcessStatistics.t) : M t bool :=
  locked <- lockSharedMemory (SEM_STATISTICS K) ;;
  if negb locked then ret false
  else
    m <- get ;;
    match shared_data_ m with
    | nullptr => ret tt
    | invalid_ptr => stop Segfault
    | mapped d =>
        now <- time_nullptr ;;
        put (set_shared_data_
               (mapped (SharedMemoryData.set_stats
                          (ProcessStatistics.set_last_update now stats) d)) m)
    end ;;;
    unlockSharedMemory (SEM_STATISTICS K) ;;;
    ret true.

(** [IPCManager::getStatistics] *)
Definition getStatistics : M t ProcessStatistics.t :=
  locked <- lockSharedMemory (SEM_STATISTICS K) ;;
  if locked then
    m <- get ;;
    stats <-
      match shared_data_ m with
      | nullptr => ret ProcessStatistics.zero
      | invalid_ptr => stop Segfault
      | mapped d => ret (SharedMemoryData.stats d)
      end ;;
    unlockSharedMemory (SEM_STATISTICS K) ;;;
    ret stats
  else ret ProcessStatistics.zero.

(** [IPCManager::getWorkerProcesses] *)
Definition getWorkerProcesses : M t (list ProcessInfo.t) :=
  locked <- lockSharedMemory (SEM_WORKER_LIST K) ;;
  if locked then
    m <- get ;;
    workers <-
      match shared_data_ m with
      | nullptr => ret []
      | invalid_ptr => stop Segfault
      | mapped d =>
          ret (map (fun i => nth i (SharedMemoryData.workers d) ProcessInfo.zero)
                   (seq 0 (Z.to_nat (SharedMemoryData.worker_count d))))
      end ;;
    unlockSharedMemory (SEM_WORKER_LIST K) ;;;
    ret workers
  else ret [].

(** [IPCManager::setShutdownFlag] *)
Definition setShutdownFlag (flag : bool) : M t unit :=
  m <- get ;;
  match shared_data_ m with
  | nullptr => ret tt
  | invalid_ptr => stop Segfault
  | mapped d =>
      put (set_shared_data_ (mapped (SharedMemoryData.set_shutdown_flag flag d)) m)
  end.

(** [IPCManager::getShutdownFlag] *)
Definition getShutdownFlag : M t bool :=
  m <- get ;;
  match shared_data_ m with
  | nullptr => ret false
  | invalid_ptr => stop Segfault
  | mapped d => ret (SharedMemoryData.shutdown_flag d)
  end.

(** [IPCManager::connectMessageQueue] *)
Definition connectMessageQueue : M t bool :=
  key <- sys (Ftok (MSG_QUEUE_ID K)) ;;
  if rv key =? -1 then
    log LERROR "Failed to generate key for message queue" ;;; ret false
  else
    r <- sys (Msgget (rv key) perm_0666) ;;
    modify (set_msg_queue_id_ (rv r)) ;;;
    if rv r =? -1 then
      log LERROR "Failed to connect to message queue" ;;; ret false
    else
      log DBG "Connected to message queue" ;;; ret true.

(** [IPCManager::connectSharedMemory] *)
Definition connectSharedMemory : M t bool :=
  key <- sys (Ftok (SHM_ID K)) ;;
  if rv key =? -1 then
    log LERROR "Failed to generate key for shared memory" ;;; ret false
  else
    r <- sys (Shmget (rv key) perm_0666) ;;
    modify (set_shm_id_ (rv r)) ;;;
    if rv r =? -1 then
      log LERROR "Failed to connect to shared memory" ;;; ret false
    else
      (* map the segment *)
      p <- shmat (rv r) ;;
      modify (set_shared_data_ p) ;;;
      match p with
      | invalid_ptr => log LERROR "Failed to attach shared memory" ;;; ret false
      | _ => log DBG "Connected to shared memory" ;;; ret true
      end.

(** [IPCManager::connectSemaphores] *)
Definition connectSemaphores : M t bool :=
  key <- sys (Ftok (SEM_ID K)) ;;
  if rv key =? -1 then
    log LERROR "Failed to generate key for semaphores" ;;; ret false
  else
    r <- sys (Semget (rv key) (SEM_COUNT K) perm_0666) ;;
    modify (set_sem_id_ (rv r)) ;;;
    if rv r =? -1 then
      log LERROR "Failed to connect to semaphores" ;;; ret false
    else
      log DBG "Connected to semaphores" ;;; ret true.

(** What [memset(shared_data_, 0, sizeof(SharedMemoryData))] and the five
    assignments of [initializeSharedData] leave in the segment. *)
Definition fresh_segment (master_pid now : Z) : SharedMemoryData.t :=
  SharedMemoryData.mk
    (repeat ProcessInfo.zero (Z.to_nat constants.MAX_WORKER_PROCESSES))
    0 ProcessStatistics.zero master_pid now false false.

(** [IPCManager::initializeSharedData] *)
Definition initializeSharedData : M t unit :=
  m <- get ;;
  match shared_data_ m with
  | nullptr => ret tt
  | invalid_ptr => stop Segfault
  | mapped _ =>
      pid <- sys Getpid ;;
      now <- time_nullptr ;;
      put (set_shared_data_ (mapped (fresh_segment (rv pid) now)) m) ;;;
      log DBG "Shared memory data initialized"
  end.

(** [IPCManager::setReloadFlag] *)
Definition setReloadFlag (flag : bool) : M t unit :=
  m <- get ;;
  match shared_data_ m with
  | nullptr => ret tt
  | invalid_ptr => stop Segfault
  | mapped d =>
      put (set_shared_data_ (mapped (SharedMemoryData.set_reload_flag flag d)) m)
  end.

(** [IPCManager::getReloadFlag] *)
Definition getReloadFlag : M t bool :=
  m <- get ;;
  match shared_data_ m with
  | nullptr => ret false
  | invalid_ptr => stop Segfault
  | mapped d => ret (SharedMemoryData.reload_flag d)
  end.

Definition set_is_master_ (b : bool) (m : t) : t :=
  mk b (initialized_ m) (msg_queue_id_ m) (shm_id_ m) (sem_id_ m) (shared_data_ m).
Definition set_initialized_ (b : bool) (m : t) : t :=
  mk (is_master_ m) b (msg_queue_id_ m) (shm_id_ m) (sem_id_ m) (shared_data_ m).

Section Lifecycle.
(** [setupSignalHandlers] is [signal(SIGPIPE, SIG_IGN)] and [shmdt] detaches
    the segment: both act on kernel state that a [World] does not hold, and
    are taken as given. *)
Variable setupSignalHandlers : M t unit.
Variable shmdt : M t unit.

(** [IPCManager::initializeMaster] *)
Definition initializeMaster : M t bool :=
  log INFO "Initializing IPC manager for master process" ;;;
  queue <- createMessageQueue ;;
  if negb queue then
    log LERROR "Failed to create message queue" ;;; ret false
  else
    memory <- createSharedMemory ;;
    if negb memory then
      log LERROR "Failed to create shared memory" ;;; ret false
    else
      semaphores <- createSemaphores ;;
      if negb semaphores then
        log LERROR "Failed to create semaphores" ;;; ret false
      else
        initializeSharedData ;;;
        setupSignalHandlers ;;;
        modify (set_initialized_ true) ;;;
        log INFO "IPC manager initialized successfully for master process" ;;;
        ret true.

(** [IPCManager::initializeWorker] *)
Definition initializeWorker : M t bool :=
  log INFO "Initializing IPC manager for worker process" ;;;
  queue <- connectMessageQueue ;;
  if negb queue then
    log LERROR "Failed to connect to message queue" ;;; ret false
  else
    memory <- connectSharedMemory ;;
    if negb memory then
      log LERROR "Failed to connect to shared memory" ;;; ret false
    else
      semaphores <- connectSemaphores ;;
      if negb semaphores then
        log LERROR "Failed to connect to semaphores" ;;; ret false
      else
        setupSignalHandlers ;;;
        modify (set_initialized_ true) ;;;
        log INFO "IPC manager initialized successfully for worker process" ;;;
        ret true.

(** [IPCManager::initialize] *)
Definition initialize (is_master : bool) : M t bool :=
  modify (set_is_master_ is_master) ;;;
  if is_master then initializeMaster else initializeWorker.

(** [IPCManager::cleanup] *)
Definition cleanup : M t unit :=
  m <- get ;;
  if negb (initialized_ m) then ret tt
  else
    log INFO "Cleaning up IPC resources..." ;;;
    (* detach the segment *)
    match shared_data_ m with
    | mapped _ => shmdt ;;; modify (set_shared_data_ nullptr)
    | _ => ret tt
    end ;;;
    (* the master removes the resources *)
    m <- get ;;
    when (is_master_ m)
         (when (negb (msg_queue_id_ m =? -1))
               (sys (Msgctl (msg_queue_id_ m) IPC_RMID) ;;;
                log DBG "Message queue removed") ;;;
          when (negb (shm_id_ m =? -1))
               (sys (Shmctl (shm_id_ m) IPC_RMID) ;;;
                log DBG "Shared memory removed") ;;;
          when (negb (sem_id_ m =? -1))
               (sys (Semctl (sem_id_ m) 0 IPC_RMID 0) ;;;
                log DBG "Semaphores removed")) ;;;
    modify (set_msg_queue_id_ (-1)) ;;;
    modify (set_shm_id_ (-1)) ;;;
    modify (set_sem_id_ (-1)) ;;;
    modify (set_initialized_ false) ;;;
    log INFO "IPC cleanup completed".

End Lifecycle.

End Methods.
End IPCManager.

(* ------------------------------------------------------------------ *)
(** ** master/master_process.cpp *)

Module WorkerInfo.
Record t := mk {
  pid : Z;
  worker_id : Z;
  start_time : Z;
  restart_count : Z;
  status : ProcessStatus
}.
Definition incr_restart_count (i : t) : t :=
  mk (pid i) (worker_id i) (start_time i) (restart_count i + 1) (status i).
End WorkerInfo.

(** [std::map<int, WorkerInfo>]: the entries in ascending key order. *)
Module WorkerMap.
Definition t := list (Z * WorkerInfo.t).

(** [workers_[k] = v] *)
Fixpoint assign (k : Z) (v : WorkerInfo.t) (m : t) : t :=
  match m with
  | [] => [(k, v)]
  | (k', v') :: rest =>
      if k <? k' then (k, v) :: m
      else if k =? k' then (k, v) :: rest
      else (k', v') :: assign k v rest
  end.

(** [std::find_if(begin, end, [pid](pair) { return pair.second.pid == pid; })]:
    the position of the first entry of that pid. *)
Fixpoint find_if_pid (pid : Z) (m : t) : option nat :=
  match m with
  | [] => None
  | (_, v) :: rest =>
      if WorkerInfo.pid v =? pid then Some O
      else option_map S (find_if_pid pid rest)
  end.

(** [erase(it)] *)
Fixpoint erase (it : nat) (m : t) : t :=
  match m, it with
  | [], _ => []
  | _ :: rest, O => rest
  | e :: rest, S it' => e :: erase it' rest
  end.

(** [it->second.restart_count++] *)
Fixpoint incr_restart_count (it : nat) (m : t) : t :=
  match m, it with
  | [], _ => []
  | (k, v) :: rest, O => (k, WorkerInfo.incr_restart_count v) :: rest
  | e :: rest, S it' => e :: incr_restart_count it' rest
  end.

Definition empty (m : t) : bool :=
  match m with [] => true | _ => false end.

(** [it->first] *)
Definition key_at (it : nat) (m : t) : Z :=
  match nth_error m it with
  | Some (k, _) => k
  | None => 0
  end.

(** The entry of key [k]. *)
Fixpoint lookup (k : Z) (m : t) : option WorkerInfo.t :=
  match m with
  | [] => None
  | (k', v) :: rest => if k =? k' then Some v else lookup k rest
  end.
End WorkerMap.

Module MasterProcess.

Record t := mk {
  running_ : bool;
  workers_ : WorkerMap.t;
  ipc : IPCManager.t;               (* IPCManager::getInstance() *)
  g_shutdown_requested : bool;
  g_reload_requested : bool;
  g_child_exited : bool
}.

Definition set_running_ (b : bool) (m : t) : t :=
  mk b (workers_ m) (ipc m) (g_shutdown_requested m) (g_reload_requested m)
     (g_child_exited m).
Definition set_workers_ (ws : WorkerMap.t) (m : t) : t :=
  mk (running_ m) ws (ipc m) (g_shutdown_requested m) (g_reload_requested m)
     (g_child_exited m).
Definition set_ipc (i : IPCManager.t) (m : t) : t :=
  mk (running_ m) (workers_ m) i (g_shutdown_requested m) (g_reload_requested m)
     (g_child_exited m).
Definition set_g_shutdown_requested (b : bool) (m : t) : t :=
  mk (running_ m) (workers_ m) (ipc m) b (g_reload_requested m) (g_child_exited m).
Definition set_g_reload_requested (b : bool) (m : t) : t :=
  mk (running_ m) (workers_ m) (ipc m) (g_shutdown_requested m) b (g_child_exited m).
Definition set_g_child_exited (b : bool) (m : t) : t :=
  mk (running_ m) (workers_ m) (ipc m) (g_shutdown_requested m)
     (g_reload_requested m) b.

(** [signal_handler] *)
Definition signal_handler (sig : Z) (m : t) : t :=
  if (sig =? SIGTERM) || (sig =? SIGINT) then set_g_shutdown_requested true m
  else if sig =? SIGHUP then set_g_reload_requested true m
  else if sig =? SIGCHLD then set_g_child_exited true m
  else m.

(** [std::this_thread::sleep_for]: the signals that arrive while the process
    sleeps run the handler. *)
Definition sleep_for (ms : Z) : M t unit :=
  fun m w =>
    (Done tt,
     fold_left (fun m sig => signal_handler sig m)
               (signals (env w) (length (trace w))) m,
     issue (SleepFor ms) w).

(** [while ((pid = waitpid(-1, &status, WNOHANG)) > 0) body]: [pids] is what
    the successive calls return. *)
Fixpoint reap_loop {S} (pids : list Z) (body : Z -> M S unit) : M S unit :=
  match pids with
  | [] => sys Waitpid ;;; ret tt
  | pid :: rest =>
      sys Waitpid ;;;
      if 0 <? pid then body pid ;;; reap_loop rest body else ret tt
  end.

Definition while_waitpid {S} (body : Z -> M S unit) : M S unit :=
  fun s w => reap_loop (reaped (env w) (length (trace w))) body s w.

Section Methods.
Variable K : IpcConstants.

Definition ipc_call {A} (c : M IPCManager.t A) : M t A := zoom ipc set_ipc c.

(** [MasterProcess::createWorkerProcess] *)
Definition createWorkerProcess (worker_id : Z) : M t bool :=
  r <- sys Fork ;;
  let pid := rv r in
  if pid <? 0 then
    log LERROR "Failed to fork worker process" ;;; ret false
  else if pid =? 0 then
    (* the child: execWorkerProcess(worker_id) does not return *)
    stop (WorkerImage worker_id)
  else
    (* the parent: record the worker *)
    start_time <- time_nullptr ;;
    let worker_info := WorkerInfo.mk pid worker_id start_time 0 STARTING in
    modify (fun m => set_workers_ (WorkerMap.assign worker_id worker_info (workers_ m)) m) ;;;
    ipc_call (IPCManager.addWorkerProcess K pid worker_id) ;;;
    log INFO "Worker process created" ;;;
    ret true.

(** [MasterProcess::createWorkerProcesses]: slots [i + 1] for [i] from the
    current one up; [n] are left. *)
Fixpoint createWorkerProcesses_from (n : nat) (i : Z) : M t bool :=
  match n with
  | O => log INFO "All worker processes created successfully" ;;; ret true
  | S n' =>
      ok <- createWorkerProcess (i + 1) ;;
      if negb ok then log LERROR "Failed to create worker process" ;;; ret false
      else createWorkerProcesses_from n' (i + 1)
  end.

Definition createWorkerProcesses (worker_count_ : Z) : M t bool :=
  log INFO "Creating worker processes..." ;;;
  createWorkerProcesses_from (Z.to_nat worker_count_) 0.

(** The body of the loop of [MasterProcess::handleDeadWorker], for one reaped
    [pid]. *)
Definition handleDeadWorker_one (pid : Z) : M t unit :=
  log INFO "Child process exited" ;;;
  (* look the worker up *)
  m <- get ;;
  match WorkerMap.find_if_pid pid (workers_ m) with
  | Some it =>
      let worker_id := WorkerMap.key_at it (workers_ m) in
      (* remove it from the shared table *)
      ipc_call (IPCManager.removeWorkerProcess K pid) ;;;
      (* restart it? *)
      m <- get ;;
      restart <- (if running_ m
                  then flag <- ipc_call IPCManager.getShutdownFlag ;; ret (negb flag)
                  else ret false) ;;
      if restart then
        log WARN "Worker process died unexpectedly, restarting..." ;;;
        modify (fun m => set_workers_ (WorkerMap.incr_restart_count it (workers_ m)) m) ;;;
        (* restart the worker *)
        ok <- createWorkerProcess worker_id ;;
        if ok then log INFO "Worker process restarted successfully"
        else log LERROR "Failed to restart worker process"
      else
        (* a regular shutdown: drop the record *)
        modify (fun m => set_workers_ (WorkerMap.erase it (workers_ m)) m)
  | None => ret tt
  end.

(** [MasterProcess::handleDeadWorker] *)
Definition handleDeadWorker : M t unit :=
  while_waitpid handleDeadWorker_one.

(** [MasterProcess::handleHeartbeatMessage] *)
Definition handleHeartbeatMessage (message : IPCMessage) : M t unit :=
  ipc_call (IPCManager.updateWorkerStatus K (sender_pid message) RUNNING) ;;;
  log TRACE "Heartbeat received from worker process".

(** The status [message.data.status_data.status] of a message; a message of
    another kind holds no status there, and [STARTING] (the value 0) stands
    for what the union then reads. *)
Definition status_of (message : IPCMessage) : ProcessStatus :=
  match data message with
  | status_data _ s => s
  | _ => STARTING
  end.

(** [MasterProcess::handleStatisticsMessage]: under this name the source
    holds the handler of a status update. *)
Definition handleStatisticsMessage (message : IPCMessage) : M t unit :=
  ipc_call (IPCManager.updateWorkerStatus K (sender_pid message) (status_of message)) ;;;
  log DBG "Status update from worker".

(** [MasterProcess::handleErrorReportMessage] *)
Definition handleErrorReportMessage (message : IPCMessage) : M t unit :=
  log LERROR "Error report from worker".

(** The statistics [message.data.stats_data] of a message. *)
Definition stats_of (message : IPCMessage) : ProcessStatistics.t :=
  match data message with
  | stats_data s => s
  | _ => ProcessStatistics.zero
  end.

(** [MasterProcess::updateGlobalStatistics]: the handler of a statistics
    message. *)
Definition updateGlobalStatistics (message : IPCMessage) : M t unit :=
  ipc_call (IPCManager.updateStatistics K (stats_of message)) ;;;
  log TRACE "Statistics updated from worker".

(** The loop of [MasterProcess::processIPCMessages]:
    [while (receiveMessage(message, MessageType::ANY, false))]; [msgs] is what
    the queue hands out. *)
Fixpoint processIPCMessages_loop (msgs : list IPCMessage) : M t unit :=
  m <- get ;;
  if negb (IPCManager.initialized_ (ipc m)) || (IPCManager.msg_queue_id_ (ipc m) =? -1) then
    log LERROR "IPC manager not initialized or message queue not available"
  else
    r <- sys (Msgrcv (IPCManager.msg_queue_id_ (ipc m)) IPC_NOWAIT) ;;
    match msgs with
    | [] =>
        (* msgrcv returned -1 *)
        when (negb (errno r =? ENOMSG) && negb (errno r =? EAGAIN))
             (log LERROR "Failed to receive message")
    | message :: rest =>
        log TRACE "Message received" ;;;
        match type message with
        | HEARTBEAT => handleHeartbeatMessage message
        | STATUS_UPDATE => handleStatisticsMessage message
        | ERROR_REPORT => handleErrorReportMessage message
        | STATISTICS => updateGlobalStatistics message
        | _ => log WARN "Unknown message type"
        end ;;;
        processIPCMessages_loop rest
    end.

Definition processIPCMessages : M t unit :=
  fun m w => processIPCMessages_loop (inbox (env w) (length (trace w))) m w.

(** [MasterProcess::monitorWorkerProcesses]: the liveness sweep.  The list
    it asks the manager for is the one [getWorkerProcesses] returns. *)
Definition monitorWorkerProcesses : M t unit :=
  workers <- ipc_call (IPCManager.getWorkerProcesses K) ;;
  current_time <- time_nullptr ;;
  for_each workers (fun worker =>
    (* heartbeat timeout? *)
    if current_time - ProcessInfo.last_heartbeat worker >? constants.HEARTBEAT_TIMEOUT then
      log WARN "Worker process heartbeat timeout" ;;;
      r <- sys (Kill (ProcessInfo.pid worker) SIGTERM) ;;
      when (rv r =? 0) (log INFO "Sent SIGTERM to worker process")
    else ret tt).

(** [const int max_wait_time = 30;] *)
Definition max_wait_time : Z := 30.

(** The wait of [MasterProcess::gracefulShutdown]:
    [while (!workers_.empty() && wait_time < max_wait_time)]; the handler it
    runs on SIGCHLD is [handleDeadWorker]. *)
Fixpoint gracefulShutdown_wait (fuel : nat) (wait_time : Z) : M t Z :=
  m <- get ;;
  if negb (WorkerMap.empty (workers_ m)) && (wait_time <? max_wait_time) then
    match fuel with
    | O => stop OutOfFuel
    | S fuel' =>
        sleep_for 1000 ;;;
        m <- get ;;
        when (g_child_exited m)
             (handleDeadWorker ;;; modify (set_g_child_exited false)) ;;;
        gracefulShutdown_wait fuel' (wait_time + 1)
    end
  else ret wait_time.

(** [kill(worker.second.pid, sig)] for every entry of [workers_] whose pid
    is positive. *)
Definition signal_workers (l : LogLevel) (text : string) (sig : Z) : M t unit :=
  m <- get ;;
  for_each (workers_ m) (fun worker =>
    when (0 <? WorkerInfo.pid (snd worker))
         (log l text ;;; sys (Kill (WorkerInfo.pid (snd worker)) sig) ;;; ret tt)).

(** [MasterProcess::gracefulShutdown] *)
Definition gracefulShutdown (fuel : nat) : M t unit :=
  log INFO "Starting graceful shutdown..." ;;;
  signal_workers INFO "Sending SIGTERM to worker process" SIGTERM ;;;
  gracefulShutdown_wait fuel 0 ;;;
  m <- get ;;
  when (negb (WorkerMap.empty (workers_ m)))
       (log WARN "Force killing remaining worker processes..." ;;;
        signal_workers WARN "Sending SIGKILL to worker process" SIGKILL ;;;
        sleep_for 2000 ;;;
        while_waitpid (fun _ => log INFO "Reaped zombie process")) ;;;
  log INFO "Graceful shutdown completed".

End Methods.
End MasterProcess.

(* ------------------------------------------------------------------ *)
(** ** worker/worker_process.cpp *)

(** The values of [ConfigManager::getInstance().getConfig()] the worker's
    loop reads. *)
Record Config := mkConfig {
  batch_size : Z;            (* market_data.batch_size, an int *)
  process_interval : Z;      (* market_data.process_interval, milliseconds *)
  reconnect_interval : Z     (* sdk.reconnect_interval, seconds *)
}.

Module WorkerProcess.

Record t := mk {
  worker_id_ : Z;
  running_ : bool;
  sdk_ : bool;                       (* sdk_ != nullptr *)
  db_manager_ : bool;                (* db_manager_ != nullptr *)
  last_heartbeat_time_ : Z;
  statistics_ : ProcessStatistics.t;
  data_buffers_ : MarketDataType -> option (list MarketData);
  ipc : IPCManager.t;                (* IPCManager::getInstance() *)
  config : Config;
  g_shutdown_requested : bool;
  g_reload_requested : bool
}.

Definition set_running_ (b : bool) (x : t) : t :=
  mk (worker_id_ x) b (sdk_ x) (db_manager_ x) (last_heartbeat_time_ x)
     (statistics_ x) (data_buffers_ x) (ipc x) (config x)
     (g_shutdown_requested x) (g_reload_requested x).
Definition set_last_heartbeat_time_ (v : Z) (x : t) : t :=
  mk (worker_id_ x) (running_ x) (sdk_ x) (db_manager_ x) v
     (statistics_ x) (data_buffers_ x) (ipc x) (config x)
     (g_shutdown_requested x) (g_reload_requested x).
Definition set_statistics_ (s : ProcessStatistics.t) (x : t) : t :=
  mk (worker_id_ x) (running_ x) (sdk_ x) (db_manager_ x) (last_heartbeat_time_ x)
     s (data_buffers_ x) (ipc x) (config x)
     (g_shutdown_requested x) (g_reload_requested x).
Definition set_data_buffers_ (b : MarketDataType -> option (list MarketData)) (x : t) : t :=
  mk (worker_id_ x) (running_ x) (sdk_ x) (db_manager_ x) (last_heartbeat_time_ x)
     (statistics_ x) b (ipc x) (config x)
     (g_shutdown_requested x) (g_reload_requested x).
Definition set_ipc (i : IPCManager.t) (x : t) : t :=
  mk (worker_id_ x) (running_ x) (sdk_ x) (db_manager_ x) (last_heartbeat_time_ x)
     (statistics_ x) (data_buffers_ x) i (config x)
     (g_shutdown_requested x) (g_reload_requested x).
Definition set_g_reload_requested (b : bool) (x : t) : t :=
  mk (worker_id_ x) (running_ x) (sdk_ x) (db_manager_ x) (last_heartbeat_time_ x)
     (statistics_ x) (data_buffers_ x) (ipc x) (config x)
     (g_shutdown_requested x) b.

(** [data_buffers_[k] = v] on a buffer that exists. *)
Definition store (k : MarketDataType) (v : list MarketData)
    (b : MarketDataType -> option (list MarketData)) :
    MarketDataType -> option (list MarketData) :=
  fun k' => if MarketDataType_eqb k' k then Some v else b k'.

(** The statistics counters are [uint64_t]. *)
Definition count_message (size : Z) (now : Z) (s : ProcessStatistics.t) : ProcessStatistics.t :=
  ProcessStatistics.mk (ProcessStatistics.worker_id s) (ProcessStatistics.start_time s)
    (u64 (ProcessStatistics.messages_processed s + 1))
    (u64 (ProcessStatistics.data_received s + size))
    (ProcessStatistics.data_sent s) (ProcessStatistics.errors s) now.
Definition count_sent (bytes : Z) (s : ProcessStatistics.t) : ProcessStatistics.t :=
  ProcessStatistics.mk (ProcessStatistics.worker_id s) (ProcessStatistics.start_time s)
    (ProcessStatistics.messages_processed s) (ProcessStatistics.data_received s)
    (u64 (ProcessStatistics.data_sent s + bytes)) (ProcessStatistics.errors s)
    (ProcessStatistics.last_update s).
Definition count_error (s : ProcessStatistics.t) : ProcessStatistics.t :=
  ProcessStatistics.mk (ProcessStatistics.worker_id s) (ProcessStatistics.start_time s)
    (ProcessStatistics.messages_processed s) (ProcessStatistics.data_received s)
    (ProcessStatistics.data_sent s) (u64 (ProcessStatistics.errors s + 1))
    (ProcessStatistics.last_update s).

(** The locals of [WorkerProcess::mainLoop], in steady-clock nanoseconds. *)
Record locals := mkLocals {
  last_heartbeat : Z;
  last_flush : Z;
  last_stats : Z;
  flush_interval : Z       (* milliseconds(config.market_data.process_interval) *)
}.
Definition heartbeat_interval : Z := 30 * 1000000000.
Definition stats_interval : Z := 60 * 1000000000.
Definition milliseconds (n : Z) : Z := n * 1000000.

(** [worker_signal_handler] *)
Definition set_g_shutdown_requested (b : bool) (x : t) : t :=
  mk (worker_id_ x) (running_ x) (sdk_ x) (db_manager_ x) (last_heartbeat_time_ x)
     (statistics_ x) (data_buffers_ x) (ipc x) (config x)
     b (g_reload_requested x).

Definition worker_signal_handler (sig : Z) (x : t) : t :=
  if (sig =? SIGTERM) || (sig =? SIGINT) then set_g_shutdown_requested true x
  else if sig =? SIGHUP then set_g_reload_requested true x
  else x.

(** [std::this_thread::sleep_for]: the signals that arrive while the process
    sleeps run the handler. *)
Definition sleep_for (ms : Z) : M t unit :=
  fun x w =>
    (Done tt,
     fold_left (fun x sig => worker_signal_handler sig x)
               (signals (env w) (length (trace w))) x,
     issue (SleepFor ms) w).

(** An exception thrown by the sink is an answer with a non-zero [errno]. *)
Definition throws (r : Sysret) : bool := negb (errno r =? 0).

(** [strncpy(dst, s.c_str(), n); dst[n] = 0], with [dst] read back as a C
    string: the characters of [s] before its first NUL, and no more than
    [n] of them. *)
Fixpoint strncpy (n : nat) (s : string) : string :=
  match n, s with
  | S n', String c rest =>
      if Ascii.eqb c Ascii.zero then EmptyString else String c (strncpy n' rest)
  | _, _ => EmptyString
  end.

Section Methods.
Variable K : IpcConstants.
(** [sizeof(MarketData)] *)
Variable sizeof_MarketData : Z.
(** [sizeof(message.data.error_data.error_message)], an array of at least
    one character that the message header declares. *)
Variable sizeof_error_message : nat.
(** [handleReload] and [handleReconnection] drive the configuration parser
    and the market SDK, which lie outside the supervision engine. *)
Variable handleReload : M t unit.
Variable handleReconnection : M t unit.

Definition ipc_call {A} (c : M IPCManager.t A) : M t A := zoom ipc set_ipc c.

(** [WorkerProcess::sendHeartbeat] *)
Definition sendHeartbeat : M t unit :=
  x <- get ;;
  pid <- sys Getpid ;;
  ppid <- sys Getppid ;;
  ts <- time_nullptr ;;
  let message :=
    mkIPCMessage HEARTBEAT (rv pid) (rv ppid) ts (heartbeat_data (worker_id_ x)) in
  sent <- ipc_call (IPCManager.sendMessage message) ;;
  when (negb sent) (log WARN "Failed to send heartbeat") ;;;
  now <- time_nullptr ;;
  modify (set_last_heartbeat_time_ now).

(** [WorkerProcess::sendStatusUpdate] *)
Definition sendStatusUpdate (status : ProcessStatus) : M t unit :=
  x <- get ;;
  pid <- sys Getpid ;;
  ppid <- sys Getppid ;;
  ts <- time_nullptr ;;
  let message :=
    mkIPCMessage STATUS_UPDATE (rv pid) (rv ppid) ts (status_data (worker_id_ x) status) in
  sent <- ipc_call (IPCManager.sendMessage message) ;;
  when (negb sent) (log WARN "Failed to send status update").

(** [WorkerProcess::sendErrorReport]: the text is cut to the buffer of the
    message, whose last character is the closing NUL. *)
Definition sendErrorReport (error_message : string) : M t unit :=
  x <- get ;;
  pid <- sys Getpid ;;
  ppid <- sys Getppid ;;
  ts <- time_nullptr ;;
  let message :=
    mkIPCMessage ERROR_REPORT (rv pid) (rv ppid) ts
      (error_data (worker_id_ x)
         (strncpy (sizeof_error_message - 1) error_message)) in
  sent <- ipc_call (IPCManager.sendMessage message) ;;
  when (negb sent) (log WARN "Failed to send error report").

(** [WorkerProcess::sendStatistics] *)
Definition sendStatistics : M t unit :=
  x <- get ;;
  pid <- sys Getpid ;;
  ppid <- sys Getppid ;;
  ts <- time_nullptr ;;
  let message :=
    mkIPCMessage STATISTICS (rv pid) (rv ppid) ts (stats_data (statistics_ x)) in
  sent <- ipc_call (IPCManager.sendMessage message) ;;
  when (negb sent) (log WARN "Failed to send statistics").

(** [WorkerProcess::flushDataBuffer] *)
Definition flushDataBuffer (data_type : MarketDataType) : M t unit :=
  x <- get ;;
  match data_buffers_ x data_type with
  | None => ret tt
  | Some [] => ret tt
  | Some buffer =>
      saved <-
        (if db_manager_ x then r <- sys (SaveBatch buffer) ;; ret (Some r)
         else ret None) ;;
      match saved with
      | Some r =>
          if throws r then
            (* catch (const std::exception&): the buffer is not cleared *)
            log LERROR "Error flushing data buffer" ;;;
            modify (fun x => set_statistics_ (count_error (statistics_ x)) x)
          else
            (if negb (rv r =? 0) then
               modify (fun x => set_statistics_
                 (count_sent (u64 (Z.of_nat (length buffer) * sizeof_MarketData))
                             (statistics_ x)) x) ;;;
               log DBG "Flushed market data records"
             else
               log LERROR "Failed to flush data buffer" ;;;
               modify (fun x => set_statistics_ (count_error (statistics_ x)) x)) ;;;
            modify (fun x => set_data_buffers_ (store data_type [] (data_buffers_ x)) x)
      | None =>
          log LERROR "Failed to flush data buffer" ;;;
          modify (fun x => set_statistics_ (count_error (statistics_ x)) x) ;;;
          modify (fun x => set_data_buffers_ (store data_type [] (data_buffers_ x)) x)
      end
  end.

(** [WorkerProcess::flushDataBuffers] *)
Definition flushDataBuffers : M t unit :=
  for_each MarketDataType_all (fun data_type =>
    x <- get ;;
    match data_buffers_ x data_type with
    | Some (_ :: _) => flushDataBuffer data_type
    | _ => ret tt
    end).

(** [WorkerProcess::onMarketData] *)
Definition onMarketData (data : MarketData) : M t unit :=
  now <- time_nullptr ;;
  modify (fun x => set_statistics_ (count_message sizeof_MarketData now (statistics_ x)) x) ;;;
  x <- get ;;
  match data_buffers_ x (md_type data) with
  | Some buffer =>
      let buffer := buffer ++ [data] in
      modify (fun x => set_data_buffers_ (store (md_type data) buffer (data_buffers_ x)) x) ;;;
      (* flush at once? size_t >= int compares as unsigned *)
      x <- get ;;
      when (Z.of_nat (length buffer) >=? u64 (batch_size (config x)))
           (flushDataBuffer (md_type data))
  | None => ret tt
  end ;;;
  log TRACE "Market data received".

(** The loop of [WorkerProcess::processIPCMessages]. *)
Fixpoint processIPCMessages_loop (msgs : list IPCMessage) : M t unit :=
  x <- get ;;
  if negb (IPCManager.initialized_ (ipc x)) || (IPCManager.msg_queue_id_ (ipc x) =? -1) then
    log LERROR "IPC manager not initialized or message queue not available"
  else
    r <- sys (Msgrcv (IPCManager.msg_queue_id_ (ipc x)) IPC_NOWAIT) ;;
    match msgs with
    | [] =>
        (* msgrcv returned -1 *)
        when (negb (errno r =? ENOMSG) && negb (errno r =? EAGAIN))
             (log LERROR "Failed to receive message")
    | message :: rest =>
        log TRACE "Message received" ;;;
        match type message with
        | SHUTDOWN =>
            log INFO "Shutdown message received" ;;; modify (set_running_ false)
        | RELOAD =>
            log INFO "Reload message received" ;;; handleReload
        | _ => log TRACE "Unknown message type"
        end ;;;
        processIPCMessages_loop rest
    end.

Definition processIPCMessages : M t unit :=
  fun x w => processIPCMessages_loop (inbox (env w) (length (trace w))) x w.

(** [steady_clock::now()] *)
Definition steady_now : M t Z := r <- sys SteadyNow ;; ret (rv r).

(** The heartbeat step of the loop:
    [if (now - last_heartbeat >= heartbeat_interval) { sendHeartbeat(); last_heartbeat = now; }] *)
Definition mainLoop_heartbeat (now : Z) (l : locals) : M t locals :=
  if now - last_heartbeat l >=? heartbeat_interval then
    sendHeartbeat ;;;
    ret (mkLocals now (last_flush l) (last_stats l) (flush_interval l))
  else ret l.

(** The flush step:
    [if (now - last_flush >= flush_interval) { flushDataBuffers(); last_flush = now; }] *)
Definition mainLoop_flush (now : Z) (l : locals) : M t locals :=
  if now - last_flush l >=? flush_interval l then
    flushDataBuffers ;;;
    ret (mkLocals (last_heartbeat l) now (last_stats l) (flush_interval l))
  else ret l.

(** The statistics step. *)
Definition mainLoop_stats (now : Z) (l : locals) : M t locals :=
  if now - last_stats l >=? stats_interval then
    sendStatistics ;;;
    ret (mkLocals (last_heartbeat l) (last_flush l) now (flush_interval l))
  else ret l.

(** One turn of [while (running_)] in [WorkerProcess::mainLoop]; [None] is a
    [break]. *)
Definition mainLoop_body (l : locals) : M t (option locals) :=
  now <- steady_now ;;
  x <- get ;;
  if g_shutdown_requested x then
    log INFO "Shutdown signal received" ;;; ret None
  else
    when (g_reload_requested x)
         (log INFO "Reload signal received" ;;;
          handleReload ;;;
          modify (set_g_reload_requested false)) ;;;
    flag <- ipc_call IPCManager.getShutdownFlag ;;
    if flag then
      log INFO "IPC shutdown flag set" ;;; ret None
    else
      processIPCMessages ;;;
      l <- mainLoop_heartbeat now l ;;
      l <- mainLoop_flush now l ;;
      l <- mainLoop_stats now l ;;
      x <- get ;;
      connected <- (if sdk_ x then r <- sys SdkConnectionStatus ;; ret (rv r =? 0)
                    else ret true) ;;
      when (negb connected)
           (log WARN "SDK connection lost, attempting to reconnect" ;;;
            handleReconnection) ;;;
      sleep_for 10 ;;;
      ret (Some l).

(** The locals as [mainLoop] sets them before its first turn. *)
Definition mainLoop_init : M t locals :=
  log INFO "Entering main loop" ;;;
  x <- get ;;
  t1 <- steady_now ;;
  t2 <- steady_now ;;
  t3 <- steady_now ;;
  ret (mkLocals t1 t2 t3 (milliseconds (process_interval (config x)))).

(** [WorkerProcess::mainLoop]: [while (running_)] for at most [fuel] turns. *)
Fixpoint mainLoop_from (fuel : nat) (l : locals) : M t unit :=
  x <- get ;;
  if running_ x then
    match fuel with
    | O => stop OutOfFuel
    | S fuel' =>
        r <- mainLoop_body l ;;
        match r with
        | Some l' => mainLoop_from fuel' l'
        | None => log INFO "Exiting main loop"
        end
    end
  else log INFO "Exiting main loop".

Definition mainLoop (fuel : nat) : M t unit :=
  l <- mainLoop_init ;;
  mainLoop_from fuel l.

End Methods.
End WorkerProcess.

(* ------------------------------------------------------------------ *)
(** ** common/config_manager.cpp *)

Inductive MarketType := SH | SZ | HK | US.

(** [int]: 32 bits, two's complement. *)
Definition INT_MIN : Z := - 2 ^ 31.
Definition INT_MAX : Z := 2 ^ 31 - 1.
Definition to_int (z : Z) : Z := (z + 2 ^ 31) mod 2 ^ 32 - 2 ^ 31.

(** *** Strings *)

Definition empty (s : string) : bool :=
  match s with EmptyString => true | String _ _ => false end.

(** [std::transform(s.begin(), s.end(), s.begin(), f)] *)
Fixpoint transform (f : ascii -> ascii) (s : string) : string :=
  match s with
  | EmptyString => EmptyString
  | String c rest => String (f c) (transform f rest)
  end.

(** [::tolower] and [::toupper] in the C locale. *)
Definition tolower (c : ascii) : ascii :=
  let n := nat_of_ascii c in
  if (65 <=? n)%nat && (n <=? 90)%nat then ascii_of_nat (n + 32) else c.
Definition toupper (c : ascii) : ascii :=
  let n := nat_of_ascii c in
  if (97 <=? n)%nat && (n <=? 122)%nat then ascii_of_nat (n - 32) else c.

(** A character of [" \t"]. *)
Definition blank (c : ascii) : bool :=
  Ascii.eqb c " " || Ascii.eqb c "009".

(** [s.erase(0, s.find_first_not_of(" \t"))] *)
Fixpoint erase_front (s : string) : string :=
  match s with
  | EmptyString => EmptyString
  | String c rest => if blank c then erase_front rest else s
  end.

(** [s.erase(s.find_last_not_of(" \t") + 1)] *)
Fixpoint erase_back (s : string) : string :=
  match s with
  | EmptyString => EmptyString
  | String c rest =>
      match erase_back rest with
      | EmptyString => if blank c then EmptyString else String c EmptyString
      | kept => String c kept
      end
  end.

(** The two [erase] calls the parser applies to a line, a key, a value and
    an item. *)
Definition trim (s : string) : string := erase_back (erase_front s).

(** The items that successive [std::getline(stream, item, delimiter)] calls
    read until one fails: a call at the end of the stream reads nothing and
    fails, so a final delimiter opens no further item. *)
Fixpoint getlines (delimiter : ascii) (s : string) : list string :=
  match s with
  | EmptyString => []
  | String c rest =>
      if Ascii.eqb c delimiter then EmptyString :: getlines delimiter rest
      else
        match getlines delimiter rest with
        | [] => [String c EmptyString]
        | item :: items => String c item :: items
        end
  end.

(** [s.find(c)] *)
Fixpoint find_char (c : ascii) (s : string) : option nat :=
  match s with
  | EmptyString => None
  | String c' rest =>
      if Ascii.eqb c' c then Some O else option_map S (find_char c rest)
  end.

(** [s.back()] of a string that is not empty. *)
Fixpoint back (s : string) : ascii :=
  match s with
  | EmptyString => zero
  | String c EmptyString => c
  | String _ rest => back rest
  end.

(** [isspace] in the C locale. *)
Definition isspace (c : ascii) : bool :=
  let n := nat_of_ascii c in
  (n =? 32)%nat || ((9 <=? n)%nat && (n <=? 13)%nat).

Definition isdigit (c : ascii) : bool :=
  let n := nat_of_ascii c in (48 <=? n)%nat && (n <=? 57)%nat.

Fixpoint skip_space (s : string) : string :=
  match s with
  | EmptyString => EmptyString
  | String c rest => if isspace c then skip_space rest else s
  end.

(** The longest prefix of decimal digits. *)
Fixpoint leading_digits (s : string) : string :=
  match s with
  | EmptyString => EmptyString
  | String c rest => if isdigit c then String c (leading_digits rest) else EmptyString
  end.

(** [std::stoi(s)]: [strtol] in base 10 skips white space, reads an optional
    sign and the longest run of digits, and ignores what follows;
    [None] stands for the exception ([invalid_argument] without a digit,
    [out_of_range] outside [int]). *)
Definition stoi (s : string) : option Z :=
  let s := skip_space s in
  let '(negative, s) :=
    match s with
    | String "-" rest => (true, rest)
    | String "+" rest => (false, rest)
    | _ => (false, s)
    end in
  let digits := leading_digits s in
  if empty digits then None
  else
    match NilEmpty.uint_of_string digits with
    | Some d =>
        let magnitude := Z.of_uint d in
        let value := if negative then - magnitude else magnitude in
        if (INT_MIN <=? value) && (value <=? INT_MAX) then Some value else None
    | None => None
    end.

(** [std::to_string(int)] *)
Definition to_string (value : Z) : string := NilZero.string_of_int (Z.to_int value).

Module ConfigManager.

(** [LogLevel], under the names [stringToLogLevel] uses ([types.h] calls
    the second [DBG]). *)
Module Level.
Inductive t := TRACE | DEBUG | INFO | WARN | ERROR | CRITICAL.
End Level.

(** The members of [struct Config]. *)
Module Master.
Record t := mk {
  pid_file : string;
  worker_processes : Z;
  user : string;
  group : string;
  daemon : bool
}.
End Master.

Module Worker.
Record t := mk {
  worker_connections : Z;
  worker_priority : Z;
  worker_cpu_affinity : bool;
  worker_rlimit_nofile : Z
}.
End Worker.

Module Logging.
Record t := mk {
  log_level : Level.t;
  error_log : string;
  access_log : string;
  max_log_size : Z;
  max_log_files : Z;
  async_queue_size : Z;
  flush_interval : Z
}.
End Logging.

Module Database.
Record t := mk {
  host : string;
  port : Z;
  database : string;
  username : string;
  password : string;
  pool_size : Z;
  connect_timeout : Z;
  query_timeout : Z;
  auto_reconnect : bool;
  charset : string
}.
End Database.

Module Sdk.
Record t := mk {
  library_path : string;
  config_file : string;
  connect_timeout : Z;
  heartbeat_interval : Z;
  reconnect_interval : Z;
  max_reconnect_attempts : Z
}.
End Sdk.

Module MarketDataConfig.
Record t := mk {
  markets : list MarketType;
  data_types : list MarketDataType;
  buffer_size : Z;
  batch_size : Z;
  process_interval : Z
}.
End MarketDataConfig.

Module Monitoring.
Record t := mk {
  enable : bool;
  port : Z;
  stats_interval : Z;
  health_check_interval : Z
}.
End Monitoring.

Module Performance.
Record t := mk {
  use_hugepages : bool;
  memory_pool_size : Z;
  io_threads : Z;
  cpu_affinity : bool;
  tcp_nodelay : bool;
  so_reuseport : bool
}.
End Performance.

Module Config.
Record t := mk {
  master : Master.t;
  worker : Worker.t;
  logging : Logging.t;
  database : Database.t;
  sdk : Sdk.t;
  market_data : MarketDataConfig.t;
  monitoring : Monitoring.t;
  performance : Performance.t
}.
End Config.

(** [std::map<std::string, std::map<std::string, std::string>>], read with
    [find] and written with [operator[]] only. *)
Definition Keys : Type := string -> option string.
Definition Raw : Type := string -> option Keys.

Record t := mk {
  config_ : Config.t;
  config_file_path_ : string;
  raw_config_ : Raw
}.

(** The manager [getInstance] hands out, before the first load: it is a
    static object, so its scalars start at zero, and its strings, vectors
    and map are empty. *)
Definition instance : t :=
  mk (Config.mk
        (Master.mk EmptyString 0 EmptyString EmptyString false)
        (Worker.mk 0 0 false 0)
        (Logging.mk Level.TRACE EmptyString EmptyString 0 0 0 0)
        (Database.mk EmptyString 0 EmptyString EmptyString EmptyString 0 0 0 false
           EmptyString)
        (Sdk.mk EmptyString EmptyString 0 0 0 0)
        (MarketDataConfig.mk [] [] 0 0 0)
        (Monitoring.mk false 0 0 0)
        (Performance.mk false 0 0 false false false))
     EmptyString (fun _ => None).

Definition set_config_ (v : Config.t) (c : t) : t :=
  mk v (config_file_path_ c) (raw_config_ c).
Definition set_config_file_path_ (v : string) (c : t) : t :=
  mk (config_ c) v (raw_config_ c).
Definition set_raw_config_ (v : Raw) (c : t) : t :=
  mk (config_ c) (config_file_path_ c) v.

(** [raw[section][key] = value] *)
Definition assign (section key value : string) (raw : Raw) : Raw :=
  fun s =>
    if String.eqb s section then
      Some (fun k =>
              if String.eqb k key then Some value
              else match raw section with
                   | Some keys => keys k
                   | None => None
                   end)
    else raw s.

(** [raw_config_.clear()] *)
Definition clear : Raw := fun _ => None.

(** [ConfigManager::getString] *)
Definition getString (c : t) (section key default_value : string) : string :=
  match raw_config_ c section with
  | Some keys =>
      match keys key with
      | Some value => value
      | None => default_value
      end
  | None => default_value
  end.

(** [ConfigManager::getInt] *)
Definition getInt (c : t) (section key : string) (default_value : Z) : Z :=
  let value := getString c section key "" in
  if negb (empty value) then
    match stoi value with
    | Some v => v
    | None => default_value   (* the conversion failed *)
    end
  else default_value.

(** [ConfigManager::getBool] *)
Definition getBool (c : t) (section key : string) (default_value : bool) : bool :=
  let value := getString c section key "" in
  if negb (empty value) then
    let value := transform tolower value in
    String.eqb value "true" || String.eqb value "yes" ||
    String.eqb value "1" || String.eqb value "on"
  else default_value.

(** [ConfigManager::setString] ([config_mutex_] is held meanwhile). *)
Definition setString (section key value : string) (c : t) : t :=
  set_raw_config_ (assign section key value (raw_config_ c)) c.

(** [ConfigManager::setInt] *)
Definition setInt (section key : string) (value : Z) (c : t) : t :=
  setString section key (to_string value) c.

(** [ConfigManager::setBool] *)
Definition setBool (section key : string) (value : bool) (c : t) : t :=
  setString section key (if value then "true" else "false") c.

(** [ConfigManager::stringToLogLevel] *)
Definition stringToLogLevel (level : string) : Level.t :=
  let lower_level := transform tolower level in
  if String.eqb lower_level "trace" then Level.TRACE
  else if String.eqb lower_level "debug" then Level.DEBUG
  else if String.eqb lower_level "info" then Level.INFO
  else if String.eqb lower_level "warn" || String.eqb lower_level "warning" then Level.WARN
  else if String.eqb lower_level "error" then Level.ERROR
  else if String.eqb lower_level "critical" || String.eqb lower_level "fatal"
       then Level.CRITICAL
  else Level.INFO.

(** [ConfigManager::stringToMarketType] *)
Definition stringToMarketType (market : string) : MarketType :=
  let upper_market := transform toupper market in
  if String.eqb upper_market "SH" then SH
  else if String.eqb upper_market "SZ" then SZ
  else if String.eqb upper_market "HK" then HK
  else if String.eqb upper_market "US" then US
  else SH.

(** [ConfigManager::stringToDataType] *)
Definition stringToDataType (data_type : string) : MarketDataType :=
  let lower_type := transform tolower data_type in
  if String.eqb lower_type "tick" then TICK
  else if String.eqb lower_type "kline" then KLINE
  else if String.eqb lower_type "depth" then DEPTH
  else if String.eqb lower_type "index" then INDEX
  else if String.eqb lower_type "news" then NEWS
  else TICK.

(** [ConfigManager::splitString] *)
Definition splitString (str : string) (delimiter : ascii) : list string :=
  filter (fun item => negb (empty item)) (map trim (getlines delimiter str)).

(** The body of the loop of [parseConfigFile], for one line. *)
Definition parse_line (state : Raw * string) (line : string) : Raw * string :=
  let '(raw, current_section) := state in
  let line := trim line in
  match line with
  | EmptyString => state                         (* an empty line *)
  | String first _ =>
      if Ascii.eqb first "#" then state          (* a comment *)
      else if Ascii.eqb first "[" && Ascii.eqb (back line) "]" then
        (* a section name *)
        (raw, substring 1 (String.length line - 2) line)
      else
        (* a key and its value *)
        match find_char "=" line with
        | Some pos =>
            let key := trim (substring 0 pos line) in
            let value :=
              trim (substring (pos + 1) (String.length line - (pos + 1)) line) in
            (assign current_section key value raw, current_section)
        | None => state
        end
  end.

(** The map [parseConfigFile] builds from the text of the file. *)
Definition parse_text (text : string) : Raw :=
  fst (fold_left parse_line (getlines "010" text) (clear, EmptyString)).

(** [ConfigManager::parseConfigFile]; [file] is the text of the file, [None]
    if it cannot be opened (the complaint then goes to [std::cerr], not to
    the log). *)
Definition parseConfigFile (file : option string) : M t bool :=
  match file with
  | None => ret false
  | Some text => modify (set_raw_config_ (parse_text text)) ;;; ret true
  end.

Section Sections.
(** [sysconf(_SC_NPROCESSORS_ONLN)] *)
Variable nproc : Z.

(** [ConfigManager::parseMasterConfig] *)
Definition parseMasterConfig (c : t) : t :=
  let worker_processes := getInt c "master" "worker_processes" 0 in
  let cfg := config_ c in
  set_config_
    (Config.mk
       (Master.mk
          (getString c "master" "pid_file" "/var/run/market_feeder.pid")
          (* zero: one worker per processor *)
          (if worker_processes =? 0 then to_int (Z.max 1 nproc) else worker_processes)
          (getString c "master" "user" "nobody")
          (getString c "master" "group" "nobody")
          (getBool c "master" "daemon" true))
       (Config.worker cfg) (Config.logging cfg) (Config.database cfg) (Config.sdk cfg)
       (Config.market_data cfg) (Config.monitoring cfg) (Config.performance cfg)) c.

(** [ConfigManager::parseWorkerConfig] *)
Definition parseWorkerConfig (c : t) : t :=
  let cfg := config_ c in
  set_config_
    (Config.mk (Config.master cfg)
       (Worker.mk
          (getInt c "worker" "worker_connections" 1024)
          (getInt c "worker" "worker_priority" 0)
          (getBool c "worker" "worker_cpu_affinity" false)
          (getInt c "worker" "worker_rlimit_nofile" 65535))
       (Config.logging cfg) (Config.database cfg) (Config.sdk cfg)
       (Config.market_data cfg) (Config.monitoring cfg) (Config.performance cfg)) c.

(** [ConfigManager::parseLoggingConfig] *)
Definition parseLoggingConfig (c : t) : t :=
  let cfg := config_ c in
  set_config_
    (Config.mk (Config.master cfg) (Config.worker cfg)
       (Logging.mk
          (stringToLogLevel (getString c "logging" "log_level" "info"))
          (getString c "logging" "error_log" "logs/error.log")
          (getString c "logging" "access_log" "logs/access.log")
          (getInt c "logging" "max_log_size" 100)
          (getInt c "logging" "max_log_files" 10)
          (getInt c "logging" "async_queue_size" 8192)
          (getInt c "logging" "flush_interval" 3))
       (Config.database cfg) (Config.sdk cfg)
       (Config.market_data cfg) (Config.monitoring cfg) (Config.performance cfg)) c.

(** [ConfigManager::parseDatabaseConfig] *)
Definition parseDatabaseConfig (c : t) : t :=
  let cfg := config_ c in
  set_config_
    (Config.mk (Config.master cfg) (Config.worker cfg) (Config.logging cfg)
       (Database.mk
          (getString c "database" "host" "localhost")
          (getInt c "database" "port" 3306)
          (getString c "database" "database" "market_data")
          (getString c "database" "username" "market_user")
          (getString c "database" "password" "market_pass")
          (getInt c "database" "pool_size" 10)
          (getInt c "database" "connect_timeout" 30)
          (getInt c "database" "query_timeout" 60)
          (getBool c "database" "auto_reconnect" true)
          (getString c "database" "charset" "utf8mb4"))
       (Config.sdk cfg)
       (Config.market_data cfg) (Config.monitoring cfg) (Config.performance cfg)) c.

(** [ConfigManager::parseSdkConfig] *)
Definition parseSdkConfig (c : t) : t :=
  let cfg := config_ c in
  set_config_
    (Config.mk (Config.master cfg) (Config.worker cfg) (Config.logging cfg)
       (Config.database cfg)
       (Sdk.mk
          (getString c "sdk" "library_path" "/opt/market_sdk/lib/libmarket.so")
          (getString c "sdk" "config_file" "/opt/market_sdk/config/sdk.conf")
          (getInt c "sdk" "connect_timeout" 10)
          (getInt c "sdk" "heartbeat_interval" 30)
          (getInt c "sdk" "reconnect_interval" 5)
          (getInt c "sdk" "max_reconnect_attempts" 10))
       (Config.market_data cfg) (Config.monitoring cfg) (Config.performance cfg)) c.

(** [ConfigManager::parseMarketDataConfig]: the names are pushed behind what
    the two vectors hold already. *)
Definition parseMarketDataConfig (c : t) : t :=
  let cfg := config_ c in
  let market_names := splitString (getString c "market_data" "markets" "SH,SZ") "," in
  let data_type_names :=
    splitString (getString c "market_data" "data_types" "tick,kline") "," in
  set_config_
    (Config.mk (Config.master cfg) (Config.worker cfg) (Config.logging cfg)
       (Config.database cfg) (Config.sdk cfg)
       (MarketDataConfig.mk
          (MarketDataConfig.markets (Config.market_data cfg) ++
           map stringToMarketType market_names)
          (MarketDataConfig.data_types (Config.market_data cfg) ++
           map stringToDataType data_type_names)
          (getInt c "market_data" "buffer_size" 10240)
          (getInt c "market_data" "batch_size" 100)
          (getInt c "market_data" "process_interval" 100))
       (Config.monitoring cfg) (Config.performance cfg)) c.

(** [ConfigManager::parseMonitoringConfig] *)
Definition parseMonitoringConfig (c : t) : t :=
  let cfg := config_ c in
  set_config_
    (Config.mk (Config.master cfg) (Config.worker cfg) (Config.logging cfg)
       (Config.database cfg) (Config.sdk cfg) (Config.market_data cfg)
       (Monitoring.mk
          (getBool c "monitoring" "enable" true)
          (getInt c "monitoring" "port" 8080)
          (getInt c "monitoring" "stats_interval" 60)
          (getInt c "monitoring" "health_check_interval" 30))
       (Config.performance cfg)) c.

(** [ConfigManager::parsePerformanceConfig] *)
Definition parsePerformanceConfig (c : t) : t :=
  let cfg := config_ c in
  set_config_
    (Config.mk (Config.master cfg) (Config.worker cfg) (Config.logging cfg)
       (Config.database cfg) (Config.sdk cfg) (Config.market_data cfg)
       (Config.monitoring cfg)
       (Performance.mk
          (getBool c "performance" "use_hugepages" false)
          (getInt c "performance" "memory_pool_size" 256)
          (getInt c "performance" "io_threads" 4)
          (getBool c "performance" "cpu_affinity" true)
          (getBool c "performance" "tcp_nodelay" true)
          (getBool c "performance" "so_reuseport" true))) c.

(** [ConfigManager::validateConfig] *)
Definition validateConfig : M t bool :=
  c <- get ;;
  let cfg := config_ c in
  (* the master *)
  if (Master.worker_processes (Config.master cfg) <? 0) ||
     (Master.worker_processes (Config.master cfg) >? constants.MAX_WORKER_PROCESSES) then
    log LERROR "Invalid worker_processes" ;;; ret false
  (* the workers *)
  else if (Worker.worker_connections (Config.worker cfg) <=? 0) ||
          (Worker.worker_connections (Config.worker cfg) >?
           constants.MAX_CONNECTIONS_PER_WORKER) then
    log LERROR "Invalid worker_connections" ;;; ret false
  (* the database *)
  else if empty (Database.host (Config.database cfg)) ||
          (Database.port (Config.database cfg) <=? 0) ||
          (Database.port (Config.database cfg) >? 65535) then
    log LERROR "Invalid database configuration" ;;; ret false
  else if (Database.pool_size (Config.database cfg) <=? 0) ||
          (Database.pool_size (Config.database cfg) >? 100) then
    log LERROR "Invalid database pool_size" ;;; ret false
  (* the logs *)
  else if (Logging.max_log_size (Config.logging cfg) <=? 0) ||
          (Logging.max_log_files (Config.logging cfg) <=? 0) then
    log LERROR "Invalid logging configuration" ;;; ret false
  else ret true.

(** [ConfigManager::loadConfig]; [file] is what the file at [config_file]
    holds ([config_mutex_] is held meanwhile). *)
Definition loadConfig (config_file : string) (file : option string) : M t bool :=
  modify (set_config_file_path_ config_file) ;;;
  parsed <- parseConfigFile file ;;
  if negb parsed then ret false
  else
    (* the sections *)
    modify parseMasterConfig ;;;
    modify parseWorkerConfig ;;;
    modify parseLoggingConfig ;;;
    modify parseDatabaseConfig ;;;
    modify parseSdkConfig ;;;
    modify parseMarketDataConfig ;;;
    modify parseMonitoringConfig ;;;
    modify parsePerformanceConfig ;;;
    validateConfig.

(** [ConfigManager::reloadConfig] *)
Definition reloadConfig (file : option string) : M t bool :=
  c <- get ;;
  loadConfig (config_file_path_ c) file.

End Sections.
End ConfigManager.

(* ------------------------------------------------------------------ *)
(** ** Vocabulary of the properties *)

(** The signals sent, the sleeps taken and the batches handed to the sink
    among a list of calls. *)
Definition kills (cs : list Syscall) : list (Z * Z) :=
  flat_map (fun c => match c with Kill p s => [(p, s)] | _ => [] end) cs.
Definition sleeps (cs : list Syscall) : list Z :=
  flat_map (fun c => match c with SleepFor ms => [ms] | _ => [] end) cs.
Definition saves (cs : list Syscall) : list (list MarketData) :=
  flat_map (fun c => match c with SaveBatch b => [b] | _ => [] end) cs.

(** A call that neither signals nor sleeps. *)
Definition silent (c : Syscall) : bool :=
  match c with Kill _ _ | SleepFor _ => false | _ => true end.

Definition is_semop (c : Syscall) : bool :=
  match c with Semop _ _ _ _ => true | _ => false end.

Definition is_log (c : Syscall) : bool :=
  match c with Log _ _ => true | _ => false end.

(** [c], started in [s] and [w], ends in [s'] and [w'] with outcome [o],
    having issued the calls [cs]. *)
Definition steps {S A} (c : M S A) (s : S) (w : World)
    (o : outcome A) (s' : S) (w' : World) (cs : list Syscall) : Prop :=
  c s w = (o, s', w') /\ env w' = env w /\ trace w' = rev cs ++ trace w.

(** [c] stops in a final configuration that satisfies [R]. *)
Definition spec {S A} (c : M S A) (s : S) (w : World)
    (R : outcome A -> S -> World -> list Syscall -> Prop) : Prop :=
  exists o s' w' cs, steps c s w o s' w' cs /\ R o s' w' cs.

(** [c] stops, for a reason other than the model's loop bound, and neither
    signals nor sleeps. *)
Definition quiet {S A} (c : M S A) : Prop :=
  forall s w, exists o s' w' cs,
    steps c s w o s' w' cs /\ forallb silent cs = true /\ o <> Abort OutOfFuel.

(** The lock is granted: the manager is initialised and [semop] succeeds. *)
Definition lock_granted (sem_index : Z) (m : IPCManager.t) (w : World) : Prop :=
  IPCManager.initialized_ m = true /\
  IPCManager.sem_id_ m <> -1 /\
  rv (answer (env w) (length (trace w))
        (Semop (IPCManager.sem_id_ m) sem_index (-1) SEM_UNDO)) <> -1.

(** The clock was read during the run, and answered [now]. *)
Definition clock_read (w w' : World) (now : Z) : Prop :=
  exists before after,
    calls_between w w' = before ++ TimeNow :: after /\
    now = rv (answer (env w) (length (trace w) + length before) TimeNow).

(** The first live record of [pid] took [status] and the heartbeat time
    [now]; nothing else in the shared state moved. *)
Definition record_touched (pid : Z) (status : ProcessStatus) (now : Z)
    (d d' : SharedMemoryData.t) : Prop :=
  exists i,
    (i < Z.to_nat (SharedMemoryData.worker_count d))%nat /\
    ProcessInfo.pid (nth i (SharedMemoryData.workers d) ProcessInfo.zero) = pid /\
    (forall j, (j < i)%nat ->
       ProcessInfo.pid (nth j (SharedMemoryData.workers d) ProcessInfo.zero) <> pid) /\
    (let r := nth i (SharedMemoryData.workers d) ProcessInfo.zero in
     SharedMemoryData.workers d' =
     upd i (ProcessInfo.mk (ProcessInfo.pid r) (ProcessInfo.worker_id r) status
                           (ProcessInfo.start_time r) now)
           (SharedMemoryData.workers d)) /\
    SharedMemoryData.worker_count d' = SharedMemoryData.worker_count d /\
    SharedMemoryData.stats d' = SharedMemoryData.stats d /\
    SharedMemoryData.shutdown_flag d' = SharedMemoryData.shutdown_flag d /\
    SharedMemoryData.reload_flag d' = SharedMemoryData.reload_flag d.

(** The status the table holds for [pid]. *)
Definition status_in_table (pid : Z) (m : IPCManager.t) : option ProcessStatus :=
  match IPCManager.shared_data_ m with
  | mapped d =>
      option_map ProcessInfo.status
        (find (fun r => ProcessInfo.pid r =? pid) (SharedMemoryData.live d))
  | _ => None
  end.

(** The heartbeat time the table holds for [pid]. *)
Definition heartbeat_in_table (pid : Z) (m : IPCManager.t) : option Z :=
  match IPCManager.shared_data_ m with
  | mapped d =>
      option_map ProcessInfo.last_heartbeat
        (find (fun r => ProcessInfo.pid r =? pid) (SharedMemoryData.live d))
  | _ => None
  end.

(** The aggregate the shared state holds. *)
Definition global_stats (m : IPCManager.t) : ProcessStatistics.t :=
  match IPCManager.shared_data_ m with
  | mapped d => SharedMemoryData.stats d
  | _ => ProcessStatistics.zero
  end.

(** A record whose last heartbeat is older than the timeout at [now]. *)
Definition stale (now : Z) (r : ProcessInfo.t) : bool :=
  now - ProcessInfo.last_heartbeat r >? constants.HEARTBEAT_TIMEOUT.

(** The positive pids of the tracked workers, in map order. *)
Definition tracked_pids (m : WorkerMap.t) : list Z :=
  filter (fun p => 0 <? p) (map (fun e => WorkerInfo.pid (snd e)) m).

(** The flags of the exclusive and of the plain creation. *)
Definition creat_excl : Z := Z.lor (Z.lor IPC_CREAT IPC_EXCL) perm_0666.
Definition creat : Z := Z.lor IPC_CREAT perm_0666.

(** The message a worker builds from [getpid()], [getppid()] and
    [time(nullptr)], its first three calls. *)
Definition outgoing (w : World) (ty : MessageType) (d : MessageData) : IPCMessage :=
  let n := length (trace w) in
  mkIPCMessage ty (rv (answer (env w) n Getpid))
                  (rv (answer (env w) (S n) Getppid))
                  (rv (answer (env w) (S (S n)) TimeNow)) d.

(** Whether the channel takes [message] when it is offered as call number
    [k] of the run: the manager is initialised, the queue exists and
    [msgsnd] does not fail. *)
Definition taken (k : nat) (w : World) (m : IPCManager.t) (message : IPCMessage) : bool :=
  IPCManager.initialized_ m && negb (IPCManager.msg_queue_id_ m =? -1) &&
  negb (rv (answer (env w) (k + length (trace w))
              (Msgsnd (IPCManager.msg_queue_id_ m) message IPC_NOWAIT)) =? -1).

(** The common shape of [sendStatusUpdate], [sendErrorReport] and
    [sendStatistics], and of [sendHeartbeat] up to its last two lines. *)
Definition send_and_warn (ty : MessageType) (d : WorkerProcess.t -> MessageData)
    (text : string) : M WorkerProcess.t unit :=
  x <- get ;;
  pid <- sys Getpid ;;
  ppid <- sys Getppid ;;
  ts <- time_nullptr ;;
  sent <- WorkerProcess.ipc_call
            (IPCManager.sendMessage (mkIPCMessage ty (rv pid) (rv ppid) ts (d x))) ;;
  when (negb sent) (log WARN text).

(** What a flush of category [t] hands to the sink: the buffer, if there is
    one and it is not empty. *)
Definition pending (x : WorkerProcess.t) (t : MarketDataType) : list (list MarketData) :=
  match WorkerProcess.data_buffers_ x t with
  | Some (a :: b) => [a :: b]
  | _ => []
  end.

(** The sink throws at no batch it is handed. *)
Definition sink_never_throws (w : World) : Prop :=
  forall n batch, WorkerProcess.throws (answer (env w) n (SaveBatch batch)) = false.

(** [c] returns, leaves the buffers, the database manager and the IPC
    manager as they are, and hands nothing to the sink. *)
Definition aside {A} (c : M WorkerProcess.t A) : Prop :=
  forall x w, exists a x' w' cs,
    steps c x w (Done a) x' w' cs /\
    WorkerProcess.data_buffers_ x' = WorkerProcess.data_buffers_ x /\
    WorkerProcess.db_manager_ x' = WorkerProcess.db_manager_ x /\
    WorkerProcess.ipc x' = WorkerProcess.ipc x /\
    saves cs = [].

(** The shutdown flag can be read, and is not set. *)
Definition flag_clear (m : IPCManager.t) : Prop :=
  match IPCManager.shared_data_ m with
  | nullptr => True
  | invalid_ptr => False
  | mapped d => SharedMemoryData.shutdown_flag d = false
  end.

(* ------------------------------------------------------------------ *)
(** ** Sample configurations *)

Module Sample.
Definition K : IpcConstants := mkIpcConstants 1 2 3 2 0 1.

(** A table holding the records [rs], the other slots zeroed. *)
Definition shared (rs : list ProcessInfo.t) (stats : ProcessStatistics.t) : SharedMemoryData.t :=
  SharedMemoryData.mk
    (rs ++ repeat ProcessInfo.zero (Z.to_nat constants.MAX_WORKER_PROCESSES - length rs))
    (Z.of_nat (length rs)) stats 1 0 false false.

(** An initialised manager attached to [d]. *)
Definition manager (d : SharedMemoryData.t) : IPCManager.t :=
  IPCManager.mk true true 5 6 7 (mapped d).

(** A kernel in which every call succeeds: the clock reads 1000 s, the
    steady clock 31 s, [fork] returns 101 and the process is 4242. *)
Definition calm (n : nat) (c : Syscall) : Sysret :=
  match c with
  | TimeNow => mkSysret 1000 0
  | SteadyNow => mkSysret 31000000000 0
  | Fork => mkSysret 101 0
  | Getpid => mkSysret 4242 0
  | Getppid => mkSysret 1 0
  | SaveBatch _ => mkSysret 1 0
  | _ => mkSysret 0 0
  end.

(** A kernel whose message queue is full. *)
Definition queue_full (n : nat) (c : Syscall) : Sysret :=
  match c with
  | Msgsnd _ _ _ => mkSysret (-1) EAGAIN
  | _ => calm n c
  end.

(** A kernel that still holds the three resources of an earlier run (ids 5,
    6 and 7 under key 77) and hands out 15, 16 and 17 when they are created
    again: bit 10 of the flags is [IPC_EXCL], bit 9 is [IPC_CREAT]. *)
Definition leftover (n : nat) (c : Syscall) : Sysret :=
  match c with
  | Ftok _ => mkSysret 77 0
  | Msgget _ f => if Z.testbit f 10 then mkSysret (-1) EEXIST
                  else if Z.testbit f 9 then mkSysret 15 0 else mkSysret 5 0
  | Shmget _ f => if Z.testbit f 10 then mkSysret (-1) EEXIST
                  else if Z.testbit f 9 then mkSysret 16 0 else mkSysret 6 0
  | Semget _ _ f => if Z.testbit f 10 then mkSysret (-1) EEXIST
                    else if Z.testbit f 9 then mkSysret 17 0 else mkSysret 7 0
  | _ => calm n c
  end.

(** The world at the start of a run: [zombies] are the children a reaping
    loop finds, the queue is empty and no signal arrives. *)
Definition world (ans : nat -> Syscall -> Sysret) (zombies : list Z) : World :=
  mkWorld (mkEnv ans (fun _ => zombies) (fun _ => [])
                 (fun _ => shared [] ProcessStatistics.zero) (fun _ => []))
          [].

(** A manager that has not been initialised. *)
Definition blank : IPCManager.t := IPCManager.mk true false (-1) (-1) (-1) nullptr.

(** Worker 1 runs as pid 100 and has been restarted three times. *)
Definition supervisor : MasterProcess.t :=
  MasterProcess.mk true [(1, WorkerInfo.mk 100 1 500 3 RUNNING)]
    (manager (shared [ProcessInfo.mk 100 1 RUNNING 500 990] ProcessStatistics.zero))
    false false false.

(** Two workers: pid 100, silent since 900, and pid 200, stopping and heard
    at 990; the aggregate counts 100 messages. *)
Definition two_workers : SharedMemoryData.t :=
  shared [ProcessInfo.mk 100 1 RUNNING 500 900; ProcessInfo.mk 200 2 STOPPING 500 990]
         (ProcessStatistics.mk 1 500 100 6400 3200 2 990).

Definition supervisor2 : MasterProcess.t :=
  MasterProcess.mk true [(1, WorkerInfo.mk 100 1 500 0 RUNNING);
                         (2, WorkerInfo.mk 200 2 500 0 RUNNING)]
    (manager two_workers) false false false.

(** A full table. *)
Definition full_table : SharedMemoryData.t :=
  shared (map (fun i => ProcessInfo.mk (100 + Z.of_nat i) (1 + Z.of_nat i) RUNNING 500 990)
              (seq 0 64)) ProcessStatistics.zero.

(** A heartbeat of pid 200. *)
Definition heartbeat : IPCMessage :=
  mkIPCMessage HEARTBEAT 200 1 999 (heartbeat_data 2).

(** The snapshot of a worker that has just restarted. *)
Definition fresh_snapshot : ProcessStatistics.t :=
  ProcessStatistics.mk 2 995 5 320 0 0 999.
Definition fresh_statistics : IPCMessage :=
  mkIPCMessage STATISTICS 200 1 1000 (stats_data fresh_snapshot).

Definition tick (s : string) : MarketData := mkMarketData s TICK 1.

(** Worker 2, pid 4242 under [calm]: a TICK buffer holding one record, a
    batch size of 2, a flush interval of 100 ms. *)
Definition worker : WorkerProcess.t :=
  WorkerProcess.mk 2 true true true 0 ProcessStatistics.zero
    (fun t => match t with TICK => Some [tick "a"] | KLINE => Some [] | _ => None end)
    (manager (shared [ProcessInfo.mk 100 1 RUNNING 500 900;
                      ProcessInfo.mk 4242 2 RUNNING 500 900]
                     ProcessStatistics.zero))
    (mkConfig 2 100 5) false false.

(** The locals of a loop that started at steady time 0. *)
Definition locals : WorkerProcess.locals :=
  WorkerProcess.mkLocals 0 0 0 (WorkerProcess.milliseconds 100).
End Sample.

(* ------------------------------------------------------------------ *)
(** ** Vocabulary of the further properties *)

(** [rs] without its first record of [pid]. *)
Fixpoint remove_first (pid : Z) (rs : list ProcessInfo.t) : list ProcessInfo.t :=
  match rs with
  | [] => []
  | r :: rest => if ProcessInfo.pid r =? pid then rest else r :: remove_first pid rest
  end.

(** Whether [rs] holds a record of [pid]. *)
Definition listed (pid : Z) (rs : list ProcessInfo.t) : bool :=
  existsb (fun r => ProcessInfo.pid r =? pid) rs.

(** No [semop] ever fails. *)
Definition semaphores_respond (w : World) : Prop :=
  forall n semid sem_num sem_op sem_flg,
    rv (answer (env w) n (Semop semid sem_num sem_op sem_flg)) <> -1.

(** The semaphore operations among a list of calls. *)
Definition semops (cs : list Syscall) : list Syscall := filter is_semop cs.

(** The P and the V of one critical section. *)
Definition P (m : IPCManager.t) (sem_index : Z) : Syscall :=
  Semop (IPCManager.sem_id_ m) sem_index (-1) SEM_UNDO.
Definition V (m : IPCManager.t) (sem_index : Z) : Syscall :=
  Semop (IPCManager.sem_id_ m) sem_index 1 SEM_UNDO.

(** The calls a run of [c] issues from [s] and [w]. *)
Definition calls_of {S A} (c : M S A) (s : S) (w : World) : list Syscall :=
  calls_between w (snd (c s w)).

(** The outcome of a run of [c] from [s] and [w]. *)
Definition result_of {S A} (c : M S A) (s : S) (w : World) : outcome A :=
  fst (fst (c s w)).

(** The manager holds an attached segment. *)
Definition attached (m : IPCManager.t) : bool :=
  match IPCManager.shared_data_ m with mapped _ => true | _ => false end.

(** A call that opens what exists or reports: [ftok], a [msgget], [shmget]
    or [semget] whose flags are the permissions alone, [shmat], a log line. *)
Definition opens_only (c : Syscall) : bool :=
  match c with
  | Ftok _ | Shmat _ | Log _ _ => true
  | Msgget _ flags | Shmget _ flags | Semget _ _ flags => flags =? perm_0666
  | _ => false
  end.

(** The removals ([IPC_RMID]) among a list of calls. *)
Definition is_removal (c : Syscall) : bool :=
  match c with
  | Msgctl _ cmd | Shmctl _ cmd | Semctl _ _ cmd _ => cmd =? IPC_RMID
  | _ => false
  end.
Definition removals (cs : list Syscall) : list Syscall := filter is_removal cs.

(** The removals that release what the manager holds. *)
Definition held (m : IPCManager.t) : list Syscall :=
  (if IPCManager.msg_queue_id_ m =? -1 then []
   else [Msgctl (IPCManager.msg_queue_id_ m) IPC_RMID]) ++
  (if IPCManager.shm_id_ m =? -1 then []
   else [Shmctl (IPCManager.shm_id_ m) IPC_RMID]) ++
  (if IPCManager.sem_id_ m =? -1 then []
   else [Semctl (IPCManager.sem_id_ m) 0 IPC_RMID 0]).

(** A step that acts on nothing a manager or a [World] holds. *)
Definition invisible (c : M IPCManager.t unit) : Prop :=
  forall m w, c m w = (Done tt, m, w).

(** The number of [fork] calls among a list of calls. *)
Definition is_fork (c : Syscall) : bool :=
  match c with Fork => true | _ => false end.
Definition forks (cs : list Syscall) : nat := length (filter is_fork cs).

(** Slot [worker_id] of the supervisor's map holds a worker that has just
    been forked: a positive pid, no restart, status STARTING. *)
Definition started (worker_id : Z) (m : WorkerMap.t) : Prop :=
  exists pid start_time,
    0 < pid /\
    WorkerMap.lookup worker_id m =
      Some (WorkerInfo.mk pid worker_id start_time 0 STARTING).

(** A call that receives a message, takes or gives a lock, reads the clock
    or logs. *)
Definition inward (c : Syscall) : bool :=
  match c with
  | Msgrcv _ _ | Semop _ _ _ _ | TimeNow | Log _ _ => true
  | _ => false
  end.

(** A call that reaps or logs. *)
Definition reaps_or_logs (c : Syscall) : bool :=
  match c with Waitpid | Log _ _ => true | _ => false end.

(** Every buffer holds fewer records than the batch size, read as the
    unsigned number the size of a buffer is compared with. *)
Definition within_batch (x : WorkerProcess.t) : Prop :=
  forall t b, WorkerProcess.data_buffers_ x t = Some b ->
    Z.of_nat (length b) < u64 (batch_size (WorkerProcess.config x)).

(** A SHUTDOWN message. *)
Definition is_shutdown (message : IPCMessage) : bool :=
  match type message with SHUTDOWN => true | _ => false end.

(** The number of [msgrcv] calls among a list of calls. *)
Definition is_msgrcv (c : Syscall) : bool :=
  match c with Msgrcv _ _ => true | _ => false end.
Definition receives (cs : list Syscall) : nat := length (filter is_msgrcv cs).

(** The messages offered to the queue among a list of calls. *)
Definition sends (cs : list Syscall) : list IPCMessage :=
  flat_map (fun c => match c with Msgsnd _ message _ => [message] | _ => [] end) cs.


(** A raw map whose keys and values have no space or tab at either end. *)
Definition trimmed (raw : ConfigManager.Raw) : Prop :=
  forall section keys key value,
    raw section = Some keys -> keys key = Some value ->
    trim key = key /\ trim value = value.

(* ------------------------------------------------------------------ *)
(** ** Lists and traces *)

Ltac munfold :=
  unfold bind, ret, get, put, modify, stop, sys, log, when, zoom, time_nullptr, issue in *;
  simpl in *.

Local Arguments Z.lor : simpl never.

Lemma length_upd {A} (i : nat) (x : A) l : length (upd i x l) = length l.
Proof. revert i; induction l; destruct i; simpl; auto. Qed.

Lemma firstn_upd_snoc {A} (n : nat) (x : A) l :
  (n < length l)%nat -> firstn (S n) (upd n x l) = firstn n l ++ [x].
Proof.
  revert n; induction l; destruct n; simpl; intros; try lia; auto.
  f_equal. apply IHl. lia.
Qed.

Lemma map_nth_seq {A} (d : A) (l : list A) : forall n,
  (n <= length l)%nat -> map (fun i => nth i l d) (seq 0 n) = firstn n l.
Proof.
  induction l as [|a l IH]; intros n H; simpl in *.
  - assert (n = O) by lia. subst. reflexivity.
  - destruct n; simpl; auto. f_equal.
    rewrite <- seq_shift, map_map. apply IH. lia.
Qed.

Lemma flat_map_agree {A B} (f g : A -> list B) l :
  (forall x, In x l -> f x = g x) -> flat_map f l = flat_map g l.
Proof.
  induction l as [|a l IH]; simpl; intros H; auto.
  rewrite (H a), IH; auto.
Qed.

Lemma calls_between_rev w w' l :
  trace w' = rev l ++ trace w -> calls_between w w' = l.
Proof.
  intros H. unfold calls_between. rewrite H, length_app.
  replace (length (rev l) + length (trace w) - length (trace w))%nat
    with (length (rev l) + 0)%nat by lia.
  rewrite firstn_app_2. simpl. rewrite app_nil_r. apply rev_involutive.
Qed.

Lemma kills_app a b : kills (a ++ b) = kills a ++ kills b.
Proof. apply flat_map_app. Qed.

Lemma sleeps_app a b : sleeps (a ++ b) = sleeps a ++ sleeps b.
Proof. apply flat_map_app. Qed.

Lemma saves_app a b : saves (a ++ b) = saves a ++ saves b.
Proof. apply flat_map_app. Qed.

Lemma silent_kills cs : forallb silent cs = true -> kills cs = [].
Proof.
  induction cs as [|c cs IH]; simpl; auto. intros H. apply andb_true_iff in H.
  destruct H as [H1 H2]. rewrite (IH H2). destruct c; simpl in *; auto; discriminate.
Qed.

Lemma silent_sleeps cs : forallb silent cs = true -> sleeps cs = [].
Proof.
  induction cs as [|c cs IH]; simpl; auto. intros H. apply andb_true_iff in H.
  destruct H as [H1 H2]. rewrite (IH H2). destruct c; simpl in *; auto; discriminate.
Qed.

Lemma MarketDataType_eqb_refl a : MarketDataType_eqb a a = true.
Proof. destruct a; reflexivity. Qed.

Lemma MarketDataType_eqb_neq a b : a <> b -> MarketDataType_eqb a b = false.
Proof. destruct a, b; simpl; intros; congruence. Qed.

(* ------------------------------------------------------------------ *)
(** ** Rules for [steps], [spec] and [quiet] *)

Lemma steps_calls {S A} (c : M S A) s w o s' w' cs :
  steps c s w o s' w' cs -> calls_between w w' = cs.
Proof. intros (_ & _ & H). apply calls_between_rev; auto. Qed.

Lemma steps_bind {S A B} (c : M S A) (k : A -> M S B) s w a s1 w1 cs1 o s2 w2 cs2 :
  steps c s w (Done a) s1 w1 cs1 ->
  steps (k a) s1 w1 o s2 w2 cs2 ->
  steps (bind c k) s w o s2 w2 (cs1 ++ cs2).
Proof.
  intros (E1 & He1 & Ht1) (E2 & He2 & Ht2). unfold steps, bind. rewrite E1.
  repeat split; auto; try congruence.
  rewrite Ht2, Ht1, rev_app_distr, app_assoc. reflexivity.
Qed.

Lemma steps_bind_abort {S A B} (c : M S A) (k : A -> M S B) s w r s1 w1 cs1 :
  steps c s w (Abort r) s1 w1 cs1 ->
  steps (bind c k) s w (Abort r) s1 w1 cs1.
Proof. intros (E1 & He1 & Ht1). unfold steps, bind. rewrite E1. auto. Qed.

Lemma spec_weaken {S A} (c : M S A) s w
    (R R' : outcome A -> S -> World -> list Syscall -> Prop) :
  spec c s w R ->
  (forall o s' w' cs, env w' = env w -> R o s' w' cs -> R' o s' w' cs) ->
  spec c s w R'.
Proof.
  intros (o & s' & w' & cs & H & HR) HI. exists o, s', w', cs. split; auto.
  apply HI; auto. apply H.
Qed.

Lemma spec_trace {S A} (c : M S A) s w
    (R : outcome A -> S -> World -> list Syscall -> Prop) :
  spec c s w (fun o s' w' cs =>
    env w' = env w -> trace w' = rev cs ++ trace w -> R o s' w' cs) ->
  spec c s w R.
Proof.
  intros (o & s' & w' & cs & H & HR). exists o, s', w', cs. split; auto.
  destruct H as (_ & He & Ht). auto.
Qed.

Lemma spec_bind {S A B} (c : M S A) (k : A -> M S B) s w R :
  spec c s w (fun o s1 w1 cs1 =>
    match o with
    | Done a => spec (k a) s1 w1 (fun o2 s2 w2 cs2 => R o2 s2 w2 (cs1 ++ cs2))
    | Abort r => R (Abort r) s1 w1 cs1
    end) ->
  spec (bind c k) s w R.
Proof.
  intros (o & s1 & w1 & cs1 & H1 & HR). destruct o as [a|r].
  - destruct HR as (o2 & s2 & w2 & cs2 & H2 & HR2).
    exists o2, s2, w2, (cs1 ++ cs2). split; auto. eapply steps_bind; eauto.
  - exists (Abort r), s1, w1, cs1. split; auto. apply steps_bind_abort; auto.
Qed.

Lemma spec_pure {S A} (o : outcome A) (f : S -> S) s w R :
  R o (f s) w [] -> spec (fun s w => (o, f s, w)) s w R.
Proof. intros H. exists o, (f s), w, []. repeat split; auto. Qed.

Lemma spec_ret {S A} (a : A) (s : S) w R : R (Done a) s w [] -> spec (ret a) s w R.
Proof. apply (spec_pure (Done a) (fun s => s)). Qed.

Lemma spec_get {S} (s : S) w R : R (Done s) s w [] -> spec get s w R.
Proof. intros H. exists (Done s), s, w, []. repeat split; auto. Qed.

Lemma spec_modify {S} (f : S -> S) s w R : R (Done tt) (f s) w [] -> spec (modify f) s w R.
Proof. apply (spec_pure (Done tt) f). Qed.

Lemma spec_sys {S} (c : Syscall) (s : S) w R :
  R (Done (answer (env w) (length (trace w)) c)) s (issue c w) [c] ->
  spec (sys c) s w R.
Proof. intros H. do 4 eexists. split; [|exact H]. repeat split; auto. Qed.

Lemma spec_log {S} l t (s : S) w R :
  R (Done tt) s (issue (Log l t) w) [Log l t] -> spec (log l t) s w R.
Proof.
  intros H. unfold log. apply spec_bind, spec_sys. apply spec_ret. exact H.
Qed.

Lemma spec_zoom {S T A} (p : S -> T) (i : T -> S -> S) (c : M T A) s w R :
  spec c (p s) w (fun o t' w' cs => R o (i t' s) w' cs) ->
  spec (zoom p i c) s w R.
Proof.
  intros (o & t' & w' & cs & (E & He & Ht) & HR).
  exists o, (i t' s), w', cs. split; auto. unfold steps, zoom. rewrite E. auto.
Qed.

Lemma spec_eq {S A} (c : M S A) s w o s' w' cs R :
  c s w = (o, s', w') -> env w' = env w -> trace w' = rev cs ++ trace w ->
  R o s' w' cs -> spec c s w R.
Proof. intros. exists o, s', w', cs. repeat split; auto. Qed.

Lemma spec_quiet {S A} (c : M S A) s w
    (R : outcome A -> S -> World -> list Syscall -> Prop) :
  quiet c ->
  (forall o s' w' cs, env w' = env w -> forallb silent cs = true ->
     o <> Abort OutOfFuel -> R o s' w' cs) ->
  spec c s w R.
Proof.
  intros Q H. destruct (Q s w) as (o & s' & w' & cs & Hs & Hq & Hn).
  exists o, s', w', cs. split; auto. apply H; auto. apply Hs.
Qed.

Lemma spec_run {S A} (c : M S A) s w R :
  spec c s w R ->
  exists o s' w', c s w = (o, s', w') /\ R o s' w' (calls_between w w').
Proof.
  intros (o & s' & w' & cs & H & HR). exists o, s', w'. split; [apply H|].
  rewrite (steps_calls _ _ _ _ _ _ _ H). exact HR.
Qed.

Lemma quiet_bind {S A B} (c : M S A) (k : A -> M S B) :
  quiet c -> (forall a, quiet (k a)) -> quiet (bind c k).
Proof.
  intros Hc Hk s w. destruct (Hc s w) as (o & s1 & w1 & cs1 & H1 & Q1 & N1).
  destruct o as [a|r].
  - destruct (Hk a s1 w1) as (o2 & s2 & w2 & cs2 & H2 & Q2 & N2).
    exists o2, s2, w2, (cs1 ++ cs2). split; [eapply steps_bind; eauto|].
    rewrite forallb_app, Q1, Q2. split; [reflexivity | auto].
  - exists (Abort r), s1, w1, cs1. split; [apply steps_bind_abort; auto | split; auto].
    intros E. inversion E; subst. apply N1; reflexivity.
Qed.

Lemma quiet_pure {S A} (o : outcome A) (f : S -> S) :
  o <> Abort OutOfFuel -> quiet (fun s w => (o, f s, w)).
Proof. intros H s w. exists o, (f s), w, []. repeat split; auto. Qed.

Lemma quiet_ret {S A} (a : A) : quiet (@ret S A a).
Proof. apply (quiet_pure (Done a) (fun s => s)). discriminate. Qed.

Lemma quiet_get {S} : quiet (@get S).
Proof. intros s w. exists (Done s), s, w, []. repeat split; auto. discriminate. Qed.

Lemma quiet_put {S} (s : S) : quiet (put s).
Proof. apply (quiet_pure (Done tt) (fun _ => s)). discriminate. Qed.

Lemma quiet_modify {S} (f : S -> S) : quiet (modify f).
Proof. apply (quiet_pure (Done tt) f). discriminate. Qed.

Lemma quiet_stop {S A} r : r <> OutOfFuel -> quiet (@stop S A r).
Proof. intros H. apply (quiet_pure (Abort r) (fun s => s)). congruence. Qed.

Lemma quiet_sys {S} (c : Syscall) : silent c = true -> quiet (@sys S c).
Proof.
  intros H s w. exists (Done (answer (env w) (length (trace w)) c)), s, (issue c w), [c].
  repeat split; simpl; auto; [rewrite H; auto | discriminate].
Qed.

Lemma quiet_log {S} l t : quiet (@log S l t).
Proof. apply quiet_bind; [apply quiet_sys; reflexivity | intros; apply quiet_ret]. Qed.

Lemma quiet_time {S} : quiet (@time_nullptr S).
Proof. apply quiet_bind; [apply quiet_sys; reflexivity | intros; apply quiet_ret]. Qed.

Lemma quiet_when {S} b (c : M S unit) : quiet c -> quiet (when b c).
Proof. destruct b; simpl; auto. intros; apply quiet_ret. Qed.

Lemma quiet_zoom {S T A} (p : S -> T) (i : T -> S -> S) (c : M T A) :
  quiet c -> quiet (zoom p i c).
Proof.
  intros Hc s w. destruct (Hc (p s) w) as (o & t' & w' & cs & (E & He & Ht) & Q).
  exists o, (i t' s), w', cs. split; auto. unfold steps, zoom. rewrite E. auto.
Qed.

Lemma quiet_for_each {S X} (xs : list X) (body : X -> M S unit) :
  (forall x, quiet (body x)) -> quiet (for_each xs body).
Proof.
  intros Hb. induction xs; simpl; [apply quiet_ret|].
  apply quiet_bind; auto.
Qed.

(** A computation that first reads the environment. *)
Lemma quiet_ask {S A X} (h : World -> X) (f : X -> M S A) :
  (forall x, quiet (f x)) -> quiet (fun s w => f (h w) s w).
Proof. intros Hf s w. apply (Hf (h w) s w). Qed.

Ltac quiet_step :=
  first
    [ apply quiet_ret | apply quiet_get | apply quiet_put | apply quiet_modify
    | apply quiet_stop; discriminate | apply quiet_log | apply quiet_time
    | apply quiet_sys; reflexivity
    | apply quiet_when
    | apply quiet_zoom
    | apply quiet_for_each; intros
    | apply quiet_bind; [| intros]
    | match goal with
      | |- quiet (if ?b then _ else _) => destruct b
      | |- quiet (match ?x with _ => _ end) => destruct x
      | |- quiet (let _ := _ in _) => cbv zeta
      end ].

(* ------------------------------------------------------------------ *)
(** ** The substrate *)

Section Substrate.
Variable K : IpcConstants.

Lemma lockSharedMemory_frame i m w :
  exists b w', IPCManager.lockSharedMemory i m w = (Done b, m, w').
Proof.
  unfold IPCManager.lockSharedMemory. munfold.
  destruct (negb (IPCManager.initialized_ m) || (IPCManager.sem_id_ m =? -1)); eauto.
  destruct (rv _ =? -1); eauto.
Qed.

Lemma lockSharedMemory_granted i m w :
  lock_granted i m w ->
  IPCManager.lockSharedMemory i m w =
  (Done true, m, issue (Semop (IPCManager.sem_id_ m) i (-1) SEM_UNDO) w).
Proof.
  intros (Hi & Hs & Hr). unfold IPCManager.lockSharedMemory. munfold.
  rewrite Hi. apply Z.eqb_neq in Hs, Hr. rewrite Hs. simpl. rewrite Hr. reflexivity.
Qed.

Lemma unlockSharedMemory_frame i m w :
  exists b w', IPCManager.unlockSharedMemory i m w = (Done b, m, w').
Proof.
  unfold IPCManager.unlockSharedMemory. munfold.
  destruct (negb (IPCManager.initialized_ m) || (IPCManager.sem_id_ m =? -1)); eauto.
  destruct (rv _ =? -1); eauto.
Qed.

Lemma lock_spec i m w R :
  lock_granted i m w ->
  R (Done true) m (issue (Semop (IPCManager.sem_id_ m) i (-1) SEM_UNDO) w)
    [Semop (IPCManager.sem_id_ m) i (-1) SEM_UNDO] ->
  spec (IPCManager.lockSharedMemory i) m w R.
Proof.
  intros Hl H.
  eapply spec_eq; [apply lockSharedMemory_granted; exact Hl | | | exact H]; reflexivity.
Qed.

Lemma unlock_spec i m w (R : outcome bool -> IPCManager.t -> World -> list Syscall -> Prop) :
  (forall b w' cs, env w' = env w -> forallb silent cs = true -> R (Done b) m w' cs) ->
  spec (IPCManager.unlockSharedMemory i) m w R.
Proof.
  intros H. unfold IPCManager.unlockSharedMemory.
  apply spec_bind, spec_get.
  destruct (negb (IPCManager.initialized_ m) || (IPCManager.sem_id_ m =? -1)).
  - apply spec_ret. apply H; auto.
  - apply spec_bind, spec_sys. destruct (rv _ =? -1).
    + apply spec_bind, spec_log. apply spec_ret. apply H; auto.
    + apply spec_ret. apply H; auto.
Qed.

Lemma quiet_lock i : quiet (IPCManager.lockSharedMemory i).
Proof. unfold IPCManager.lockSharedMemory. repeat quiet_step. Qed.

Lemma quiet_unlock i : quiet (IPCManager.unlockSharedMemory i).
Proof. unfold IPCManager.unlockSharedMemory. repeat quiet_step. Qed.

Lemma quiet_addWorkerProcess p i : quiet (IPCManager.addWorkerProcess K p i).
Proof.
  unfold IPCManager.addWorkerProcess.
  repeat first [apply quiet_lock | apply quiet_unlock | quiet_step].
Qed.

Lemma quiet_removeWorkerProcess p : quiet (IPCManager.removeWorkerProcess K p).
Proof.
  unfold IPCManager.removeWorkerProcess.
  repeat first [apply quiet_lock | apply quiet_unlock | quiet_step].
Qed.

Lemma quiet_getShutdownFlag : quiet IPCManager.getShutdownFlag.
Proof. unfold IPCManager.getShutdownFlag. repeat quiet_step. Qed.

Lemma find_pid_spec ws pid n : forall i k,
  IPCManager.find_pid ws pid i n = Some k ->
  (i <= k < i + n)%nat /\
  ProcessInfo.pid (nth k ws ProcessInfo.zero) = pid /\
  (forall j, (i <= j < k)%nat -> ProcessInfo.pid (nth j ws ProcessInfo.zero) <> pid).
Proof.
  induction n; simpl; intros i k H; [discriminate|].
  destruct (ProcessInfo.pid (nth i ws ProcessInfo.zero) =? pid) eqn:E.
  - inversion H; subst. apply Z.eqb_eq in E. repeat split; auto; lia.
  - apply IHn in H. destruct H as (H1 & H2 & H3). apply Z.eqb_neq in E.
    repeat split; auto; try lia.
    intros j Hj. destruct (Nat.eq_dec j i); [subst; auto | apply H3; lia].
Qed.

Lemma addWorkerProcess_spec pid worker_id m w d :
  IPCManager.shared_data_ m = mapped d ->
  SharedMemoryData.wf d ->
  exists ok m' w' d',
    IPCManager.addWorkerProcess K pid worker_id m w = (Done ok, m', w') /\
    IPCManager.shared_data_ m' = mapped d' /\
    SharedMemoryData.wf d' /\
    (SharedMemoryData.worker_count d = constants.MAX_WORKER_PROCESSES ->
       ok = false) /\
    (ok = false -> m' = m) /\
    (ok = true ->
       SharedMemoryData.worker_count d' = SharedMemoryData.worker_count d + 1 /\
       exists t_start t_beat,
         SharedMemoryData.live d' =
         SharedMemoryData.live d ++
         [ProcessInfo.mk pid worker_id STARTING t_start t_beat]).
Proof.
  intros Hd [Hlen Hcnt].
  unfold IPCManager.addWorkerProcess.
  unfold bind at 1.
  destruct (lockSharedMemory_frame (SEM_WORKER_LIST K) m w) as (b & w1 & El).
  rewrite El. destruct b; simpl.
  2:{ exists false, m, w1, d. munfold.
      repeat split; auto; try lia; try (intros; discriminate). }
  unfold bind at 1. unfold get at 1. rewrite Hd.
  destruct (SharedMemoryData.worker_count d <? constants.MAX_WORKER_PROCESSES) eqn:Ec.
  - apply Z.ltb_lt in Ec.
    munfold.
    match goal with |- context [IPCManager.unlockSharedMemory ?i ?mm ?ww] =>
      destruct (unlockSharedMemory_frame i mm ww) as (b2 & w2 & Eu); rewrite Eu end.
    do 4 eexists. split; [reflexivity|]. simpl.
    split; [reflexivity|].
    split; [|split; [|split]].
    + split; simpl;
        [rewrite length_upd; auto | unfold constants.MAX_WORKER_PROCESSES in *; lia].
    + intros; lia.
    + discriminate.
    + intros _. split; [reflexivity|].
      do 2 eexists. unfold SharedMemoryData.live; simpl.
      replace (Z.to_nat (SharedMemoryData.worker_count d + 1))
        with (S (Z.to_nat (SharedMemoryData.worker_count d))) by lia.
      apply firstn_upd_snoc.
      rewrite Hlen. unfold constants.MAX_WORKER_PROCESSES in *; lia.
  - apply Z.ltb_ge in Ec.
    munfold.
    match goal with |- context [IPCManager.unlockSharedMemory ?i ?mm ?ww] =>
      destruct (unlockSharedMemory_frame i mm ww) as (b2 & w2 & Eu); rewrite Eu end.
    exists false, m, w2, d. repeat split; auto; try lia; try (intros; discriminate).
Qed.

(** After the lock, the clock is the second call of the run. *)
Lemma updateWorkerStatus_spec pid st m w d :
  IPCManager.shared_data_ m = mapped d ->
  exists ok m' w',
    IPCManager.updateWorkerStatus K pid st m w = (Done ok, m', w') /\
    (ok = false -> m' = m) /\
    (ok = true ->
       exists d', m' = IPCManager.set_shared_data_ (mapped d') m /\
         record_touched pid st
           (rv (answer (env w) (S (length (trace w))) TimeNow)) d d').
Proof.
  intros Hd. unfold IPCManager.updateWorkerStatus.
  unfold bind at 1.
  unfold IPCManager.lockSharedMemory.
  munfold.
  destruct (negb (IPCManager.initialized_ m) || (IPCManager.sem_id_ m =? -1)) eqn:Ei.
  { do 3 eexists. split; [reflexivity|]. split; auto. discriminate. }
  destruct (rv _ =? -1) eqn:Er.
  { do 3 eexists. split; [reflexivity|]. split; auto. discriminate. }
  simpl. rewrite Hd.
  destruct (IPCManager.find_pid _ pid 0 _) as [i|] eqn:Ef.
  - apply find_pid_spec in Ef. destruct Ef as (Hi & Hp & Hfirst).
    match goal with |- context [IPCManager.unlockSharedMemory ?i ?mm ?ww] =>
      destruct (unlockSharedMemory_frame i mm ww) as (b2 & w2 & Eu); rewrite Eu end.
    do 3 eexists; split; [reflexivity|]; split; [discriminate|]; intros _.
    eexists; split; [reflexivity|].
    exists i; simpl; repeat split; auto; try lia; intros; apply Hfirst; lia.
  - match goal with |- context [IPCManager.unlockSharedMemory ?i ?mm ?ww] =>
      destruct (unlockSharedMemory_frame i mm ww) as (b2 & w2 & Eu); rewrite Eu end.
    do 3 eexists; split; [reflexivity|]; split; auto; discriminate.
Qed.

Lemma updateStatistics_spec stats m w d :
  IPCManager.shared_data_ m = mapped d ->
  lock_granted (SEM_STATISTICS K) m w ->
  exists w',
    IPCManager.updateStatistics K stats m w =
    (Done true,
     IPCManager.set_shared_data_
       (mapped (SharedMemoryData.set_stats
                  (ProcessStatistics.set_last_update
                     (rv (answer (env w) (S (length (trace w))) TimeNow)) stats) d)) m,
     w').
Proof.
  intros Hd Hl. unfold IPCManager.updateStatistics.
  unfold bind at 1. rewrite (lockSharedMemory_granted _ _ _ Hl).
  munfold. rewrite Hd.
  match goal with |- context [IPCManager.unlockSharedMemory ?i ?mm ?ww] =>
    destruct (unlockSharedMemory_frame i mm ww) as (b2 & w2 & Eu); rewrite Eu end.
  eexists; reflexivity.
Qed.

Lemma sendMessage_spec message m w :
  exists w' logs,
    IPCManager.sendMessage message m w = (Done (taken 0 w m message), m, w') /\
    env w' = env w /\
    trace w' =
      rev ((if IPCManager.initialized_ m && negb (IPCManager.msg_queue_id_ m =? -1)
            then [Msgsnd (IPCManager.msg_queue_id_ m) message IPC_NOWAIT]
            else []) ++ logs) ++ trace w /\
    forallb is_log logs = true.
Proof.
  unfold IPCManager.sendMessage, taken. munfold.
  destruct (IPCManager.initialized_ m) eqn:Ei; simpl.
  2:{ exists (issue (Log LERROR "IPC manager not initialized or message queue not available") w),
        [Log LERROR "IPC manager not initialized or message queue not available"].
      repeat split. }
  destruct (IPCManager.msg_queue_id_ m =? -1) eqn:Eq; simpl.
  { exists (issue (Log LERROR "IPC manager not initialized or message queue not available") w),
      [Log LERROR "IPC manager not initialized or message queue not available"].
    repeat split. }
  destruct (rv _ =? -1) eqn:Er; [destruct (errno _ =? EAGAIN) eqn:Ee|]; simpl.
  - eexists. exists []. repeat split.
  - eexists. exists [Log LERROR "Failed to send message"]. repeat split.
  - eexists. exists [Log TRACE "Message sent"]. repeat split.
Qed.

Lemma createMessageQueue_conflict m w :
  let n := length (trace w) in
  let key := rv (answer (env w) n (Ftok (MSG_QUEUE_ID K))) in
  let old := rv (answer (env w) (S (S n)) (Msgget key perm_0666)) in
  let rmid := if old =? -1 then [] else [Msgctl old IPC_RMID] in
  let new := rv (answer (env w) (length rmid + 3 + n) (Msgget key creat)) in
  key <> -1 ->
  rv (answer (env w) (S n) (Msgget key creat_excl)) = -1 ->
  errno (answer (env w) (S n) (Msgget key creat_excl)) = EEXIST ->
  exists m' w' l t,
    IPCManager.createMessageQueue K m w = (Done (negb (new =? -1)), m', w') /\
    IPCManager.msg_queue_id_ m' = new /\
    calls_between w w' =
      [Ftok (MSG_QUEUE_ID K); Msgget key creat_excl; Msgget key perm_0666]
      ++ rmid ++ [Msgget key creat; Log l t].
Proof.
  intros n key old rmid new Hkey Hrv Herr.
  subst n key old rmid new. unfold creat_excl, creat in *.
  unfold IPCManager.createMessageQueue. munfold.
  apply Z.eqb_neq in Hkey. rewrite Hkey. simpl.
  rewrite Hrv, Herr. simpl.
  destruct (rv (answer (env w) (S (S (length (trace w)))) _) =? -1) eqn:Eo; simpl;
  match goal with |- context [if rv ?a =? -1 then _ else _] =>
     destruct (rv a =? -1) eqn:En end; simpl;
  (do 4 eexists; split; [reflexivity|]; split; [reflexivity|];
   apply calls_between_rev; reflexivity).
Qed.

Lemma createSharedMemory_conflict m w :
  let n := length (trace w) in
  let key := rv (answer (env w) n (Ftok (SHM_ID K))) in
  let old := rv (answer (env w) (S (S n)) (Shmget key perm_0666)) in
  let rmid := if old =? -1 then [] else [Shmctl old IPC_RMID] in
  let new := rv (answer (env w) (length rmid + 3 + n) (Shmget key creat)) in
  let attached := rv (answer (env w) (length rmid + 4 + n) (Shmat new)) in
  key <> -1 ->
  rv (answer (env w) (S n) (Shmget key creat_excl)) = -1 ->
  errno (answer (env w) (S n) (Shmget key creat_excl)) = EEXIST ->
  exists m' w' l t,
    IPCManager.createSharedMemory K m w =
      (Done (negb (new =? -1) && negb (attached =? -1)), m', w') /\
    IPCManager.shm_id_ m' = new /\
    calls_between w w' =
      [Ftok (SHM_ID K); Shmget key creat_excl; Shmget key perm_0666]
      ++ rmid ++ [Shmget key creat]
      ++ (if new =? -1 then [] else [Shmat new]) ++ [Log l t].
Proof.
  intros n key old rmid new attached Hkey Hrv Herr.
  subst n key old rmid new attached. unfold creat_excl, creat in *.
  unfold IPCManager.createSharedMemory, IPCManager.shmat. munfold.
  apply Z.eqb_neq in Hkey. rewrite Hkey. simpl.
  rewrite Hrv, Herr. simpl.
  destruct (rv (answer (env w) (S (S (length (trace w)))) _) =? -1) eqn:Eo; simpl;
  match goal with |- context [if rv ?a =? -1 then _ else _] =>
     destruct (rv a =? -1) eqn:En end; simpl;
  try match goal with |- context [if rv ?a =? -1 then _ else _] =>
     destruct (rv a =? -1) eqn:Ea end; simpl;
  (do 4 eexists; split; [reflexivity|]; split; [reflexivity|];
   apply calls_between_rev; reflexivity).
Qed.

Lemma init_semaphores_ok n : forall i m w,
  (forall k j, rv (answer (env w) k (Semctl (IPCManager.sem_id_ m) j SETVAL 1)) <> -1) ->
  exists w' l,
    IPCManager.init_semaphores n i m w = (Done true, m, w') /\
    env w' = env w /\ trace w' = l ++ trace w.
Proof.
  induction n; intros i m w H; simpl.
  - exists w, []. auto.
  - munfold. specialize (H (length (trace w)) i) as H1.
    apply Z.eqb_neq in H1. rewrite H1.
    destruct (IHn (i + 1) m (issue (Semctl (IPCManager.sem_id_ m) i SETVAL 1) w))
      as (w' & l & E & He & Ht); [exact H|].
    unfold issue in E. rewrite E.
    exists w', (l ++ [Semctl (IPCManager.sem_id_ m) i SETVAL 1]).
    repeat split; auto. rewrite Ht. simpl. rewrite <- app_assoc. reflexivity.
Qed.

Lemma init_semaphores_frame n : forall i m w,
  exists b w' l,
    IPCManager.init_semaphores n i m w = (Done b, m, w') /\
    env w' = env w /\ trace w' = l ++ trace w.
Proof.
  induction n; intros i m w; simpl.
  - exists true, w, []. auto.
  - munfold. destruct (rv _ =? -1).
    + do 3 eexists. split; [reflexivity|]. split; [reflexivity|].
      simpl. instantiate (1 := [_; _]). reflexivity.
    + destruct (IHn (i + 1) m (issue (Semctl (IPCManager.sem_id_ m) i SETVAL 1) w))
        as (b & w' & l & E & He & Ht).
      unfold issue in E. rewrite E.
      exists b, w', (l ++ [Semctl (IPCManager.sem_id_ m) i SETVAL 1]).
      repeat split; auto. rewrite Ht. simpl. rewrite <- app_assoc. reflexivity.
Qed.

Lemma createSemaphores_conflict m w :
  let n := length (trace w) in
  let key := rv (answer (env w) n (Ftok (SEM_ID K))) in
  let old := rv (answer (env w) (S (S n)) (Semget key (SEM_COUNT K) perm_0666)) in
  let rmid := if old =? -1 then [] else [Semctl old 0 IPC_RMID 0] in
  let new := rv (answer (env w) (length rmid + 3 + n) (Semget key (SEM_COUNT K) creat)) in
  key <> -1 ->
  rv (answer (env w) (S n) (Semget key (SEM_COUNT K) creat_excl)) = -1 ->
  errno (answer (env w) (S n) (Semget key (SEM_COUNT K) creat_excl)) = EEXIST ->
  exists ok m' w' rest,
    IPCManager.createSemaphores K m w = (Done ok, m', w') /\
    IPCManager.sem_id_ m' = new /\
    calls_between w w' =
      [Ftok (SEM_ID K); Semget key (SEM_COUNT K) creat_excl;
       Semget key (SEM_COUNT K) perm_0666]
      ++ rmid ++ [Semget key (SEM_COUNT K) creat] ++ rest /\
    (new = -1 -> ok = false) /\
    (new <> -1 ->
     (forall k j, rv (answer (env w) k (Semctl new j SETVAL 1)) <> -1) ->
     ok = true).
Proof.
  intros n key old rmid new Hkey Hrv Herr.
  subst n key old rmid new. unfold creat_excl, creat in *.
  unfold IPCManager.createSemaphores. munfold.
  apply Z.eqb_neq in Hkey. rewrite Hkey. simpl.
  rewrite Hrv, Herr. simpl.
  destruct (rv (answer (env w) (S (S (length (trace w)))) _) =? -1) eqn:Eo; simpl;
  match goal with |- context [if rv ?a =? -1 then _ else _] =>
     destruct (rv a =? -1) eqn:En end; simpl;
  try (apply Z.eqb_eq in En;
       exists false; do 2 eexists; exists [Log LERROR "Failed to create semaphores"];
       split; [reflexivity|]; split; [simpl; congruence|]; split;
       [apply calls_between_rev; reflexivity|]; split; [auto | congruence]);
  apply Z.eqb_neq in En;
  match goal with |- context [IPCManager.init_semaphores ?k ?i ?mm ?ww] =>
    destruct (init_semaphores_frame k i mm ww) as (b & w1 & l & E & He & Ht);
    pose proof (init_semaphores_ok k i mm ww) as Hok;
    rewrite E in *
  end;
  simpl in *;
  (destruct b; simpl;
   [ exists true; do 2 eexists;
     exists (rev (Log DBG "Semaphores created" :: l));
     split; [reflexivity|]; split; [reflexivity|]; split;
     [ apply calls_between_rev; simpl; rewrite Ht;
       repeat (rewrite ?rev_app_distr, ?rev_involutive; simpl);
       rewrite <- ?app_assoc; reflexivity
     | split; [congruence | auto] ]
   | exists false; do 2 eexists; exists (rev l);
     split; [reflexivity|]; split; [reflexivity|]; split;
     [ apply calls_between_rev; simpl; rewrite Ht;
       repeat (rewrite ?rev_app_distr, ?rev_involutive; simpl);
       rewrite <- ?app_assoc; reflexivity
     | split; [congruence |];
       intros _ Hall; destruct (Hok Hall) as (? & ? & Hc & _); congruence ] ]).
Qed.

Lemma getWorkerProcesses_spec m w d R :
  IPCManager.shared_data_ m = mapped d ->
  SharedMemoryData.wf d ->
  lock_granted (SEM_WORKER_LIST K) m w ->
  (forall w' cs, env w' = env w -> trace w' = rev cs ++ trace w ->
     forallb silent cs = true ->
     R (Done (SharedMemoryData.live d)) m w' cs) ->
  spec (IPCManager.getWorkerProcesses K) m w R.
Proof.
  intros Hd [Hlen Hcnt] Hl H. apply spec_trace. unfold IPCManager.getWorkerProcesses.
  apply spec_bind, lock_spec; auto.
  apply spec_bind, spec_get. rewrite Hd.
  apply spec_bind, spec_ret.
  apply spec_bind, unlock_spec. intros b w' cs He Hq.
  apply spec_ret. rewrite map_nth_seq by lia.
  intros He' Ht'. apply H; auto. simpl. rewrite forallb_app, Hq. reflexivity.
Qed.

End Substrate.

(* ------------------------------------------------------------------ *)
(** ** The supervisor *)

Section Supervisor.
Variable K : IpcConstants.

Lemma quiet_createWorkerProcess i : quiet (MasterProcess.createWorkerProcess K i).
Proof.
  unfold MasterProcess.createWorkerProcess, MasterProcess.ipc_call.
  repeat first [apply quiet_addWorkerProcess | quiet_step].
Qed.

Lemma quiet_handleDeadWorker_one p : quiet (MasterProcess.handleDeadWorker_one K p).
Proof.
  unfold MasterProcess.handleDeadWorker_one, MasterProcess.ipc_call.
  repeat first [apply quiet_removeWorkerProcess | apply quiet_getShutdownFlag
               | apply quiet_createWorkerProcess | quiet_step].
Qed.

Lemma quiet_reap_loop {S} (body : Z -> M S unit) pids :
  (forall p, quiet (body p)) -> quiet (MasterProcess.reap_loop pids body).
Proof.
  intros Hb. induction pids; simpl; repeat first [apply Hb | apply IHpids | quiet_step].
Qed.

Lemma quiet_while_waitpid {S} (body : Z -> M S unit) :
  (forall p, quiet (body p)) -> quiet (MasterProcess.while_waitpid body).
Proof.
  intros Hb. unfold MasterProcess.while_waitpid.
  apply (quiet_ask (fun w => reaped (env w) (length (trace w)))
                   (fun pids => MasterProcess.reap_loop pids body)).
  intros; apply quiet_reap_loop; auto.
Qed.

Lemma quiet_handleDeadWorker : quiet (MasterProcess.handleDeadWorker K).
Proof. apply quiet_while_waitpid. apply quiet_handleDeadWorker_one. Qed.

Lemma signal_workers_spec l t sig (mst : MasterProcess.t) w R :
  (forall w' cs, env w' = env w ->
     kills cs = map (fun p => (p, sig)) (tracked_pids (MasterProcess.workers_ mst)) ->
     sleeps cs = [] -> R (Done tt) mst w' cs) ->
  spec (MasterProcess.signal_workers l t sig) mst w R.
Proof.
  intros H. unfold MasterProcess.signal_workers.
  apply spec_bind, spec_get.
  unfold tracked_pids in H.
  revert w R H. induction (MasterProcess.workers_ mst) as [|e rest IH]; intros w R H; simpl.
  - apply spec_ret. apply H; auto.
  - apply spec_bind. simpl in H.
    destruct (0 <? WorkerInfo.pid (snd e)); simpl.
    + apply spec_bind, spec_log. apply spec_bind, spec_sys. apply spec_ret.
      apply IH. intros w' cs He Hk Hs. apply H; simpl; auto.
      rewrite Hk; auto.
    + apply spec_ret. apply IH. intros w' cs He Hk Hs. apply H; auto.
Qed.

Lemma signal_handler_workers sigs : forall m,
  MasterProcess.workers_
    (fold_left (fun m sig => MasterProcess.signal_handler sig m) sigs m) =
  MasterProcess.workers_ m.
Proof.
  induction sigs; simpl; intros; auto. rewrite IHsigs.
  unfold MasterProcess.signal_handler.
  repeat match goal with |- context [if ?b then _ else _] => destruct b end; reflexivity.
Qed.

Lemma sleep_for_spec ms (mst : MasterProcess.t) w R :
  (forall mst', MasterProcess.workers_ mst' = MasterProcess.workers_ mst ->
     R (Done tt) mst' (issue (SleepFor ms) w) [SleepFor ms]) ->
  spec (MasterProcess.sleep_for ms) mst w R.
Proof.
  intros H. do 4 eexists. split; [|apply H; apply signal_handler_workers].
  repeat split; auto.
Qed.

(** The wait loop never exhausts a fuel of the window's length, whatever
    the workers do: each turn sleeps one second and counts one. *)
Lemma gracefulShutdown_wait_spec fuel : forall wait_time mst w,
  (Z.to_nat (MasterProcess.max_wait_time - wait_time) <= fuel)%nat ->
  spec (MasterProcess.gracefulShutdown_wait K fuel wait_time) mst w
    (fun o _ _ cs =>
       o <> Abort OutOfFuel /\ kills cs = [] /\
       exists n, (n <= Z.to_nat (MasterProcess.max_wait_time - wait_time))%nat /\
                 sleeps cs = repeat 1000 n).
Proof.
  induction fuel as [|fuel IH]; intros wt mst w Hf;
    cbn [MasterProcess.gracefulShutdown_wait];
    apply spec_bind, spec_get;
    destruct (negb (WorkerMap.empty (MasterProcess.workers_ mst)) &&
              (wt <? MasterProcess.max_wait_time)) eqn:E;
    try (apply spec_ret; repeat split; try discriminate;
         exists O; split; [lia | reflexivity]);
    apply andb_true_iff in E; destruct E as [_ E]; apply Z.ltb_lt in E.
  - unfold MasterProcess.max_wait_time in *. lia.
  - apply spec_bind, sleep_for_spec. intros mst1 _.
    apply spec_bind, spec_get.
    apply spec_bind.
    apply spec_quiet.
    { apply quiet_when. apply quiet_bind; [apply quiet_handleDeadWorker|].
      intros; apply quiet_modify. }
    intros o s' w' cs He Hq Hn. destruct o as [[]|r].
    + eapply spec_weaken;
        [apply (IH (wt + 1)); unfold MasterProcess.max_wait_time in *; lia|].
      cbv beta. intros o2 s2 w2 cs2 _ (Ho & Hk & n & Hn' & Hs).
      split; auto.
      rewrite !app_nil_l.
      change (SleepFor 1000 :: cs ++ cs2) with ([SleepFor 1000] ++ cs ++ cs2).
      rewrite !kills_app, !sleeps_app, Hk, Hs, (silent_kills _ Hq), (silent_sleeps _ Hq).
      split; auto. exists (S n).
      split; [unfold MasterProcess.max_wait_time in *; lia | reflexivity].
    + rewrite !app_nil_l.
      rewrite !kills_app, !sleeps_app, (silent_kills _ Hq), (silent_sleeps _ Hq).
      split; [intros X; inversion X; subst; apply Hn; reflexivity|].
      split; auto. exists 1%nat.
      split; [unfold MasterProcess.max_wait_time in *; lia | reflexivity].
Qed.

Lemma reap_zombies_spec t (mst : MasterProcess.t) w R :
  (forall w' cs, env w' = env w -> forallb silent cs = true -> R (Done tt) mst w' cs) ->
  spec (MasterProcess.while_waitpid (fun _ => log INFO t)) mst w R.
Proof.
  intros H. unfold MasterProcess.while_waitpid.
  change (spec (MasterProcess.reap_loop (reaped (env w) (length (trace w)))
                  (fun _ => log INFO t)) mst w R).
  generalize (reaped (env w) (length (trace w))). intros pids.
  revert w R H. induction pids as [|p pids IH]; intros w R H; simpl.
  - apply spec_bind, spec_sys, spec_ret. apply H; auto.
  - apply spec_bind, spec_sys. destruct (0 <? p).
    + apply spec_bind, spec_log. apply IH. intros w' cs He Hq. apply H; auto.
    + apply spec_ret. apply H; auto.
Qed.

Lemma sweep_loop_spec now (ws : list ProcessInfo.t) : forall (mst : MasterProcess.t) w R,
  (forall w' cs, env w' = env w ->
     kills cs = map (fun r => (ProcessInfo.pid r, SIGTERM)) (filter (stale now) ws) ->
     R (Done tt) mst w' cs) ->
  spec (for_each ws (fun worker =>
          if now - ProcessInfo.last_heartbeat worker >? constants.HEARTBEAT_TIMEOUT then
            log WARN "Worker process heartbeat timeout" ;;;
            r <- sys (Kill (ProcessInfo.pid worker) SIGTERM) ;;
            when (rv r =? 0) (log INFO "Sent SIGTERM to worker process")
          else ret tt)) mst w R.
Proof.
  induction ws as [|r ws IH]; intros mst w R H; simpl.
  - apply spec_ret. apply H; auto.
  - apply spec_bind. unfold stale in *.
    simpl filter in H.
    destruct (now - ProcessInfo.last_heartbeat r >? constants.HEARTBEAT_TIMEOUT) eqn:E.
    + apply spec_bind, spec_log. apply spec_bind, spec_sys.
      destruct (rv _ =? 0); simpl.
      * apply spec_log. apply IH. intros w' cs He Hk.
        apply H; auto; simpl; try rewrite Hk; auto.
      * apply spec_ret. apply IH. intros w' cs He Hk.
        apply H; auto; simpl; try rewrite Hk; auto.
    + apply spec_ret. apply IH. intros w' cs He Hk. apply H; auto.
Qed.

End Supervisor.

(* ------------------------------------------------------------------ *)
(** ** The worker *)

Lemma send_and_warn_spec ty d text x w :
  let message := outgoing w ty (d x) in
  let m := WorkerProcess.ipc x in
  exists w' cs,
    send_and_warn ty d text x w = (Done tt, x, w') /\
    env w' = env w /\ trace w' = rev cs ++ trace w /\
    forallb (fun c => negb (is_semop c)) cs = true /\
    (taken 3 w m message = false -> In (Log WARN text) cs) /\
    (IPCManager.initialized_ m = true -> IPCManager.msg_queue_id_ m <> -1 ->
     In (Msgsnd (IPCManager.msg_queue_id_ m) message IPC_NOWAIT) cs).
Proof.
  intros message m. subst message m. unfold outgoing, taken, send_and_warn.
  unfold WorkerProcess.ipc_call, IPCManager.sendMessage. munfold.
  destruct x as [wid run sdk db lh st bufs ipc cfg g1 g2]; simpl.
  destruct ipc as [ism init q shm sem sd]; simpl.
  destruct init; simpl.
  2:{ do 2 eexists. split; [reflexivity|]. split; [reflexivity|].
      split; [instantiate (1 := [_; _; _; _; _]); reflexivity|].
      split; [reflexivity|]. split; [intros _; simpl; auto 10|].
      intros H; discriminate H. }
  destruct (q =? -1) eqn:Eq; simpl.
  { apply Z.eqb_eq in Eq. do 2 eexists. split; [reflexivity|]. split; [reflexivity|].
    split; [instantiate (1 := [_; _; _; _; _]); reflexivity|].
    split; [reflexivity|]. split; [intros _; simpl; auto 10|].
    intros _ H; congruence. }
  destruct (rv _ =? -1) eqn:Er; [destruct (errno _ =? EAGAIN) eqn:Ee|]; simpl.
  - do 2 eexists. split; [reflexivity|]. split; [reflexivity|].
    split; [instantiate (1 := [_; _; _; _; _]); reflexivity|].
    split; [reflexivity|]. split; [intros _; simpl; auto 10|].
    intros; simpl; auto.
  - do 2 eexists. split; [reflexivity|]. split; [reflexivity|].
    split; [instantiate (1 := [_; _; _; _; _; _]); reflexivity|].
    split; [reflexivity|]. split; [intros _; simpl; auto 10|].
    intros; simpl; auto 10.
  - do 2 eexists. split; [reflexivity|]. split; [reflexivity|].
    split; [instantiate (1 := [_; _; _; _; _]); reflexivity|].
    split; [reflexivity|]. split; [discriminate|].
    intros; simpl; auto 10.
Qed.

Lemma sendStatusUpdate_eq st x w :
  WorkerProcess.sendStatusUpdate st x w =
  send_and_warn STATUS_UPDATE (fun x => status_data (WorkerProcess.worker_id_ x) st)
    "Failed to send status update" x w.
Proof. reflexivity. Qed.

Lemma sendErrorReport_eq size e x w :
  WorkerProcess.sendErrorReport size e x w =
  send_and_warn ERROR_REPORT
    (fun x => error_data (WorkerProcess.worker_id_ x)
                (WorkerProcess.strncpy (size - 1) e))
    "Failed to send error report" x w.
Proof. reflexivity. Qed.

Lemma sendStatistics_eq x w :
  WorkerProcess.sendStatistics x w =
  send_and_warn STATISTICS (fun x => stats_data (WorkerProcess.statistics_ x))
    "Failed to send statistics" x w.
Proof. reflexivity. Qed.

Lemma sendHeartbeat_eq x w :
  WorkerProcess.sendHeartbeat x w =
  bind (send_and_warn HEARTBEAT (fun x => heartbeat_data (WorkerProcess.worker_id_ x))
          "Failed to send heartbeat")
       (fun _ => now <- time_nullptr ;; modify (WorkerProcess.set_last_heartbeat_time_ now))
       x w.
Proof.
  unfold WorkerProcess.sendHeartbeat, send_and_warn.
  unfold WorkerProcess.ipc_call, IPCManager.sendMessage. munfold.
  destruct (WorkerProcess.ipc x) as [ism init q shm sem sd]; simpl.
  destruct init; simpl; [|reflexivity].
  destruct (q =? -1); simpl; [reflexivity|].
  destruct (rv _ =? -1); [destruct (errno _ =? EAGAIN)|]; reflexivity.
Qed.

Lemma sendHeartbeat_spec x w :
  let message := outgoing w HEARTBEAT (heartbeat_data (WorkerProcess.worker_id_ x)) in
  let m := WorkerProcess.ipc x in
  exists now w' cs,
    WorkerProcess.sendHeartbeat x w =
      (Done tt, WorkerProcess.set_last_heartbeat_time_ now x, w') /\
    env w' = env w /\ trace w' = rev cs ++ trace w /\
    forallb (fun c => negb (is_semop c)) cs = true /\
    (taken 3 w m message = false -> In (Log WARN "Failed to send heartbeat") cs) /\
    (IPCManager.initialized_ m = true -> IPCManager.msg_queue_id_ m <> -1 ->
     In (Msgsnd (IPCManager.msg_queue_id_ m) message IPC_NOWAIT) cs) /\
    (exists before, cs = before ++ [TimeNow] /\
       now = rv (answer (env w) (length (trace w) + length before) TimeNow)).
Proof.
  intros message m. rewrite sendHeartbeat_eq.
  destruct (send_and_warn_spec HEARTBEAT
              (fun x => heartbeat_data (WorkerProcess.worker_id_ x))
              "Failed to send heartbeat" x w)
    as (w1 & cs & E & He & Ht & Hs & Hw & Hm).
  unfold bind at 1. rewrite E. munfold.
  exists (rv (answer (env w1) (length (trace w1)) TimeNow)).
  eexists. exists (cs ++ [TimeNow]).
  split; [reflexivity|]. simpl.
  split; [exact He|]. split; [rewrite Ht, rev_app_distr; reflexivity|].
  split; [rewrite forallb_app, Hs; reflexivity|].
  split; [intros H; apply in_or_app; left; apply Hw; exact H|].
  split; [intros H1 H2; apply in_or_app; left; apply Hm; auto|].
  exists cs. split; [reflexivity|].
  rewrite He, Ht, length_app, length_rev, Nat.add_comm. reflexivity.
Qed.

(* ------------------------------------------------------------------ *)
(** ** Steps that leave the buffers alone *)

Lemma logs_saves (logs : list Syscall) : forallb is_log logs = true -> saves logs = [].
Proof.
  induction logs as [|c logs IH]; simpl; [reflexivity |].
  destruct c; simpl; try discriminate. exact IH.
Qed.

Lemma aside_bind {A B} (c : M WorkerProcess.t A) (k : A -> M WorkerProcess.t B) :
  aside c -> (forall a, aside (k a)) -> aside (bind c k).
Proof.
  intros Hc Hk x w.
  destruct (Hc x w) as (a & x1 & w1 & cs1 & H1 & B1 & D1 & I1 & S1).
  destruct (Hk a x1 w1) as (b & x2 & w2 & cs2 & H2 & B2 & D2 & I2 & S2).
  exists b, x2, w2, (cs1 ++ cs2). split; [eapply steps_bind; eauto |].
  rewrite saves_app, S1, S2. repeat split; congruence.
Qed.

Lemma aside_pure {A} (a : A) (f : WorkerProcess.t -> WorkerProcess.t) :
  (forall x, WorkerProcess.data_buffers_ (f x) = WorkerProcess.data_buffers_ x) ->
  (forall x, WorkerProcess.db_manager_ (f x) = WorkerProcess.db_manager_ x) ->
  (forall x, WorkerProcess.ipc (f x) = WorkerProcess.ipc x) ->
  aside (fun x w => (Done a, f x, w)).
Proof. intros Hb Hd Hi x w. exists a, (f x), w, []. repeat split; auto. Qed.

Lemma aside_ret {A} (a : A) : aside (ret a).
Proof. apply (aside_pure a (fun x => x)); reflexivity. Qed.

Lemma aside_get : aside get.
Proof. intros x w. exists x, x, w, []. repeat split; auto. Qed.

Lemma aside_modify (f : WorkerProcess.t -> WorkerProcess.t) :
  (forall x, WorkerProcess.data_buffers_ (f x) = WorkerProcess.data_buffers_ x) ->
  (forall x, WorkerProcess.db_manager_ (f x) = WorkerProcess.db_manager_ x) ->
  (forall x, WorkerProcess.ipc (f x) = WorkerProcess.ipc x) ->
  aside (modify f).
Proof. apply (aside_pure tt). Qed.

Lemma aside_sys (c : Syscall) : saves [c] = [] -> aside (sys c).
Proof.
  intros H x w. exists (answer (env w) (length (trace w)) c), x, (issue c w), [c].
  repeat split; auto.
Qed.

Lemma aside_log l t : aside (log l t).
Proof. apply aside_bind; [apply aside_sys; reflexivity | intros; apply aside_ret]. Qed.

Lemma aside_time : aside time_nullptr.
Proof. apply aside_bind; [apply aside_sys; reflexivity | intros; apply aside_ret]. Qed.

Lemma aside_when b (c : M WorkerProcess.t unit) : aside c -> aside (when b c).
Proof. destruct b; simpl; auto. intros; apply aside_ret. Qed.

Lemma aside_sendMessage message :
  aside (WorkerProcess.ipc_call (IPCManager.sendMessage message)).
Proof.
  intros x w.
  destruct (sendMessage_spec message (WorkerProcess.ipc x) w)
    as (w' & logs & E & He & Ht & Hl).
  do 4 eexists. split.
  - unfold steps, WorkerProcess.ipc_call, zoom. rewrite E.
    split; [reflexivity |]. split; [exact He | exact Ht].
  - repeat split. rewrite saves_app, (logs_saves _ Hl), app_nil_r.
    destruct (_ && _); reflexivity.
Qed.

(** A computation that first reads the environment. *)
Lemma aside_ask {A X} (h : World -> X) (f : X -> M WorkerProcess.t A) :
  (forall v, aside (f v)) -> aside (fun x w => f (h w) x w).
Proof. intros Hf x w. apply (Hf (h w) x w). Qed.

Lemma signal_handler_aside (sigs : list Z) : forall x,
  let x' := fold_left (fun x sig => WorkerProcess.worker_signal_handler sig x) sigs x in
  WorkerProcess.data_buffers_ x' = WorkerProcess.data_buffers_ x /\
  WorkerProcess.db_manager_ x' = WorkerProcess.db_manager_ x /\
  WorkerProcess.ipc x' = WorkerProcess.ipc x.
Proof.
  induction sigs as [|sig sigs IH]; intros x; simpl; [auto |].
  destruct (IH (WorkerProcess.worker_signal_handler sig x)) as (Hb & Hd & Hi).
  rewrite Hb, Hd, Hi. unfold WorkerProcess.worker_signal_handler.
  destruct (_ || _); [auto |]. destruct (sig =? SIGHUP); auto.
Qed.

Lemma aside_sleep_for ms : aside (WorkerProcess.sleep_for ms).
Proof.
  intros x w. unfold WorkerProcess.sleep_for.
  destruct (signal_handler_aside (signals (env w) (length (trace w))) x) as (Hb & Hd & Hi).
  exists tt. do 2 eexists. exists [SleepFor ms].
  split; [repeat split |]. auto.
Qed.

Ltac aside_step :=
  first
    [ apply aside_ret | apply aside_get | apply aside_log | apply aside_time
    | apply aside_sendMessage | apply aside_sleep_for
    | apply aside_modify; reflexivity
    | apply aside_sys; reflexivity
    | apply aside_when
    | apply aside_bind; [| intros]
    | match goal with
      | |- aside (if ?b then _ else _) => destruct b
      | |- aside (match ?x with _ => _ end) => destruct x
      | |- aside (let _ := _ in _) => cbv zeta
      end ].

Lemma aside_sendHeartbeat : aside WorkerProcess.sendHeartbeat.
Proof. unfold WorkerProcess.sendHeartbeat. repeat aside_step. Qed.

Lemma aside_sendStatistics : aside WorkerProcess.sendStatistics.
Proof. unfold WorkerProcess.sendStatistics. repeat aside_step. Qed.

Lemma aside_inbox (handleReload : M WorkerProcess.t unit) :
  aside handleReload ->
  forall msgs, aside (WorkerProcess.processIPCMessages_loop handleReload msgs).
Proof.
  intros Hr. induction msgs as [|message rest IH]; simpl.
  - repeat aside_step.
  - apply aside_bind; [apply aside_get | intros x].
    destruct (_ || _); [apply aside_log |].
    apply aside_bind; [apply aside_sys; reflexivity | intros r].
    apply aside_bind; [apply aside_log | intros _].
    apply aside_bind; [| intros _; exact IH].
    destruct (type message); repeat aside_step; exact Hr.
Qed.

Lemma aside_processIPCMessages (handleReload : M WorkerProcess.t unit) :
  aside handleReload -> aside (WorkerProcess.processIPCMessages handleReload).
Proof.
  intros Hr. unfold WorkerProcess.processIPCMessages.
  apply (aside_ask (fun w => inbox (env w) (length (trace w)))). apply aside_inbox, Hr.
Qed.

Lemma spec_aside {A} (c : M WorkerProcess.t A) x w
    (R : outcome A -> WorkerProcess.t -> World -> list Syscall -> Prop) :
  aside c ->
  (forall a x' w' cs, env w' = env w ->
     WorkerProcess.data_buffers_ x' = WorkerProcess.data_buffers_ x ->
     WorkerProcess.db_manager_ x' = WorkerProcess.db_manager_ x ->
     WorkerProcess.ipc x' = WorkerProcess.ipc x ->
     saves cs = [] -> R (Done a) x' w' cs) ->
  spec c x w R.
Proof.
  intros Hc H. destruct (Hc x w) as (a & x' & w' & cs & Hs & Hb & Hd & Hi & Hv).
  exists (Done a), x', w', cs. split; [exact Hs |]. apply H; auto. apply Hs.
Qed.

Lemma sink_never_throws_env w w' :
  env w' = env w -> sink_never_throws w -> sink_never_throws w'.
Proof. intros He H n c. rewrite He. apply H. Qed.

Lemma pending_snoc x t buffer data :
  WorkerProcess.data_buffers_ x t = Some (buffer ++ [data]) ->
  pending x t = [buffer ++ [data]].
Proof.
  intros H. unfold pending. rewrite H. destruct buffer; reflexivity.
Qed.

Section Buffers.
Variable sizeof_MarketData : Z.

Lemma flushDataBuffer_spec t x w R :
  WorkerProcess.db_manager_ x = true ->
  (forall x' w' cs, env w' = env w ->
     WorkerProcess.db_manager_ x' = true ->
     WorkerProcess.config x' = WorkerProcess.config x ->
     (forall k, k <> t -> WorkerProcess.data_buffers_ x' k = WorkerProcess.data_buffers_ x k) ->
     saves cs = pending x t ->
     (sink_never_throws w -> forall b, WorkerProcess.data_buffers_ x t = Some b ->
        WorkerProcess.data_buffers_ x' t = Some []) ->
     R (Done tt) x' w' cs) ->
  spec (WorkerProcess.flushDataBuffer sizeof_MarketData t) x w R.
Proof.
  intros Hdb H. unfold WorkerProcess.flushDataBuffer.
  apply spec_bind, spec_get. unfold pending in H.
  destruct (WorkerProcess.data_buffers_ x t) as [[|a b]|] eqn:Eb.
  - apply spec_ret. apply H; auto.
  - rewrite Hdb. apply spec_bind. apply spec_bind, spec_sys. apply spec_ret.
    destruct (WorkerProcess.throws _) eqn:Et.
    + apply spec_bind, spec_log. apply spec_modify. apply H; auto.
      intros Hn. rewrite Hn in Et. discriminate.
    + apply spec_bind.
      destruct (negb (rv _ =? 0)).
      * apply spec_bind, spec_modify. apply spec_log. apply spec_modify.
        apply H; auto; simpl.
        -- intros k Hk. unfold WorkerProcess.store.
           rewrite MarketDataType_eqb_neq; auto.
        -- intros _ b' _. unfold WorkerProcess.store.
           rewrite MarketDataType_eqb_refl. reflexivity.
      * apply spec_bind, spec_log. apply spec_modify. apply spec_modify.
        apply H; auto; simpl.
        -- intros k Hk. unfold WorkerProcess.store.
           rewrite MarketDataType_eqb_neq; auto.
        -- intros _ b' _. unfold WorkerProcess.store.
           rewrite MarketDataType_eqb_refl. reflexivity.
  - apply spec_ret. apply H; auto. intros _ b Hb. discriminate.
Qed.

Lemma flush_if_pending_spec t x w R :
  WorkerProcess.db_manager_ x = true ->
  (forall x' w' cs, env w' = env w ->
     WorkerProcess.db_manager_ x' = true ->
     (forall k, k <> t -> WorkerProcess.data_buffers_ x' k = WorkerProcess.data_buffers_ x k) ->
     saves cs = pending x t ->
     (sink_never_throws w -> forall b, WorkerProcess.data_buffers_ x t = Some b ->
        WorkerProcess.data_buffers_ x' t = Some []) ->
     R (Done tt) x' w' cs) ->
  spec (x <- get ;;
        match WorkerProcess.data_buffers_ x t with
        | Some (_ :: _) => WorkerProcess.flushDataBuffer sizeof_MarketData t
        | _ => ret tt
        end) x w R.
Proof.
  intros Hdb H. apply spec_bind, spec_get.
  destruct (WorkerProcess.data_buffers_ x t) as [[|a b]|] eqn:Eb.
  - apply spec_ret.
    apply H; auto; try (unfold pending; rewrite Eb; reflexivity);
      try (intros _ b Hb; congruence).
  - apply flushDataBuffer_spec; auto.
    intros x' w' cs He Hdb' Hc Hk Hs Hn. rewrite ?app_nil_l. apply H; auto.
    intros Hnt b0 _. eapply Hn; eauto.
  - apply spec_ret.
    apply H; auto; try (unfold pending; rewrite Eb; reflexivity);
      try (intros _ b Hb; congruence).
Qed.

Lemma flush_loop_spec ts : NoDup ts -> forall x w R,
  WorkerProcess.db_manager_ x = true ->
  (forall x' w' cs, env w' = env w ->
     WorkerProcess.db_manager_ x' = true ->
     (forall k, ~ In k ts ->
        WorkerProcess.data_buffers_ x' k = WorkerProcess.data_buffers_ x k) ->
     saves cs = flat_map (pending x) ts ->
     (sink_never_throws w -> forall k b, In k ts ->
        WorkerProcess.data_buffers_ x k = Some b ->
        WorkerProcess.data_buffers_ x' k = Some []) ->
     R (Done tt) x' w' cs) ->
  spec (for_each ts (fun data_type =>
          x <- get ;;
          match WorkerProcess.data_buffers_ x data_type with
          | Some (_ :: _) => WorkerProcess.flushDataBuffer sizeof_MarketData data_type
          | _ => ret tt
          end)) x w R.
Proof.
  induction 1 as [|t ts Hnin Hnd IH]; intros x w R Hdb H; simpl.
  - apply spec_ret. apply H; auto. intros _ k b [].
  - apply spec_bind, flush_if_pending_spec; auto.
    intros x2 w2 cs1 He2 Hdb2 Hk2 Hs2 Hn2.
    apply IH; auto.
    intros x' w' cs2 He' Hdb' Hk' Hs' Hn'.
    apply H; auto.
    + congruence.
    + intros k Hk. rewrite Hk' by (intros X; apply Hk; right; exact X).
      apply Hk2. intros X; apply Hk; left; auto.
    + rewrite saves_app, Hs2, Hs'. simpl. f_equal.
      apply flat_map_agree.
      intros k Hin. unfold pending. rewrite Hk2; auto.
      intros X; subst; auto.
    + intros Hnt k b [Hk|Hk] Hb.
      * subst k. rewrite Hk' by exact Hnin. eapply Hn2; eauto.
      * assert (k <> t) by (intros X; subst; auto).
        eapply Hn'; eauto.
        -- eapply sink_never_throws_env; eauto.
        -- rewrite Hk2; eauto.
Qed.

End Buffers.

(* ------------------------------------------------------------------ *)
(** ** A turn of the worker's loop *)


Section Turn.
Variable sizeof_MarketData : Z.
Variables handleReload handleReconnection : M WorkerProcess.t unit.
Hypothesis reload_aside : aside handleReload.
Hypothesis reconnection_aside : aside handleReconnection.

Lemma getShutdownFlag_clear x w :
  flag_clear (WorkerProcess.ipc x) ->
  WorkerProcess.ipc_call IPCManager.getShutdownFlag x w =
    (Done false, WorkerProcess.set_ipc (WorkerProcess.ipc x) x, w).
Proof.
  unfold flag_clear, WorkerProcess.ipc_call, IPCManager.getShutdownFlag, zoom. munfold.
  destruct (IPCManager.shared_data_ (WorkerProcess.ipc x)); intros H;
    [reflexivity | contradiction | rewrite H; reflexivity].
Qed.

Lemma mainLoop_heartbeat_aside now l x w R :
  (forall l1 x' w' cs, env w' = env w ->
     WorkerProcess.data_buffers_ x' = WorkerProcess.data_buffers_ x ->
     WorkerProcess.db_manager_ x' = WorkerProcess.db_manager_ x ->
     saves cs = [] ->
     WorkerProcess.last_flush l1 = WorkerProcess.last_flush l ->
     WorkerProcess.flush_interval l1 = WorkerProcess.flush_interval l ->
     R (Done l1) x' w' cs) ->
  spec (WorkerProcess.mainLoop_heartbeat now l) x w R.
Proof.
  intros H. unfold WorkerProcess.mainLoop_heartbeat. destruct (_ >=? _).
  - apply spec_bind, spec_aside; [apply aside_sendHeartbeat |].
    intros [] x' w' cs He Hb Hd Hi Hs. apply spec_ret. rewrite app_nil_r. apply H; auto.
  - apply spec_ret. apply H; auto.
Qed.

Lemma mainLoop_stats_aside now l x w R :
  (forall l1 x' w' cs, env w' = env w ->
     WorkerProcess.data_buffers_ x' = WorkerProcess.data_buffers_ x ->
     WorkerProcess.db_manager_ x' = WorkerProcess.db_manager_ x ->
     saves cs = [] ->
     WorkerProcess.last_flush l1 = WorkerProcess.last_flush l ->
     WorkerProcess.flush_interval l1 = WorkerProcess.flush_interval l ->
     R (Done l1) x' w' cs) ->
  spec (WorkerProcess.mainLoop_stats now l) x w R.
Proof.
  intros H. unfold WorkerProcess.mainLoop_stats. destruct (_ >=? _).
  - apply spec_bind, spec_aside; [apply aside_sendStatistics |].
    intros [] x' w' cs He Hb Hd Hi Hs. apply spec_ret. rewrite app_nil_r. apply H; auto.
  - apply spec_ret. apply H; auto.
Qed.

Lemma MarketDataType_all_NoDup : NoDup MarketDataType_all.
Proof. unfold MarketDataType_all. repeat constructor; simpl; intuition discriminate. Qed.

Lemma MarketDataType_all_In t : In t MarketDataType_all.
Proof. destruct t; simpl; auto 10. Qed.

(** The flush step of a turn. *)
Lemma mainLoop_flush_spec now l x w R :
  WorkerProcess.db_manager_ x = true ->
  (forall l2 x' w' cs, env w' = env w ->
     WorkerProcess.flush_interval l2 = WorkerProcess.flush_interval l ->
     (WorkerProcess.flush_interval l <= now - WorkerProcess.last_flush l ->
        saves cs = flat_map (pending x) MarketDataType_all /\
        WorkerProcess.last_flush l2 = now /\
        (sink_never_throws w -> forall t b,
           WorkerProcess.data_buffers_ x t = Some b ->
           WorkerProcess.data_buffers_ x' t = Some [])) ->
     (now - WorkerProcess.last_flush l < WorkerProcess.flush_interval l ->
        saves cs = [] /\
        WorkerProcess.data_buffers_ x' = WorkerProcess.data_buffers_ x /\
        WorkerProcess.last_flush l2 = WorkerProcess.last_flush l) ->
     R (Done l2) x' w' cs) ->
  spec (WorkerProcess.mainLoop_flush sizeof_MarketData now l) x w R.
Proof.
  intros Hdb H. unfold WorkerProcess.mainLoop_flush.
  destruct (Z.geb_spec (now - WorkerProcess.last_flush l) (WorkerProcess.flush_interval l))
    as [Hdue | Hearly].
  - apply spec_bind. unfold WorkerProcess.flushDataBuffers.
    apply flush_loop_spec; [apply MarketDataType_all_NoDup | exact Hdb |].
    intros x' w' cs He Hdb' Hk Hs Hn. apply spec_ret. rewrite app_nil_r.
    apply H; [exact He | reflexivity | | intros; lia].
    intros _. split; [exact Hs |]. split; [reflexivity |].
    intros Hnt t b Hb. apply (Hn Hnt t b); [apply MarketDataType_all_In | exact Hb].
  - apply spec_ret. apply H; [reflexivity | reflexivity | intros; lia |].
    intros _. auto.
Qed.

(** What a turn of the loop that is not cut short does with the buffers. *)
Lemma mainLoop_body_spec l x w :
  WorkerProcess.db_manager_ x = true ->
  WorkerProcess.g_shutdown_requested x = false ->
  flag_clear (WorkerProcess.ipc x) ->
  let now := rv (answer (env w) (length (trace w)) SteadyNow) in
  spec (WorkerProcess.mainLoop_body sizeof_MarketData handleReload handleReconnection l) x w
    (fun o x' w' cs =>
       exists l',
         o = Done (Some l') /\
         WorkerProcess.flush_interval l' = WorkerProcess.flush_interval l /\
         (WorkerProcess.flush_interval l <= now - WorkerProcess.last_flush l ->
            saves cs = flat_map (pending x) MarketDataType_all /\
            WorkerProcess.last_flush l' = now /\
            (sink_never_throws w -> forall t b,
               WorkerProcess.data_buffers_ x t = Some b ->
               WorkerProcess.data_buffers_ x' t = Some [])) /\
         (now - WorkerProcess.last_flush l < WorkerProcess.flush_interval l ->
            saves cs = [] /\
            WorkerProcess.data_buffers_ x' = WorkerProcess.data_buffers_ x /\
            WorkerProcess.last_flush l' = WorkerProcess.last_flush l)).
Proof.
  intros Hdb Hsig Hflag now. unfold WorkerProcess.mainLoop_body.
  apply spec_bind. unfold WorkerProcess.steady_now.
  apply spec_bind, spec_sys. apply spec_ret. fold now.
  apply spec_bind, spec_get. rewrite Hsig.
  (* the reload signal *)
  apply spec_bind, spec_aside.
  { apply aside_when. repeat aside_step. exact reload_aside. }
  intros [] x1 w1 cs1 He1 Hb1 Hd1 Hi1 Hs1.
  (* the shutdown flag *)
  apply spec_bind.
  eapply spec_eq with (cs := []);
    [apply getShutdownFlag_clear; rewrite Hi1; exact Hflag | reflexivity | reflexivity |].
  set (x2 := WorkerProcess.set_ipc (WorkerProcess.ipc x1) x1).
  (* the messages and the heartbeat *)
  apply spec_bind, spec_aside; [apply aside_processIPCMessages, reload_aside |].
  intros [] x3 w3 cs3 He3 Hb3 Hd3 Hi3 Hs3.
  apply spec_bind, mainLoop_heartbeat_aside.
  intros l4 x4 w4 cs4 He4 Hb4 Hd4 Hs4 Hf4 Hi4.
  assert (Hbuf4 : WorkerProcess.data_buffers_ x4 = WorkerProcess.data_buffers_ x)
    by (rewrite Hb4, Hb3; exact Hb1).
  assert (Hdb4 : WorkerProcess.db_manager_ x4 = true)
    by (rewrite Hd4, Hd3; simpl; rewrite Hd1; exact Hdb).
  assert (Henv4 : env w4 = env w) by (rewrite He4, He3, He1; reflexivity).
  (* the flush *)
  apply spec_bind, mainLoop_flush_spec; [exact Hdb4 |].
  intros l5 x5 w5 cs5 He5 Hi5 Hdue Hearly. rewrite Hf4, Hi4 in Hdue, Hearly.
  (* the statistics, the SDK and the sleep *)
  apply spec_bind, mainLoop_stats_aside.
  intros l6 x6 w6 cs6 He6 Hb6 Hd6 Hs6 Hf6 Hi6.
  apply spec_bind, spec_get.
  apply spec_bind, spec_aside; [repeat aside_step |].
  intros connected x7 w7 cs7 He7 Hb7 Hd7 _ Hs7.
  apply spec_bind, spec_aside.
  { apply aside_when. repeat aside_step. exact reconnection_aside. }
  intros [] x8 w8 cs8 He8 Hb8 Hd8 _ Hs8.
  apply spec_bind, spec_aside; [apply aside_sleep_for |].
  intros [] x9 w9 cs9 He9 Hb9 Hd9 _ Hs9.
  apply spec_ret.
  assert (Hbuf9 : WorkerProcess.data_buffers_ x9 = WorkerProcess.data_buffers_ x5)
    by (rewrite Hb9, Hb8, Hb7; exact Hb6).
  assert (Hcs : forall mid,
            saves (([SteadyNow] ++ []) ++ [] ++ cs1 ++ [] ++ cs3 ++ cs4 ++ mid ++
                   cs6 ++ [] ++ cs7 ++ cs8 ++ cs9 ++ []) = saves mid).
  { intros mid. rewrite !saves_app, Hs1, Hs3, Hs4, Hs6, Hs7, Hs8, Hs9. simpl.
    apply app_nil_r. }
  exists l6. split; [reflexivity |].
  split; [rewrite Hi6, Hi5, Hi4; reflexivity |]. split.
  - intros Hd. destruct (Hdue Hd) as (Hsv & Hlf & Hemp).
    split; [| split].
    + rewrite Hcs, Hsv. apply flat_map_agree. intros t _. unfold pending.
      rewrite Hbuf4. reflexivity.
    + rewrite Hf6. exact Hlf.
    + intros Hnt t b Hb. rewrite Hbuf9. apply (Hemp (sink_never_throws_env _ _ Henv4 Hnt) t b).
      rewrite Hbuf4. exact Hb.
  - intros He. destruct (Hearly He) as (Hsv & Hsame & Hlf).
    split; [| split].
    + rewrite Hcs. exact Hsv.
    + rewrite Hbuf9, Hsame. exact Hbuf4.
    + rewrite Hf6. exact Hlf.
Qed.

End Turn.

(* ------------------------------------------------------------------ *)
(** ** Samples at work *)

Example sample_full_table_wf : SharedMemoryData.wf Sample.full_table.
Proof. split; [reflexivity | vm_compute; split; discriminate]. Qed.

Example sample_two_workers_wf : SharedMemoryData.wf Sample.two_workers.
Proof. split; [reflexivity | vm_compute; split; discriminate]. Qed.

(** While a shutdown is in progress the reaped worker's record is erased
    and nothing is forked. *)
Example sample_reap_during_shutdown :
  let w := Sample.world Sample.calm [100] in
  let '(o, m, w') :=
    MasterProcess.handleDeadWorker Sample.K
      (MasterProcess.set_running_ false Sample.supervisor) w in
  o = Done tt /\ MasterProcess.workers_ m = [] /\
  existsb (fun c => match c with Fork => true | _ => false end)
          (calls_between w w') = false.
Proof. vm_compute. repeat split. Qed.

(* ------------------------------------------------------------------ *)
(** ** The claims *)

(** C1 (the code departs from the claim).  A worker that dies while the
    supervisor is running and no shutdown is requested is forked again under
    the same worker id, but the slot's [restart_count] is not the old count
    plus one: [handleDeadWorker] increments it and [createWorkerProcess] then
    assigns the slot a fresh [WorkerInfo] whose count is 0.  Here slot 1 had
    been restarted three times; after the reap it holds the new pid 101 and
    a count of 0. *)
Theorem handleDeadWorker_respawn_resets_restart_count :
  let w := Sample.world Sample.calm [100] in
  let '(o, m, w') := MasterProcess.handleDeadWorker Sample.K Sample.supervisor w in
  o = Done tt /\
  WorkerMap.lookup 1 (MasterProcess.workers_ Sample.supervisor) =
    Some (WorkerInfo.mk 100 1 500 3 RUNNING) /\
  WorkerMap.lookup 1 (MasterProcess.workers_ m) =
    Some (WorkerInfo.mk 101 1 1000 0 STARTING) /\
  In Fork (calls_between w w').
Proof. vm_compute. repeat split. auto 20. Qed.

(** C2.  The graceful shutdown always returns: a fuel of the window's 30
    turns is never exhausted, whatever the workers, the kernel and the
    signals do.  When it returns it has slept [n <= 30] times one second in
    the wait loop (and two seconds more if workers were left), has sent
    SIGTERM to every tracked worker at the start, and SIGKILL to every worker
    still tracked after the wait. *)
Theorem gracefulShutdown_terminates_within_window K (extra : nat) mst w :
  exists o mst' w',
    MasterProcess.gracefulShutdown K (30 + extra) mst w = (o, mst', w') /\
    o <> Abort OutOfFuel /\
    (o = Done tt ->
     exists n, Z.of_nat n <= constants.GRACEFUL_SHUTDOWN_TIMEOUT /\
       sleeps (calls_between w w') =
         repeat 1000 n ++
         (if WorkerMap.empty (MasterProcess.workers_ mst') then [] else [2000]) /\
       kills (calls_between w w') =
         map (fun p => (p, SIGTERM)) (tracked_pids (MasterProcess.workers_ mst)) ++
         map (fun p => (p, SIGKILL)) (tracked_pids (MasterProcess.workers_ mst'))).
Proof.
  apply (spec_run _ _ _ (fun o mst' _ cs =>
    o <> Abort OutOfFuel /\
    (o = Done tt ->
     exists n, Z.of_nat n <= constants.GRACEFUL_SHUTDOWN_TIMEOUT /\
       sleeps cs =
         repeat 1000 n ++
         (if WorkerMap.empty (MasterProcess.workers_ mst') then [] else [2000]) /\
       kills cs =
         map (fun p => (p, SIGTERM)) (tracked_pids (MasterProcess.workers_ mst)) ++
         map (fun p => (p, SIGKILL)) (tracked_pids (MasterProcess.workers_ mst'))))).
  unfold MasterProcess.gracefulShutdown.
  apply spec_bind, spec_log.
  apply spec_bind, signal_workers_spec. intros w1 cs1 He1 Hk1 Hs1.
  apply spec_bind.
  eapply spec_weaken;
    [apply gracefulShutdown_wait_spec; unfold MasterProcess.max_wait_time; lia|].
  cbv beta. intros o s2 w2 cs2 He2 (Ho & Hk2 & n & Hn & Hs2).
  assert (Hn30 : Z.of_nat n <= constants.GRACEFUL_SHUTDOWN_TIMEOUT).
  { unfold MasterProcess.max_wait_time in Hn.
    unfold constants.GRACEFUL_SHUTDOWN_TIMEOUT. lia. }
  destruct o as [wt|r].
  2:{ split; [intros X; inversion X; subst; apply Ho; reflexivity | discriminate]. }
  apply spec_bind, spec_get.
  apply spec_bind.
  destruct (WorkerMap.empty (MasterProcess.workers_ s2)) eqn:Ee; simpl.
  - apply spec_ret. apply spec_log. split; [discriminate|]. intros _.
    exists n. split; auto. rewrite Ee.
    rewrite ?app_nil_l, ?app_nil_r.
    change (Log INFO "Starting graceful shutdown..." :: cs1 ++ cs2 ++ [Log INFO "Graceful shutdown completed"])
      with ([Log INFO "Starting graceful shutdown..."] ++ cs1 ++ cs2 ++ [Log INFO "Graceful shutdown completed"]).
    rewrite !kills_app, !sleeps_app, Hk1, Hs1, Hk2, Hs2. simpl.
    rewrite ?app_nil_r.
    destruct (MasterProcess.workers_ s2); [|discriminate]. simpl.
    rewrite app_nil_r. auto.
  - apply spec_bind, spec_log.
    apply spec_bind, signal_workers_spec. intros w3 cs3 He3 Hk3 Hs3.
    apply spec_bind, sleep_for_spec. intros s4 Hw4.
    apply reap_zombies_spec. intros w5 cs5 He5 Hq5.
    apply spec_log. split; [discriminate|]. intros _.
    exists n. split; auto. rewrite Hw4, Ee.
    rewrite ?app_nil_l.
    repeat match goal with |- context [?x :: ?l] =>
      lazymatch l with [] => fail | _ => change (x :: l) with ([x] ++ l) end end.
    rewrite !kills_app, !sleeps_app, Hk1, Hs1, Hk2, Hs2, Hk3, Hs3,
      (silent_kills _ Hq5), (silent_sleeps _ Hq5). simpl.
    rewrite ?app_nil_r. auto.
Qed.

(** C3.  One liveness sweep, run with the table lock granted, reads the
    clock once and sends SIGTERM to exactly the live records whose last
    heartbeat is more than HEARTBEAT_TIMEOUT (60) seconds old.  So every
    RUNNING record past the timeout is signalled, and a pid whose records are
    all within the timeout receives no signal. *)
Theorem liveness_sweep_signals_stale_workers K mst w d :
  IPCManager.shared_data_ (MasterProcess.ipc mst) = mapped d ->
  SharedMemoryData.wf d ->
  lock_granted (SEM_WORKER_LIST K) (MasterProcess.ipc mst) w ->
  exists now w',
    MasterProcess.monitorWorkerProcesses K mst w = (Done tt, mst, w') /\
    clock_read w w' now /\
    kills (calls_between w w') =
      map (fun r => (ProcessInfo.pid r, SIGTERM))
          (filter (stale now) (SharedMemoryData.live d)) /\
    (forall r, In r (SharedMemoryData.live d) ->
       ProcessInfo.status r = RUNNING ->
       now - ProcessInfo.last_heartbeat r > constants.HEARTBEAT_TIMEOUT ->
       In (ProcessInfo.pid r, SIGTERM) (kills (calls_between w w'))) /\
    (forall p,
       (forall r, In r (SharedMemoryData.live d) -> ProcessInfo.pid r = p ->
          now - ProcessInfo.last_heartbeat r <= constants.HEARTBEAT_TIMEOUT) ->
       forall sig, ~ In (p, sig) (kills (calls_between w w'))).
Proof.
  intros Hd Hwf Hl.
  cut (spec (MasterProcess.monitorWorkerProcesses K) mst w
         (fun o mst' w' cs => o = Done tt /\ mst' = mst /\
            exists now, clock_read w w' now /\
              kills cs = map (fun r => (ProcessInfo.pid r, SIGTERM))
                             (filter (stale now) (SharedMemoryData.live d)))).
  { intros Hs. apply spec_run in Hs.
    destruct Hs as (o & s' & w' & E & Ho & Hm & now & Hc & Hk). subst.
    exists now, w'. split; [exact E|]. split; [exact Hc|]. split; [exact Hk|].
    rewrite Hk. split.
    - intros r Hin _ Hold. apply in_map_iff. exists r. split; auto.
      apply filter_In. split; auto. unfold stale. apply Z.gtb_lt. lia.
    - intros p Hp sig Hin. apply in_map_iff in Hin.
      destruct Hin as (r & Heq & Hin). inversion Heq; subst.
      apply filter_In in Hin. destruct Hin as [Hin Hst].
      unfold stale in Hst. apply Z.gtb_lt in Hst.
      specialize (Hp r Hin eq_refl). lia. }
  apply spec_trace. unfold MasterProcess.monitorWorkerProcesses, MasterProcess.ipc_call.
  apply spec_bind, spec_zoom.
  apply (getWorkerProcesses_spec K _ _ d); auto.
  intros w1 cs1 He1 Ht1 Hq1.
  apply spec_bind. unfold time_nullptr. apply spec_bind, spec_sys. apply spec_ret.
  apply sweep_loop_spec. intros w' cs He Hk He' Ht'.
  split; [reflexivity|]. split; [destruct mst; reflexivity|].
  exists (rv (answer (env w1) (length (trace w1)) TimeNow)). split.
  - exists cs1, cs. split.
    + apply calls_between_rev. rewrite Ht'. rewrite ?app_nil_l, ?app_nil_r. reflexivity.
    + rewrite He1, Ht1, length_app, length_rev, Nat.add_comm. reflexivity.
  - rewrite ?app_nil_l, ?app_nil_r.
    change (cs1 ++ TimeNow :: cs) with (cs1 ++ [TimeNow] ++ cs).
    rewrite !kills_app, (silent_kills _ Hq1), Hk. simpl. reflexivity.
Qed.

(** Witness of C3: worker 100, RUNNING and silent for 100 seconds, and
    worker 200, heard 10 seconds ago. *)
Lemma liveness_sweep_witness :
  let w := Sample.world Sample.calm [] in
  exists now w',
    MasterProcess.monitorWorkerProcesses Sample.K Sample.supervisor2 w =
      (Done tt, Sample.supervisor2, w') /\
    clock_read w w' now /\
    kills (calls_between w w') =
      map (fun r => (ProcessInfo.pid r, SIGTERM))
          (filter (stale now) (SharedMemoryData.live Sample.two_workers)) /\
    (forall r, In r (SharedMemoryData.live Sample.two_workers) ->
       ProcessInfo.status r = RUNNING ->
       now - ProcessInfo.last_heartbeat r > constants.HEARTBEAT_TIMEOUT ->
       In (ProcessInfo.pid r, SIGTERM) (kills (calls_between w w'))) /\
    (forall p,
       (forall r, In r (SharedMemoryData.live Sample.two_workers) ->
          ProcessInfo.pid r = p ->
          now - ProcessInfo.last_heartbeat r <= constants.HEARTBEAT_TIMEOUT) ->
       forall sig, ~ In (p, sig) (kills (calls_between w w'))).
Proof.
  apply (liveness_sweep_signals_stale_workers Sample.K Sample.supervisor2
           (Sample.world Sample.calm []) Sample.two_workers).
  - reflexivity.
  - split; [reflexivity | vm_compute; split; discriminate].
  - repeat split; vm_compute; discriminate.
Defined.

(** C4 (amended).  A statistics update does not merge: when the supervisor
    handles a worker's Statistics message with the statistics lock granted,
    the aggregate in the shared state becomes that worker's snapshot, stamped
    with the time of the update.  Each counter of the aggregate then equals
    the snapshot's counter, so it has not decreased exactly when the snapshot
    is not below the value stored before. *)
Theorem statistics_update_replaces_aggregate K message snapshot mst w d :
  data message = stats_data snapshot ->
  IPCManager.shared_data_ (MasterProcess.ipc mst) = mapped d ->
  lock_granted (SEM_STATISTICS K) (MasterProcess.ipc mst) w ->
  exists mst' w',
    MasterProcess.updateGlobalStatistics K message mst w = (Done tt, mst', w') /\
    global_stats (MasterProcess.ipc mst') =
      ProcessStatistics.set_last_update
        (rv (answer (env w) (S (length (trace w))) TimeNow)) snapshot /\
    ProcessStatistics.messages_processed (global_stats (MasterProcess.ipc mst')) =
      ProcessStatistics.messages_processed snapshot /\
    ProcessStatistics.data_received (global_stats (MasterProcess.ipc mst')) =
      ProcessStatistics.data_received snapshot /\
    ProcessStatistics.data_sent (global_stats (MasterProcess.ipc mst')) =
      ProcessStatistics.data_sent snapshot /\
    ProcessStatistics.errors (global_stats (MasterProcess.ipc mst')) =
      ProcessStatistics.errors snapshot.
Proof.
  intros Hm Hd Hl.
  unfold MasterProcess.updateGlobalStatistics, MasterProcess.ipc_call, MasterProcess.stats_of.
  rewrite Hm.
  destruct (updateStatistics_spec K snapshot _ _ _ Hd Hl) as (w1 & E).
  unfold bind, zoom. rewrite E. unfold log, bind, sys, ret.
  do 2 eexists. split; [reflexivity|].
  unfold global_stats. simpl. repeat split.
Qed.

(** Witness of C4 (amended): the snapshot of a freshly restarted worker. *)
Lemma statistics_update_witness :
  let w := Sample.world Sample.calm [] in
  exists mst' w',
    MasterProcess.updateGlobalStatistics Sample.K Sample.fresh_statistics
      Sample.supervisor2 w = (Done tt, mst', w') /\
    global_stats (MasterProcess.ipc mst') =
      ProcessStatistics.set_last_update
        (rv (answer (env w) (S (length (trace w))) TimeNow)) Sample.fresh_snapshot /\
    ProcessStatistics.messages_processed (global_stats (MasterProcess.ipc mst')) =
      ProcessStatistics.messages_processed Sample.fresh_snapshot /\
    ProcessStatistics.data_received (global_stats (MasterProcess.ipc mst')) =
      ProcessStatistics.data_received Sample.fresh_snapshot /\
    ProcessStatistics.data_sent (global_stats (MasterProcess.ipc mst')) =
      ProcessStatistics.data_sent Sample.fresh_snapshot /\
    ProcessStatistics.errors (global_stats (MasterProcess.ipc mst')) =
      ProcessStatistics.errors Sample.fresh_snapshot.
Proof.
  apply (statistics_update_replaces_aggregate Sample.K Sample.fresh_statistics
           Sample.fresh_snapshot Sample.supervisor2 (Sample.world Sample.calm [])
           Sample.two_workers).
  - reflexivity.
  - reflexivity.
  - repeat split; vm_compute; discriminate.
Defined.

(** Counterexample to C4 as stated: the aggregate counts 100 messages; the
    supervisor handles the snapshot of a worker that has processed 5; the
    aggregate then counts 5. *)
Lemma statistics_update_can_decrease :
  let '(o, mst', _) :=
    MasterProcess.updateGlobalStatistics Sample.K Sample.fresh_statistics
      Sample.supervisor2 (Sample.world Sample.calm []) in
  o = Done tt /\
  ProcessStatistics.messages_processed
    (global_stats (MasterProcess.ipc Sample.supervisor2)) = 100 /\
  ProcessStatistics.messages_processed (global_stats (MasterProcess.ipc mst')) = 5 /\
  ProcessStatistics.messages_processed (global_stats (MasterProcess.ipc mst')) <
  ProcessStatistics.messages_processed
    (global_stats (MasterProcess.ipc Sample.supervisor2)).
Proof. vm_compute. repeat split. Qed.

(** C5.  When the exclusive creation of the message queue, of the shared
    memory segment or of the semaphore set answers EEXIST, the function opens
    the existing resource, removes it with IPC_RMID if it could open it, and
    creates the resource again without IPC_EXCL.  The existing resource is
    no cause of failure: the queue's creation succeeds exactly when the second
    creation does; the segment's when the second creation and the attach do;
    the semaphores' when the second creation and the initial SETVALs do. *)
Theorem create_recreates_on_conflict K m w :
  let n := length (trace w) in
  (* the message queue *)
  (let key := rv (answer (env w) n (Ftok (MSG_QUEUE_ID K))) in
   let old := rv (answer (env w) (S (S n)) (Msgget key perm_0666)) in
   let rmid := if old =? -1 then [] else [Msgctl old IPC_RMID] in
   let new := rv (answer (env w) (length rmid + 3 + n) (Msgget key creat)) in
   key <> -1 ->
   rv (answer (env w) (S n) (Msgget key creat_excl)) = -1 ->
   errno (answer (env w) (S n) (Msgget key creat_excl)) = EEXIST ->
   exists m' w' l t,
     IPCManager.createMessageQueue K m w = (Done (negb (new =? -1)), m', w') /\
     IPCManager.msg_queue_id_ m' = new /\
     calls_between w w' =
       [Ftok (MSG_QUEUE_ID K); Msgget key creat_excl; Msgget key perm_0666]
       ++ rmid ++ [Msgget key creat; Log l t]) /\
  (* the shared memory segment *)
  (let key := rv (answer (env w) n (Ftok (SHM_ID K))) in
   let old := rv (answer (env w) (S (S n)) (Shmget key perm_0666)) in
   let rmid := if old =? -1 then [] else [Shmctl old IPC_RMID] in
   let new := rv (answer (env w) (length rmid + 3 + n) (Shmget key creat)) in
   let attached := rv (answer (env w) (length rmid + 4 + n) (Shmat new)) in
   key <> -1 ->
   rv (answer (env w) (S n) (Shmget key creat_excl)) = -1 ->
   errno (answer (env w) (S n) (Shmget key creat_excl)) = EEXIST ->
   exists m' w' l t,
     IPCManager.createSharedMemory K m w =
       (Done (negb (new =? -1) && negb (attached =? -1)), m', w') /\
     IPCManager.shm_id_ m' = new /\
     calls_between w w' =
       [Ftok (SHM_ID K); Shmget key creat_excl; Shmget key perm_0666]
       ++ rmid ++ [Shmget key creat]
       ++ (if new =? -1 then [] else [Shmat new]) ++ [Log l t]) /\
  (* the semaphore set *)
  (let key := rv (answer (env w) n (Ftok (SEM_ID K))) in
   let old := rv (answer (env w) (S (S n)) (Semget key (SEM_COUNT K) perm_0666)) in
   let rmid := if old =? -1 then [] else [Semctl old 0 IPC_RMID 0] in
   let new := rv (answer (env w) (length rmid + 3 + n) (Semget key (SEM_COUNT K) creat)) in
   key <> -1 ->
   rv (answer (env w) (S n) (Semget key (SEM_COUNT K) creat_excl)) = -1 ->
   errno (answer (env w) (S n) (Semget key (SEM_COUNT K) creat_excl)) = EEXIST ->
   exists ok m' w' rest,
     IPCManager.createSemaphores K m w = (Done ok, m', w') /\
     IPCManager.sem_id_ m' = new /\
     calls_between w w' =
       [Ftok (SEM_ID K); Semget key (SEM_COUNT K) creat_excl;
        Semget key (SEM_COUNT K) perm_0666]
       ++ rmid ++ [Semget key (SEM_COUNT K) creat] ++ rest /\
     (new = -1 -> ok = false) /\
     (new <> -1 ->
      (forall k j, rv (answer (env w) k (Semctl new j SETVAL 1)) <> -1) ->
      ok = true)).
Proof.
  intros n. split; [|split].
  - apply createMessageQueue_conflict.
  - apply createSharedMemory_conflict.
  - apply createSemaphores_conflict.
Qed.

(** Witness of C5: a kernel that still holds the queue, the segment and the
    semaphores of an earlier run; the three are removed and created again, and
    every creation succeeds. *)
Lemma create_recreates_on_conflict_witness :
  let w := Sample.world Sample.leftover [] in
  (exists m' w' l t,
     IPCManager.createMessageQueue Sample.K Sample.blank w = (Done true, m', w') /\
     IPCManager.msg_queue_id_ m' = 15 /\
     calls_between w w' =
       [Ftok 1; Msgget 77 creat_excl; Msgget 77 perm_0666; Msgctl 5 IPC_RMID;
        Msgget 77 creat; Log l t]) /\
  (exists m' w' l t,
     IPCManager.createSharedMemory Sample.K Sample.blank w = (Done true, m', w') /\
     IPCManager.shm_id_ m' = 16 /\
     calls_between w w' =
       [Ftok 2; Shmget 77 creat_excl; Shmget 77 perm_0666; Shmctl 6 IPC_RMID;
        Shmget 77 creat; Shmat 16; Log l t]) /\
  (exists m' w' rest,
     IPCManager.createSemaphores Sample.K Sample.blank w = (Done true, m', w') /\
     IPCManager.sem_id_ m' = 17 /\
     calls_between w w' =
       [Ftok 3; Semget 77 2 creat_excl; Semget 77 2 perm_0666; Semctl 7 0 IPC_RMID 0;
        Semget 77 2 creat] ++ rest).
Proof.
  intros w.
  destruct (create_recreates_on_conflict Sample.K Sample.blank w) as (Hq & Hm & Hs).
  split; [|split].
  - apply Hq; [discriminate | reflexivity | reflexivity].
  - apply Hm; [discriminate | reflexivity | reflexivity].
  - destruct Hs as (ok & m' & w' & rest & E & Hid & Hc & _ & Hok);
      [discriminate | reflexivity | reflexivity |].
    assert (Hk : ok = true) by (apply Hok; [discriminate | intros; discriminate]).
    subst ok. exists m', w', rest. repeat split; assumption.
Defined.

(** C6.  [sendMessage] never raises and never blocks: it leaves the manager
    as it is, offers the message to the queue at most once, with IPC_NOWAIT,
    and returns false when the manager is not initialised, the queue is
    missing or [msgsnd] fails (a full queue answers EAGAIN).  The four worker
    senders return normally whatever the outcome, leave [running_] as it is,
    and log a warning when the message was not taken. *)
Theorem send_is_best_effort :
  (forall message m w,
     exists w' logs,
       IPCManager.sendMessage message m w = (Done (taken 0 w m message), m, w') /\
       calls_between w w' =
         (if IPCManager.initialized_ m && negb (IPCManager.msg_queue_id_ m =? -1)
          then [Msgsnd (IPCManager.msg_queue_id_ m) message IPC_NOWAIT]
          else []) ++ logs /\
       forallb is_log logs = true) /\
  (forall message m w,
     IPCManager.initialized_ m = false \/
     IPCManager.msg_queue_id_ m = -1 \/
     rv (answer (env w) (length (trace w))
           (Msgsnd (IPCManager.msg_queue_id_ m) message IPC_NOWAIT)) = -1 ->
     exists w', IPCManager.sendMessage message m w = (Done false, m, w')) /\
  (forall x w,
     exists x' w',
       WorkerProcess.sendHeartbeat x w = (Done tt, x', w') /\
       WorkerProcess.running_ x' = WorkerProcess.running_ x /\
       (taken 3 w (WorkerProcess.ipc x)
          (outgoing w HEARTBEAT (heartbeat_data (WorkerProcess.worker_id_ x))) = false ->
        In (Log WARN "Failed to send heartbeat") (calls_between w w'))) /\
  (forall status x w,
     exists w',
       WorkerProcess.sendStatusUpdate status x w = (Done tt, x, w') /\
       (taken 3 w (WorkerProcess.ipc x)
          (outgoing w STATUS_UPDATE (status_data (WorkerProcess.worker_id_ x) status)) = false ->
        In (Log WARN "Failed to send status update") (calls_between w w'))) /\
  (forall size text x w,
     exists w',
       WorkerProcess.sendErrorReport size text x w = (Done tt, x, w') /\
       (taken 3 w (WorkerProcess.ipc x)
          (outgoing w ERROR_REPORT
             (error_data (WorkerProcess.worker_id_ x)
                (WorkerProcess.strncpy (size - 1) text))) = false ->
        In (Log WARN "Failed to send error report") (calls_between w w'))) /\
  (forall x w,
     exists w',
       WorkerProcess.sendStatistics x w = (Done tt, x, w') /\
       (taken 3 w (WorkerProcess.ipc x)
          (outgoing w STATISTICS (stats_data (WorkerProcess.statistics_ x))) = false ->
        In (Log WARN "Failed to send statistics") (calls_between w w'))).
Proof.
  split; [|split; [|split; [|split; [|split]]]].
  - intros message m w.
    destruct (sendMessage_spec message m w) as (w' & logs & E & He & Ht & Hl).
    exists w', logs. split; [exact E|]. split; [|exact Hl].
    apply calls_between_rev. exact Ht.
  - intros message m w H.
    destruct (sendMessage_spec message m w) as (w' & logs & E & _).
    exists w'. rewrite E. f_equal. f_equal. f_equal. unfold taken.
    destruct H as [H|[H|H]].
    + rewrite H. reflexivity.
    + rewrite H. rewrite andb_false_r. reflexivity.
    + simpl. rewrite H. rewrite andb_false_r. reflexivity.
  - intros x w.
    destruct (sendHeartbeat_spec x w) as (now & w' & cs & E & He & Ht & _ & Hw & _).
    do 2 eexists. split; [exact E|]. split; [reflexivity|].
    rewrite (calls_between_rev _ _ _ Ht). exact Hw.
  - intros status x w. rewrite sendStatusUpdate_eq.
    destruct (send_and_warn_spec STATUS_UPDATE
                (fun x => status_data (WorkerProcess.worker_id_ x) status)
                "Failed to send status update" x w)
      as (w' & cs & E & He & Ht & _ & Hw & _).
    exists w'. split; [exact E|]. rewrite (calls_between_rev _ _ _ Ht). exact Hw.
  - intros size text x w. rewrite sendErrorReport_eq.
    destruct (send_and_warn_spec ERROR_REPORT
                (fun x => error_data (WorkerProcess.worker_id_ x)
                            (WorkerProcess.strncpy (size - 1) text))
                "Failed to send error report" x w)
      as (w' & cs & E & He & Ht & _ & Hw & _).
    exists w'. split; [exact E|]. rewrite (calls_between_rev _ _ _ Ht). exact Hw.
  - intros x w. rewrite sendStatistics_eq.
    destruct (send_and_warn_spec STATISTICS
                (fun x => stats_data (WorkerProcess.statistics_ x))
                "Failed to send statistics" x w)
      as (w' & cs & E & He & Ht & _ & Hw & _).
    exists w'. split; [exact E|]. rewrite (calls_between_rev _ _ _ Ht). exact Hw.
Qed.

(** Witness of C6: the queue is full; the send returns false and the
    heartbeat sender logs the failure and returns. *)
Lemma send_is_best_effort_witness :
  let w := Sample.world Sample.queue_full [] in
  (exists w',
     IPCManager.sendMessage Sample.heartbeat (WorkerProcess.ipc Sample.worker) w =
       (Done false, WorkerProcess.ipc Sample.worker, w')) /\
  (exists x' w',
     WorkerProcess.sendHeartbeat Sample.worker w = (Done tt, x', w') /\
     WorkerProcess.running_ x' = true /\
     In (Log WARN "Failed to send heartbeat") (calls_between w w')).
Proof.
  intros w.
  destruct send_is_best_effort as (_ & Hfalse & Hhb & _).
  split.
  - apply Hfalse. right. right. reflexivity.
  - destruct (Hhb Sample.worker w) as (x' & w' & E & Hr & Hw).
    exists x', w'. split; [exact E|]. split; [exact Hr|].
    apply Hw. reflexivity.
Defined.

(** C7 (amended).  In a turn of the worker's loop that reaches the
    heartbeat step with the interval of 30 seconds elapsed, the worker offers
    one Heartbeat message carrying its worker id to the channel and records
    the time in its own [last_heartbeat_time_]; the loop's [last_heartbeat]
    becomes [now].  The worker takes no lock and leaves the IPC manager, and
    so the shared table, as it was: the record's heartbeat time is written by
    the supervisor when it handles the message. *)
Theorem mainLoop_heartbeat_emits_and_stamps now l x w :
  now - WorkerProcess.last_heartbeat l >= WorkerProcess.heartbeat_interval ->
  exists stamp w',
    WorkerProcess.mainLoop_heartbeat now l x w =
      (Done (WorkerProcess.mkLocals now (WorkerProcess.last_flush l)
               (WorkerProcess.last_stats l) (WorkerProcess.flush_interval l)),
       WorkerProcess.set_last_heartbeat_time_ stamp x, w') /\
    WorkerProcess.ipc (WorkerProcess.set_last_heartbeat_time_ stamp x) =
      WorkerProcess.ipc x /\
    (exists before,
       calls_between w w' = before ++ [TimeNow] /\
       stamp = rv (answer (env w) (length (trace w) + length before) TimeNow)) /\
    forallb (fun c => negb (is_semop c)) (calls_between w w') = true /\
    (IPCManager.initialized_ (WorkerProcess.ipc x) = true ->
     IPCManager.msg_queue_id_ (WorkerProcess.ipc x) <> -1 ->
     In (Msgsnd (IPCManager.msg_queue_id_ (WorkerProcess.ipc x))
           (outgoing w HEARTBEAT (heartbeat_data (WorkerProcess.worker_id_ x)))
           IPC_NOWAIT)
        (calls_between w w')).
Proof.
  intros Hdue. unfold WorkerProcess.mainLoop_heartbeat.
  destruct (Z.geb_spec (now - WorkerProcess.last_heartbeat l)
                       WorkerProcess.heartbeat_interval) as [_|Hlt]; [|lia].
  destruct (sendHeartbeat_spec x w)
    as (stamp & w' & cs & E & He & Ht & Hs & _ & Hm & Hc).
  exists stamp, w'. unfold bind. rewrite E. unfold ret.
  rewrite (calls_between_rev _ _ _ Ht).
  split; [reflexivity|]. split; [reflexivity|].
  split; [exact Hc|]. split; [exact Hs | exact Hm].
Qed.

(** Witness of C7 (amended): 31 seconds after the last heartbeat. *)
Lemma mainLoop_heartbeat_witness :
  let w := Sample.world Sample.calm [] in
  let x := Sample.worker in
  let l := Sample.locals in
  let now := 31000000000 in
  exists stamp w',
    WorkerProcess.mainLoop_heartbeat now l x w =
      (Done (WorkerProcess.mkLocals now (WorkerProcess.last_flush l)
               (WorkerProcess.last_stats l) (WorkerProcess.flush_interval l)),
       WorkerProcess.set_last_heartbeat_time_ stamp x, w') /\
    WorkerProcess.ipc (WorkerProcess.set_last_heartbeat_time_ stamp x) =
      WorkerProcess.ipc x /\
    (exists before,
       calls_between w w' = before ++ [TimeNow] /\
       stamp = rv (answer (env w) (length (trace w) + length before) TimeNow)) /\
    forallb (fun c => negb (is_semop c)) (calls_between w w') = true /\
    (IPCManager.initialized_ (WorkerProcess.ipc x) = true ->
     IPCManager.msg_queue_id_ (WorkerProcess.ipc x) <> -1 ->
     In (Msgsnd (IPCManager.msg_queue_id_ (WorkerProcess.ipc x))
           (outgoing w HEARTBEAT (heartbeat_data (WorkerProcess.worker_id_ x)))
           IPC_NOWAIT)
        (calls_between w w')).
Proof.
  apply (mainLoop_heartbeat_emits_and_stamps 31000000000 Sample.locals
           Sample.worker (Sample.world Sample.calm [])).
  vm_compute. discriminate.
Defined.

(** Counterexample to C7 as stated: a whole turn of the worker's loop, 31
    seconds after the last heartbeat.  The Heartbeat message is sent, but the
    worker's own record in the shared table keeps the heartbeat time 900 it
    had, although the clock reads 1000, and no semaphore operation is made. *)
Lemma worker_heartbeat_leaves_table_alone :
  let w := Sample.world Sample.calm [] in
  let '(o, x', w') :=
    WorkerProcess.mainLoop_body 64 (ret tt) (ret tt) Sample.locals Sample.worker w in
  (exists l', o = Done (Some l') /\ WorkerProcess.last_heartbeat l' = 31000000000) /\
  31000000000 - WorkerProcess.last_heartbeat Sample.locals >=
    WorkerProcess.heartbeat_interval /\
  In (Msgsnd 5 (mkIPCMessage HEARTBEAT 4242 1 1000 (heartbeat_data 2)) IPC_NOWAIT)
     (calls_between w w') /\
  heartbeat_in_table 4242 (WorkerProcess.ipc Sample.worker) = Some 900 /\
  heartbeat_in_table 4242 (WorkerProcess.ipc x') = Some 900 /\
  WorkerProcess.last_heartbeat_time_ x' = 1000 /\
  existsb is_semop (calls_between w w') = false.
Proof.
  vm_compute. split; [eexists; split; reflexivity|].
  split; [discriminate|]. split; [auto 20|]. repeat split.
Qed.

(** C8.  The worker flushes on two triggers, and either one alone hands a
    buffer to the sink.  Size: a record that arrives for a category with a
    buffer is appended, and as soon as the buffer then holds at least
    [batch_size] records (the comparison is unsigned, hence [u64]) the whole
    buffer is handed to the sink, and emptied unless the sink throws,
    whatever the time; below the batch size nothing is handed over.  Time:
    every turn of the main loop that a shutdown signal or the shutdown flag
    does not cut short reads the clock and, when [flush_interval] has
    elapsed since [last_flush], hands every buffer that is not empty to the
    sink, whatever its size, and sets [last_flush] to the time read; a turn
    before that hands nothing over and leaves the buffers and [last_flush]
    as they are.  The loop starts with [flush_interval] set to the
    configured [process_interval] in milliseconds and [last_flush] to the
    clock, and every turn it takes is such a turn, which passes its
    [last_flush] on to the next.  Reloading and reconnecting are taken to
    return without touching the buffers, the database manager or the IPC
    manager. *)
Theorem buffer_flush_dual_trigger sizeof_MarketData handleReload handleReconnection :
  (forall data x w buffer,
     WorkerProcess.data_buffers_ x (md_type data) = Some buffer ->
     WorkerProcess.db_manager_ x = true ->
     exists x' w',
       WorkerProcess.onMarketData sizeof_MarketData data x w = (Done tt, x', w') /\
       (forall k, k <> md_type data ->
          WorkerProcess.data_buffers_ x' k = WorkerProcess.data_buffers_ x k) /\
       (u64 (batch_size (WorkerProcess.config x)) <= Z.of_nat (length (buffer ++ [data])) ->
          saves (calls_between w w') = [buffer ++ [data]] /\
          (sink_never_throws w ->
           WorkerProcess.data_buffers_ x' (md_type data) = Some [])) /\
       (Z.of_nat (length (buffer ++ [data])) < u64 (batch_size (WorkerProcess.config x)) ->
          saves (calls_between w w') = [] /\
          WorkerProcess.data_buffers_ x' (md_type data) = Some (buffer ++ [data]))) /\
  (aside handleReload -> aside handleReconnection ->
   forall l x w,
     WorkerProcess.db_manager_ x = true ->
     WorkerProcess.g_shutdown_requested x = false ->
     flag_clear (WorkerProcess.ipc x) ->
     let now := rv (answer (env w) (length (trace w)) SteadyNow) in
     exists l' x' w',
       WorkerProcess.mainLoop_body sizeof_MarketData handleReload handleReconnection
         l x w = (Done (Some l'), x', w') /\
       WorkerProcess.flush_interval l' = WorkerProcess.flush_interval l /\
       (WorkerProcess.flush_interval l <= now - WorkerProcess.last_flush l ->
          saves (calls_between w w') = flat_map (pending x) MarketDataType_all /\
          WorkerProcess.last_flush l' = now /\
          (sink_never_throws w -> forall t b,
             WorkerProcess.data_buffers_ x t = Some b ->
             WorkerProcess.data_buffers_ x' t = Some [])) /\
       (now - WorkerProcess.last_flush l < WorkerProcess.flush_interval l ->
          saves (calls_between w w') = [] /\
          WorkerProcess.data_buffers_ x' = WorkerProcess.data_buffers_ x /\
          WorkerProcess.last_flush l' = WorkerProcess.last_flush l)) /\
  (forall fuel x w,
     exists l0 w0,
       WorkerProcess.mainLoop_init x w = (Done l0, x, w0) /\
       WorkerProcess.flush_interval l0 =
         WorkerProcess.milliseconds (process_interval (WorkerProcess.config x)) /\
       WorkerProcess.last_flush l0 =
         rv (answer (env w) (length (trace w) + 2) SteadyNow) /\
       WorkerProcess.mainLoop sizeof_MarketData handleReload handleReconnection fuel x w =
         WorkerProcess.mainLoop_from sizeof_MarketData handleReload handleReconnection
           fuel l0 x w0) /\
  (forall fuel l x w l' x' w',
     WorkerProcess.running_ x = true ->
     WorkerProcess.mainLoop_body sizeof_MarketData handleReload handleReconnection
       l x w = (Done (Some l'), x', w') ->
     WorkerProcess.mainLoop_from sizeof_MarketData handleReload handleReconnection
       (S fuel) l x w =
     WorkerProcess.mainLoop_from sizeof_MarketData handleReload handleReconnection
       fuel l' x' w').
Proof.
  split; [|split; [|split]].
  - intros data x w buffer Hb Hdb.
    cut (spec (WorkerProcess.onMarketData sizeof_MarketData data) x w
           (fun o x' w' cs => o = Done tt /\
      (forall k, k <> md_type data ->
         WorkerProcess.data_buffers_ x' k = WorkerProcess.data_buffers_ x k) /\
      (u64 (batch_size (WorkerProcess.config x)) <= Z.of_nat (length (buffer ++ [data])) ->
         saves cs = [buffer ++ [data]] /\
         (sink_never_throws w ->
          WorkerProcess.data_buffers_ x' (md_type data) = Some [])) /\
      (Z.of_nat (length (buffer ++ [data])) < u64 (batch_size (WorkerProcess.config x)) ->
         saves cs = [] /\
         WorkerProcess.data_buffers_ x' (md_type data) = Some (buffer ++ [data])))).
    { intros Hs. apply spec_run in Hs.
      destruct Hs as (o & x' & w' & E & Ho & H). subst o. exists x', w'. auto. }
    unfold WorkerProcess.onMarketData.
    apply spec_bind. unfold time_nullptr. apply spec_bind, spec_sys. apply spec_ret.
    apply spec_bind, spec_modify.
    apply spec_bind, spec_get.
    cbn [WorkerProcess.data_buffers_ WorkerProcess.set_statistics_]. rewrite Hb.
    apply spec_bind.
    apply spec_bind, spec_modify.
    apply spec_bind, spec_get.
    cbn [WorkerProcess.config WorkerProcess.set_statistics_ WorkerProcess.set_data_buffers_].
    set (x1 := WorkerProcess.set_data_buffers_ _ _).
    assert (Hx1 : WorkerProcess.data_buffers_ x1 (md_type data) = Some (buffer ++ [data])).
    { subst x1. simpl. unfold WorkerProcess.store.
      rewrite MarketDataType_eqb_refl. reflexivity. }
    assert (Hk1 : forall k, k <> md_type data ->
              WorkerProcess.data_buffers_ x1 k = WorkerProcess.data_buffers_ x k).
    { intros k Hk. subst x1. simpl. unfold WorkerProcess.store.
      rewrite MarketDataType_eqb_neq; auto. }
    destruct (Z.of_nat (length (buffer ++ [data])) >=?
              u64 (batch_size (WorkerProcess.config x))) eqn:E.
    + apply Z.geb_le in E. simpl.
      apply flushDataBuffer_spec; [subst x1; simpl; exact Hdb|].
      intros x' w' cs He Hdb' Hc Hk Hs Hn.
      apply spec_log. split; [reflexivity|]. split.
      { intros k Hkk. rewrite Hk; auto. }
      split; [|intros; lia].
      intros _. split.
      * rewrite ?app_nil_l.
        change (TimeNow :: cs ++ [Log TRACE "Market data received"])
          with ([TimeNow] ++ cs ++ [Log TRACE "Market data received"]).
        rewrite !saves_app, Hs. simpl. rewrite app_nil_r.
        apply pending_snoc; auto.
      * intros Hnt. eapply Hn; eauto.
    + assert (E' : Z.of_nat (length (buffer ++ [data])) <
                   u64 (batch_size (WorkerProcess.config x))).
      { destruct (Z.geb_spec (Z.of_nat (length (buffer ++ [data])))
                             (u64 (batch_size (WorkerProcess.config x))));
          [discriminate | lia]. }
      simpl. apply spec_ret. apply spec_log.
      split; [reflexivity|]. split; [exact Hk1|].
      split; [intros; lia|]. intros _. split; [reflexivity | exact Hx1].
  - intros Hreload Hreconnection l x w Hdb Hsig Hflag now.
    pose proof (mainLoop_body_spec sizeof_MarketData handleReload handleReconnection
                  Hreload Hreconnection l x w Hdb Hsig Hflag) as Hs.
    apply spec_run in Hs.
    destruct Hs as (o & x' & w' & E & l' & Ho & H). subst o.
    exists l', x', w'. split; [exact E | exact H].
  - intros fuel x w. do 2 eexists.
    split; [reflexivity |]. split; [reflexivity |]. split; [| reflexivity].
    simpl. rewrite Nat.add_comm. reflexivity.
  - intros fuel l x w l' x' w' Hrun E.
    cbn [WorkerProcess.mainLoop_from]. unfold bind at 1, get at 1.
    rewrite Hrun. unfold bind at 1. rewrite E. reflexivity.
Qed.

(** Witness of C8.  Size: the TICK buffer holds one record and the batch
    size is 2; a second record fills the batch, and both go to the sink at
    once.  Time: the buffer holds that one record when a turn of the loop
    starts 31 seconds after the last flush, with an interval of 100 ms; the
    turn hands the record to the sink. *)
Lemma buffer_flush_dual_trigger_witness :
  let w := Sample.world Sample.calm [] in
  (exists x' w',
     WorkerProcess.onMarketData 64 (Sample.tick "b") Sample.worker w = (Done tt, x', w') /\
     saves (calls_between w w') = [[Sample.tick "a"; Sample.tick "b"]] /\
     WorkerProcess.data_buffers_ x' TICK = Some []) /\
  (exists l' x' w',
     WorkerProcess.mainLoop_body 64 (ret tt) (ret tt) Sample.locals Sample.worker w =
       (Done (Some l'), x', w') /\
     saves (calls_between w w') = [[Sample.tick "a"]] /\
     WorkerProcess.last_flush l' = 31000000000 /\
     WorkerProcess.data_buffers_ x' TICK = Some []).
Proof.
  intros w.
  assert (Hcalm : sink_never_throws w) by (intros n b; reflexivity).
  destruct (buffer_flush_dual_trigger 64 (ret tt) (ret tt)) as (Hsize & Htime & _).
  split.
  - destruct (Hsize (Sample.tick "b") Sample.worker w [Sample.tick "a"])
      as (x' & w' & E & _ & Hfull & _); [reflexivity | reflexivity |].
    exists x', w'. split; [exact E|].
    destruct Hfull as [Hs Hn]; [vm_compute; discriminate|].
    split; [exact Hs | exact (Hn Hcalm)].
  - destruct (Htime (aside_ret tt) (aside_ret tt) Sample.locals Sample.worker w)
      as (l' & x' & w' & E & _ & Hdue & _);
      [reflexivity | reflexivity | vm_compute; reflexivity |].
    exists l', x', w'. split; [exact E|].
    destruct Hdue as (Hs & Hl & Hn); [vm_compute; discriminate|].
    split; [exact Hs|]. split; [exact Hl|]. exact (Hn Hcalm TICK _ eq_refl).
Defined.

(** C9.  [addWorkerProcess] on a table that holds MAX_WORKER_PROCESSES (64)
    records returns false; whenever it returns false the manager and the
    shared state are as before.  When it returns true the live records are
    the old ones followed by one new record of status STARTING for the given
    pid and worker id, and the live count has grown by exactly 1.  In every
    case the count stays within the capacity. *)
Theorem addWorkerProcess_bounded K pid worker_id m w d :
  IPCManager.shared_data_ m = mapped d ->
  SharedMemoryData.wf d ->
  exists ok m' w' d',
    IPCManager.addWorkerProcess K pid worker_id m w = (Done ok, m', w') /\
    IPCManager.shared_data_ m' = mapped d' /\
    SharedMemoryData.wf d' /\
    (SharedMemoryData.worker_count d = constants.MAX_WORKER_PROCESSES -> ok = false) /\
    (ok = false -> m' = m) /\
    (ok = true ->
       SharedMemoryData.worker_count d' = SharedMemoryData.worker_count d + 1 /\
       exists t_start t_beat,
         SharedMemoryData.live d' =
         SharedMemoryData.live d ++
         [ProcessInfo.mk pid worker_id STARTING t_start t_beat]).
Proof. intros Hd Hwf. apply addWorkerProcess_spec; assumption. Qed.

(** Witness of C9: a 65th worker is offered to a full table. *)
Lemma addWorkerProcess_bounded_witness :
  let m := Sample.manager Sample.full_table in
  let w := Sample.world Sample.calm [] in
  exists w',
    IPCManager.addWorkerProcess Sample.K 900 65 m w = (Done false, m, w').
Proof.
  intros m w.
  destruct (addWorkerProcess_bounded Sample.K 900 65 m w Sample.full_table)
    as (ok & m' & w' & d' & E & _ & _ & Hfull & Hsame & _).
  - reflexivity.
  - split; [reflexivity | vm_compute; split; discriminate].
  - assert (Hok : ok = false) by (apply Hfull; reflexivity).
    subst ok. rewrite (Hsame eq_refl) in E. exists w'. exact E.
Defined.

(** C10.  [updateWorkerStatus] changes nothing when it returns false; when
    it returns true it has written, in the first live record of the pid, the
    new status and the current time as last heartbeat, together, and nothing
    else.  The supervisor's heartbeat handler is that update with the status
    RUNNING: it can turn a STOPPING record into a RUNNING one, and every
    status update restarts the heartbeat timeout. *)
Theorem status_update_stamps_heartbeat K :
  (forall pid status m w d,
     IPCManager.shared_data_ m = mapped d ->
     exists ok m' w',
       IPCManager.updateWorkerStatus K pid status m w = (Done ok, m', w') /\
       (ok = false -> m' = m) /\
       (ok = true ->
        exists d', m' = IPCManager.set_shared_data_ (mapped d') m /\
          record_touched pid status
            (rv (answer (env w) (S (length (trace w))) TimeNow)) d d')) /\
  (forall message mst w d,
     IPCManager.shared_data_ (MasterProcess.ipc mst) = mapped d ->
     exists ok i' w',
       MasterProcess.handleHeartbeatMessage K message mst w =
         (Done tt, MasterProcess.set_ipc i' mst, w') /\
       (ok = false -> i' = MasterProcess.ipc mst) /\
       (ok = true ->
        exists d', i' = IPCManager.set_shared_data_ (mapped d') (MasterProcess.ipc mst) /\
          record_touched (sender_pid message) RUNNING
            (rv (answer (env w) (S (length (trace w))) TimeNow)) d d')) /\
  (let w := Sample.world Sample.calm [] in
   let '(o, mst', _) :=
     MasterProcess.handleHeartbeatMessage K Sample.heartbeat Sample.supervisor2 w in
   o = Done tt /\
   status_in_table 200 (MasterProcess.ipc Sample.supervisor2) = Some STOPPING /\
   heartbeat_in_table 200 (MasterProcess.ipc Sample.supervisor2) = Some 990 /\
   status_in_table 200 (MasterProcess.ipc mst') = Some RUNNING /\
   heartbeat_in_table 200 (MasterProcess.ipc mst') = Some 1000).
Proof.
  split; [|split].
  - intros pid status m w d Hd. apply updateWorkerStatus_spec; assumption.
  - intros message mst w d Hd.
    destruct (updateWorkerStatus_spec K (sender_pid message) RUNNING _ w _ Hd)
      as (ok & i' & w1 & E & Hf & Ht).
    exists ok, i'. unfold MasterProcess.handleHeartbeatMessage, MasterProcess.ipc_call.
    unfold bind, zoom. rewrite E. unfold log, bind, sys, ret.
    eexists. split; [reflexivity|]. split; assumption.
  - vm_compute. repeat split.
Qed.

(** Witness of C10: the heartbeat of pid 200, whose record is STOPPING. *)
Lemma status_update_stamps_heartbeat_witness :
  let w := Sample.world Sample.calm [] in
  exists ok i' w',
    MasterProcess.handleHeartbeatMessage Sample.K Sample.heartbeat Sample.supervisor2 w =
      (Done tt, MasterProcess.set_ipc i' Sample.supervisor2, w') /\
    (ok = false -> i' = MasterProcess.ipc Sample.supervisor2) /\
    (ok = true ->
     exists d',
       i' = IPCManager.set_shared_data_ (mapped d')
              (MasterProcess.ipc Sample.supervisor2) /\
       record_touched (sender_pid Sample.heartbeat) RUNNING
         (rv (answer (env w) (S (length (trace w))) TimeNow)) Sample.two_workers d').
Proof.
  apply (proj1 (proj2 (status_update_stamps_heartbeat Sample.K))
           Sample.heartbeat Sample.supervisor2 (Sample.world Sample.calm [])
           Sample.two_workers).
  reflexivity.
Defined.

(* ------------------------------------------------------------------ *)
(** ** Further properties: the shared process table *)

Lemma nth_upd_same {A} (i : nat) (x d : A) l :
  (i < length l)%nat -> nth i (upd i x l) d = x.
Proof.
  revert i; induction l; destruct i; simpl; intros; try lia; auto.
  apply IHl; lia.
Qed.

Lemma nth_upd_other {A} (i j : nat) (x d : A) l :
  i <> j -> nth j (upd i x l) d = nth j l d.
Proof. revert i j; induction l; destruct i, j; simpl; intros; try congruence; auto. Qed.

Lemma length_shift_down k : forall ws j,
  length (IPCManager.shift_down ws j k) = length ws.
Proof. induction k; simpl; intros; auto. rewrite IHk. apply length_upd. Qed.

(** The shift moves the records behind slot [j] one slot down. *)
Lemma nth_shift_down k : forall ws j p,
  (j + k < length ws)%nat ->
  nth p (IPCManager.shift_down ws j k) ProcessInfo.zero =
  if ((j <=? p) && (p <? j + k))%nat then nth (S p) ws ProcessInfo.zero
  else nth p ws ProcessInfo.zero.
Proof.
  induction k; intros ws j p H; simpl.
  - destruct (Nat.leb_spec j p); destruct (Nat.ltb_spec p (j + 0)); simpl; auto; lia.
  - rewrite IHk by (rewrite length_upd; lia).
    destruct (Nat.leb_spec (S j) p); destruct (Nat.ltb_spec p (S j + k));
      destruct (Nat.leb_spec j p); destruct (Nat.ltb_spec p (j + S k)); simpl; try lia;
      try (rewrite nth_upd_other by lia; reflexivity).
    assert (p = j) by lia; subst. rewrite nth_upd_same by lia. reflexivity.
Qed.

Lemma find_pid_none ws pid n : forall i,
  IPCManager.find_pid ws pid i n = None ->
  forall j, (i <= j < i + n)%nat -> ProcessInfo.pid (nth j ws ProcessInfo.zero) <> pid.
Proof.
  induction n; simpl; intros i H j Hj; [lia|].
  destruct (ProcessInfo.pid (nth i ws ProcessInfo.zero) =? pid) eqn:E; [discriminate|].
  apply Z.eqb_neq in E.
  destruct (Nat.eq_dec j i); [subst; auto | eapply IHn; eauto; lia].
Qed.

Lemma listed_false pid rs :
  (forall j, (j < length rs)%nat -> ProcessInfo.pid (nth j rs ProcessInfo.zero) <> pid) ->
  listed pid rs = false /\ remove_first pid rs = rs.
Proof.
  unfold listed. induction rs as [|r rs IH]; simpl; intros H; auto.
  assert (E : (ProcessInfo.pid r =? pid) = false)
    by (apply Z.eqb_neq; apply (H 0%nat); lia).
  rewrite E. simpl.
  destruct IH as [I1 I2]; [intros j Hj; apply (H (S j)); lia|].
  rewrite I1, I2. auto.
Qed.

Lemma listed_true pid : forall rs i,
  (i < length rs)%nat ->
  ProcessInfo.pid (nth i rs ProcessInfo.zero) = pid ->
  (forall j, (j < i)%nat -> ProcessInfo.pid (nth j rs ProcessInfo.zero) <> pid) ->
  listed pid rs = true /\
  length (remove_first pid rs) = (length rs - 1)%nat /\
  forall p, nth p (remove_first pid rs) ProcessInfo.zero =
            if (p <? i)%nat then nth p rs ProcessInfo.zero
            else nth (S p) rs ProcessInfo.zero.
Proof.
  unfold listed. induction rs as [|r rs IH]; simpl; intros i Hi Hp Hfirst; [lia|].
  destruct i.
  - apply Z.eqb_eq in Hp. rewrite Hp. simpl. repeat split; auto; lia.
  - assert (E : (ProcessInfo.pid r =? pid) = false)
      by (apply Z.eqb_neq; apply (Hfirst 0%nat); lia).
    rewrite E. simpl.
    destruct (IH i) as (I1 & I2 & I3); [lia | auto | intros j Hj; apply (Hfirst (S j)); lia |].
    rewrite I1. split; auto. split; [lia|].
    intros [|p]; simpl; auto.
Qed.

Lemma semops_app a b : semops (a ++ b) = semops a ++ semops b.
Proof. apply filter_app. Qed.

Lemma semops_logs l : forallb is_log l = true -> semops l = [].
Proof.
  induction l as [|c l IH]; simpl; auto. intros H. apply andb_true_iff in H.
  destruct H as [H1 H2]. destruct c; simpl in *; try discriminate. auto.
Qed.

Lemma is_log_rev l : forallb is_log l = true -> forallb is_log (rev l) = true.
Proof.
  intros H. apply forallb_forall. intros x Hx. apply In_rev in Hx.
  eapply forallb_forall in H; eauto.
Qed.

Section Table.
Variable K : IpcConstants.

(** With the manager initialised, the unlock issues its V. *)
Lemma unlockSharedMemory_calls i m w :
  IPCManager.initialized_ m = true -> IPCManager.sem_id_ m <> -1 ->
  exists b w' logs,
    IPCManager.unlockSharedMemory i m w = (Done b, m, w') /\
    env w' = env w /\
    trace w' = logs ++ V m i :: trace w /\
    forallb is_log logs = true.
Proof.
  intros Hi Hs. unfold IPCManager.unlockSharedMemory. munfold.
  rewrite Hi. apply Z.eqb_neq in Hs. rewrite Hs. simpl.
  destruct (rv _ =? -1).
  - do 2 eexists. eexists [_]. simpl. repeat split; reflexivity.
  - do 2 eexists. exists []. simpl. repeat split; reflexivity.
Qed.

(** [removeWorkerProcess] with the lock granted. *)
Lemma removeWorkerProcess_granted pid m w d :
  IPCManager.shared_data_ m = mapped d ->
  SharedMemoryData.wf d ->
  lock_granted (SEM_WORKER_LIST K) m w ->
  exists d' w' cs,
    steps (IPCManager.removeWorkerProcess K pid) m w
      (Done (listed pid (SharedMemoryData.live d)))
      (if listed pid (SharedMemoryData.live d)
       then IPCManager.set_shared_data_ (mapped d') m else m) w' cs /\
    semops cs = [P m (SEM_WORKER_LIST K); V m (SEM_WORKER_LIST K)] /\
    forallb silent cs = true /\
    SharedMemoryData.wf d' /\
    SharedMemoryData.live d' = remove_first pid (SharedMemoryData.live d) /\
    SharedMemoryData.worker_count d' =
      SharedMemoryData.worker_count d -
      (if listed pid (SharedMemoryData.live d) then 1 else 0) /\
    SharedMemoryData.stats d' = SharedMemoryData.stats d /\
    SharedMemoryData.master_pid d' = SharedMemoryData.master_pid d /\
    SharedMemoryData.start_time d' = SharedMemoryData.start_time d /\
    SharedMemoryData.shutdown_flag d' = SharedMemoryData.shutdown_flag d /\
    SharedMemoryData.reload_flag d' = SharedMemoryData.reload_flag d.
Proof.
  intros Hd [Hlen Hcnt] Hl.
  pose proof Hl as (Hi & Hs & _).
  unfold steps, IPCManager.removeWorkerProcess.
  unfold bind at 1. rewrite (lockSharedMemory_granted _ _ _ Hl).
  cbn [negb]. unfold bind at 1, get at 1. rewrite Hd.
  set (ws := SharedMemoryData.workers d).
  set (n := SharedMemoryData.worker_count d).
  assert (Hn : (Z.to_nat n <= length ws)%nat).
  { subst ws n. rewrite Hlen. unfold constants.MAX_WORKER_PROCESSES in *. lia. }
  assert (Hlive : SharedMemoryData.live d = firstn (Z.to_nat n) ws) by reflexivity.
  assert (Hll : length (SharedMemoryData.live d) = Z.to_nat n).
  { rewrite Hlive, length_firstn. lia. }
  assert (Hnth : forall j, (j < Z.to_nat n)%nat ->
            nth j (SharedMemoryData.live d) ProcessInfo.zero = nth j ws ProcessInfo.zero).
  { intros j Hj. rewrite Hlive, nth_firstn.
    destruct (Nat.ltb_spec j (Z.to_nat n)); auto; lia. }
  destruct (IPCManager.find_pid ws pid 0 (Z.to_nat n)) as [i|] eqn:Ef.
  - apply find_pid_spec in Ef. destruct Ef as (Hin & Hp & Hfirst).
    destruct (listed_true pid (SharedMemoryData.live d) i) as (L1 & L2 & L3).
    { lia. } { rewrite Hnth by lia. auto. }
    { intros j Hj. rewrite Hnth by lia. apply Hfirst. lia. }
    rewrite L1.
    set (d' := SharedMemoryData.set_workers
                 (IPCManager.shift_down ws i (Z.to_nat (n - 1) - i)) (n - 1) d).
    munfold.
    match goal with |- context [IPCManager.unlockSharedMemory ?i ?mm ?ww] =>
      destruct (unlockSharedMemory_calls i mm ww) as (b & w2 & logs & Eu & Ee & Et & Hlogs);
        [exact Hi | exact Hs | rewrite Eu] end.
    exists d', w2, ([P m (SEM_WORKER_LIST K); Log INFO "Worker process removed";
                     V m (SEM_WORKER_LIST K)] ++ rev logs).
    split; [split; [reflexivity|split; [exact Ee|]]|].
    { rewrite Et. rewrite rev_app_distr, rev_involutive. simpl. rewrite <- app_assoc.
      reflexivity. }
    split. { rewrite semops_app, (semops_logs (rev logs)) by (apply is_log_rev; auto).
             reflexivity. }
    split. { rewrite forallb_app. simpl. apply forallb_forall. intros x Hx.
             apply In_rev in Hx. eapply forallb_forall in Hlogs; eauto.
             destruct x; simpl in *; auto; discriminate. }
    assert (Hn1 : (i + (Z.to_nat (n - 1) - i) < length ws)%nat) by lia.
    split. { split; simpl.
             - rewrite length_shift_down. exact Hlen.
             - lia. }
    split.
    { change (SharedMemoryData.live d') with
        (firstn (Z.to_nat (n - 1)) (IPCManager.shift_down ws i (Z.to_nat (n - 1) - i))).
      apply nth_ext with (d := ProcessInfo.zero) (d' := ProcessInfo.zero).
      - rewrite length_firstn, length_shift_down, L2, Hll. lia.
      - intros p Hp'. rewrite length_firstn, length_shift_down in Hp'.
        rewrite nth_firstn, L3.
        destruct (Nat.ltb_spec p (Z.to_nat (n - 1))); [|lia].
        rewrite nth_shift_down by lia.
        destruct (Nat.ltb_spec p i); destruct (Nat.leb_spec i p);
          destruct (Nat.ltb_spec p (i + (Z.to_nat (n - 1) - i))); simpl; try lia;
          rewrite Hnth by lia; reflexivity. }
    simpl. repeat split; auto; lia.
  - pose proof (find_pid_none _ _ _ _ Ef) as Hnone.
    destruct (listed_false pid (SharedMemoryData.live d)) as (L1 & L2).
    { intros j Hj. rewrite Hnth by lia. apply Hnone. lia. }
    rewrite L1. munfold.
    match goal with |- context [IPCManager.unlockSharedMemory ?i ?mm ?ww] =>
      destruct (unlockSharedMemory_calls i mm ww) as (b & w2 & logs & Eu & Ee & Et & Hlogs);
        [exact Hi | exact Hs | rewrite Eu] end.
    exists d, w2, ([P m (SEM_WORKER_LIST K); V m (SEM_WORKER_LIST K)] ++ rev logs).
    split; [split; [reflexivity|split; [exact Ee|]]|].
    { rewrite Et. rewrite rev_app_distr, rev_involutive. simpl. rewrite <- app_assoc.
      reflexivity. }
    split. { rewrite semops_app, (semops_logs (rev logs)) by (apply is_log_rev; auto).
             reflexivity. }
    split. { rewrite forallb_app. simpl. apply forallb_forall. intros x Hx.
             apply In_rev in Hx. eapply forallb_forall in Hlogs; eauto.
             destruct x; simpl in *; auto; discriminate. }
    split; [split; auto|].
    rewrite L2. repeat split; auto; lia.
Qed.

(** [addWorkerProcess] with the lock granted and a free slot. *)
Lemma addWorkerProcess_granted pid worker_id m w d :
  IPCManager.shared_data_ m = mapped d ->
  SharedMemoryData.wf d ->
  lock_granted (SEM_WORKER_LIST K) m w ->
  SharedMemoryData.worker_count d < constants.MAX_WORKER_PROCESSES ->
  exists t_start t_beat d' w' cs,
    steps (IPCManager.addWorkerProcess K pid worker_id) m w (Done true)
      (IPCManager.set_shared_data_ (mapped d') m) w' cs /\
    semops cs = [P m (SEM_WORKER_LIST K); V m (SEM_WORKER_LIST K)] /\
    SharedMemoryData.wf d' /\
    SharedMemoryData.live d' =
      SharedMemoryData.live d ++ [ProcessInfo.mk pid worker_id STARTING t_start t_beat] /\
    SharedMemoryData.worker_count d' = SharedMemoryData.worker_count d + 1.
Proof.
  intros Hd [Hlen Hcnt] Hl Hfree.
  pose proof Hl as (Hi & Hs & _).
  unfold steps, IPCManager.addWorkerProcess.
  unfold bind at 1. rewrite (lockSharedMemory_granted _ _ _ Hl).
  cbn [negb]. unfold bind at 1, get at 1. rewrite Hd.
  apply Z.ltb_lt in Hfree. rewrite Hfree. munfold.
  match goal with |- context [IPCManager.unlockSharedMemory ?i ?mm ?ww] =>
    destruct (unlockSharedMemory_calls i mm ww) as (b & w2 & logs & Eu & Ee & Et & Hlogs);
      [exact Hi | exact Hs | rewrite Eu] end.
  do 2 eexists.
  eexists (SharedMemoryData.set_workers _ (SharedMemoryData.worker_count d + 1) d).
  exists w2, ([P m (SEM_WORKER_LIST K); TimeNow; TimeNow; Log INFO "Worker process added";
               V m (SEM_WORKER_LIST K)] ++ rev logs).
  split; [split; [reflexivity|split; [exact Ee|]]|].
  { rewrite Et. rewrite rev_app_distr, rev_involutive. simpl. rewrite <- app_assoc.
    reflexivity. }
  split. { rewrite semops_app, (semops_logs (rev logs)) by (apply is_log_rev; auto).
           reflexivity. }
  apply Z.ltb_lt in Hfree. unfold constants.MAX_WORKER_PROCESSES in *.
  split. { split; simpl; unfold constants.MAX_WORKER_PROCESSES in *;
           [rewrite length_upd; exact Hlen | lia]. }
  split; [|reflexivity].
  unfold SharedMemoryData.live. simpl.
  replace (Z.to_nat (SharedMemoryData.worker_count d + 1))
    with (S (Z.to_nat (SharedMemoryData.worker_count d))) by lia.
  apply firstn_upd_snoc. lia.
Qed.

End Table.

Lemma remove_first_unlisted pid l : listed pid l = false -> remove_first pid l = l.
Proof.
  unfold listed. induction l as [|r l IH]; simpl; auto. intros H.
  apply orb_false_iff in H. destruct H as [H1 H2]. rewrite H1, IH; auto.
Qed.

Lemma remove_first_snoc pid l x :
  listed pid l = false -> ProcessInfo.pid x = pid ->
  listed pid (l ++ [x]) = true /\ remove_first pid (l ++ [x]) = l.
Proof.
  unfold listed. intros Hl Hx. induction l as [|r l IH]; simpl in *.
  - apply Z.eqb_eq in Hx. rewrite Hx. auto.
  - apply orb_false_iff in Hl. destruct Hl as [H1 H2]. rewrite H1. simpl.
    destruct (IH H2) as [I1 I2]. rewrite I1, I2. auto.
Qed.

(** X1.  With the table lock granted, [removeWorkerProcess] answers whether
    the pid has a live record; if it has, the first such record is taken out,
    the records behind it keep their order and move one slot down, and the
    live count drops by one.  A pid without a record leaves the manager as it
    is.  The table stays well formed. *)
Theorem removeWorkerProcess_compacts K pid m w d :
  IPCManager.shared_data_ m = mapped d ->
  SharedMemoryData.wf d ->
  lock_granted (SEM_WORKER_LIST K) m w ->
  exists m' w' d',
    IPCManager.removeWorkerProcess K pid m w =
      (Done (listed pid (SharedMemoryData.live d)), m', w') /\
    IPCManager.shared_data_ m' = mapped d' /\
    SharedMemoryData.wf d' /\
    SharedMemoryData.live d' = remove_first pid (SharedMemoryData.live d) /\
    SharedMemoryData.worker_count d' =
      SharedMemoryData.worker_count d -
      (if listed pid (SharedMemoryData.live d) then 1 else 0) /\
    SharedMemoryData.stats d' = SharedMemoryData.stats d /\
    SharedMemoryData.shutdown_flag d' = SharedMemoryData.shutdown_flag d /\
    (listed pid (SharedMemoryData.live d) = false -> m' = m).
Proof.
  intros Hd Hwf Hl.
  destruct (removeWorkerProcess_granted K pid m w d Hd Hwf Hl)
    as (d' & w' & cs & (E & _) & _ & _ & Hwf' & Hlive & Hcnt & Hst & _ & _ & Hsh & _).
  destruct (listed pid (SharedMemoryData.live d)) eqn:L.
  - exists (IPCManager.set_shared_data_ (mapped d') m), w', d'.
    repeat split; auto; try apply Hwf'. discriminate.
  - exists m, w', d.
    rewrite (remove_first_unlisted _ _ L).
    repeat split; auto; try apply Hwf; lia.
Qed.

(** Witness of X1: pid 100 is taken out of a table that lists 100 and 200. *)
Lemma removeWorkerProcess_compacts_witness :
  let m := Sample.manager Sample.two_workers in
  let w := Sample.world Sample.calm [] in
  let d := Sample.two_workers in
  exists m' w' d',
    IPCManager.removeWorkerProcess Sample.K 100 m w =
      (Done (listed 100 (SharedMemoryData.live d)), m', w') /\
    IPCManager.shared_data_ m' = mapped d' /\
    SharedMemoryData.wf d' /\
    SharedMemoryData.live d' = remove_first 100 (SharedMemoryData.live d) /\
    SharedMemoryData.worker_count d' =
      SharedMemoryData.worker_count d -
      (if listed 100 (SharedMemoryData.live d) then 1 else 0) /\
    SharedMemoryData.stats d' = SharedMemoryData.stats d /\
    SharedMemoryData.shutdown_flag d' = SharedMemoryData.shutdown_flag d /\
    (listed 100 (SharedMemoryData.live d) = false -> m' = m).
Proof.
  apply (removeWorkerProcess_compacts Sample.K 100 (Sample.manager Sample.two_workers)
           (Sample.world Sample.calm []) Sample.two_workers).
  - reflexivity.
  - split; [reflexivity | vm_compute; split; discriminate].
  - repeat split; vm_compute; discriminate.
Defined.

(* ------------------------------------------------------------------ *)
(** ** More rules of the program logic *)

Lemma spec_put {S} (s0 s : S) w R : R (Done tt) s0 w [] -> spec (put s0) s w R.
Proof.
  intros H. eapply spec_eq with (cs := []); [reflexivity | reflexivity | reflexivity | exact H].
Qed.

Lemma spec_stop {S A} r (s : S) w (R : outcome A -> S -> World -> list Syscall -> Prop) :
  R (Abort r) s w [] -> spec (stop r) s w R.
Proof.
  intros H. eapply spec_eq with (cs := []); [reflexivity | reflexivity | reflexivity | exact H].
Qed.

Lemma spec_time {S} (s : S) w R :
  R (Done (rv (answer (env w) (length (trace w)) TimeNow))) s (issue TimeNow w) [TimeNow] ->
  spec time_nullptr s w R.
Proof.
  intros H. eapply spec_eq with (cs := [TimeNow]);
    [reflexivity | reflexivity | reflexivity | exact H].
Qed.

Lemma spec_calls_of {S A} (c : M S A) s w (Q : list Syscall -> Prop) :
  spec c s w (fun _ _ _ cs => Q cs) -> Q (calls_of c s w).
Proof.
  intros (o & s' & w' & cs & Hs & HQ). unfold calls_of.
  pose proof (steps_calls _ _ _ _ _ _ _ Hs) as Hc.
  destruct Hs as (E & _). rewrite E. simpl. rewrite Hc. exact HQ.
Qed.

Lemma spec_result {S A} (c : M S A) s w (Q : outcome A -> S -> Prop) :
  spec c s w (fun o s' _ _ => Q o s') ->
  exists o s' w', c s w = (o, s', w') /\ Q o s'.
Proof. intros (o & s' & w' & cs & (E & _) & HQ). eauto. Qed.

Ltac spec_step :=
  first
    [ apply spec_ret | apply spec_get | apply spec_put | apply spec_modify
    | apply spec_stop | apply spec_log | apply spec_time | apply spec_sys
    | apply spec_zoom | apply spec_bind ];
  cbv beta iota.

Section Locking.
Variable K : IpcConstants.

(** The unlock of an initialised manager issues its V, and perhaps a log. *)
Lemma unlock_spec_calls i m w
    (R : outcome bool -> IPCManager.t -> World -> list Syscall -> Prop) :
  IPCManager.initialized_ m = true -> IPCManager.sem_id_ m <> -1 ->
  (forall b w' logs, env w' = env w -> forallb is_log logs = true ->
     R (Done b) m w' (V m i :: logs)) ->
  spec (IPCManager.unlockSharedMemory i) m w R.
Proof.
  intros Hi Hs H.
  destruct (unlockSharedMemory_calls i m w Hi Hs) as (b & w' & logs & E & Ee & Et & Hl).
  eapply spec_eq with (cs := V m i :: rev logs); [exact E | exact Ee | |].
  - rewrite Et. simpl. rewrite rev_involutive, <- app_assoc. reflexivity.
  - apply H; auto. apply is_log_rev; auto.
Qed.

(** A lock that is not granted issues no V and leaves the manager alone. *)
Lemma lock_refused i m w
    (R : outcome bool -> IPCManager.t -> World -> list Syscall -> Prop) :
  ~ lock_granted i m w ->
  (forall w' cs, env w' = env w ->
     (cs = [] \/ exists logs, cs = P m i :: logs /\ forallb is_log logs = true) ->
     R (Done false) m w' cs) ->
  spec (IPCManager.lockSharedMemory i) m w R.
Proof.
  intros Hl H. unfold IPCManager.lockSharedMemory.
  destruct (IPCManager.initialized_ m) eqn:Hi; simpl.
  - destruct (IPCManager.sem_id_ m =? -1) eqn:Hs.
    + eapply spec_eq with (cs := []); [munfold; rewrite Hi, Hs; reflexivity | reflexivity
                                      | reflexivity |].
      apply H; auto.
    + destruct (rv (answer (env w) (length (trace w)) (P m i)) =? -1) eqn:Hr.
      * eapply spec_eq with (cs := [P m i; Log LERROR "Failed to lock semaphore"]);
          [munfold; rewrite Hi, Hs; unfold P in Hr; simpl; rewrite Hr; reflexivity
          | reflexivity | reflexivity |].
        apply H; auto. right. eexists; split; reflexivity.
      * exfalso. apply Hl. apply Z.eqb_neq in Hs, Hr. repeat split; auto.
  - eapply spec_eq with (cs := []); [munfold; rewrite Hi; reflexivity | reflexivity
                                    | reflexivity |].
    apply H; auto.
Qed.

End Locking.

Section Bracket.
Variable K : IpcConstants.

Ltac locked_section Hl :=
  unfold IPCManager.addWorkerProcess, IPCManager.removeWorkerProcess,
         IPCManager.updateWorkerStatus, IPCManager.updateStatistics,
         IPCManager.getStatistics, IPCManager.getWorkerProcesses;
  apply spec_bind; apply (lock_spec _ _ _ _ Hl); cbv beta iota;
  repeat
    first
      [ eapply unlock_spec_calls;
          [ simpl; apply Hl | simpl; apply Hl | intros ? ? ? ? ? ]
      | match goal with
        | |- spec (match ?x with _ => _ end) _ _ _ => destruct x eqn:?
        | |- spec (if ?x then _ else _) _ _ _ => destruct x eqn:?
        end
      | spec_step ].

Ltac semops_done :=
  unfold semops, P, V; simpl; rewrite ?app_nil_r;
  repeat match goal with
         | H : forallb is_log ?l = true |- context [filter is_semop ?l] =>
             change (filter is_semop l) with (semops l); rewrite (semops_logs l H)
         end;
  reflexivity.

Lemma addWorkerProcess_bracket pid id m w :
  IPCManager.shared_data_ m <> invalid_ptr ->
  lock_granted (SEM_WORKER_LIST K) m w ->
  spec (IPCManager.addWorkerProcess K pid id) m w
    (fun _ _ _ cs => semops cs = [P m (SEM_WORKER_LIST K); V m (SEM_WORKER_LIST K)]).
Proof.
  intros Hp Hl. locked_section Hl.
  all: try congruence; try discriminate; semops_done.
Qed.

Lemma removeWorkerProcess_bracket pid m w :
  IPCManager.shared_data_ m <> invalid_ptr ->
  lock_granted (SEM_WORKER_LIST K) m w ->
  spec (IPCManager.removeWorkerProcess K pid) m w
    (fun _ _ _ cs => semops cs = [P m (SEM_WORKER_LIST K); V m (SEM_WORKER_LIST K)]).
Proof. intros Hp Hl. locked_section Hl. all: try congruence; try discriminate; semops_done. Qed.

Lemma updateWorkerStatus_bracket pid st m w :
  IPCManager.shared_data_ m <> invalid_ptr ->
  lock_granted (SEM_WORKER_LIST K) m w ->
  spec (IPCManager.updateWorkerStatus K pid st) m w
    (fun _ _ _ cs => semops cs = [P m (SEM_WORKER_LIST K); V m (SEM_WORKER_LIST K)]).
Proof. intros Hp Hl. locked_section Hl. all: try congruence; try discriminate; semops_done. Qed.

Lemma getWorkerProcesses_bracket m w :
  IPCManager.shared_data_ m <> invalid_ptr ->
  lock_granted (SEM_WORKER_LIST K) m w ->
  spec (IPCManager.getWorkerProcesses K) m w
    (fun _ _ _ cs => semops cs = [P m (SEM_WORKER_LIST K); V m (SEM_WORKER_LIST K)]).
Proof. intros Hp Hl. locked_section Hl. all: try congruence; try discriminate; semops_done. Qed.

Lemma updateStatistics_bracket stats m w :
  IPCManager.shared_data_ m <> invalid_ptr ->
  lock_granted (SEM_STATISTICS K) m w ->
  spec (IPCManager.updateStatistics K stats) m w
    (fun _ _ _ cs => semops cs = [P m (SEM_STATISTICS K); V m (SEM_STATISTICS K)]).
Proof. intros Hp Hl. locked_section Hl. all: try congruence; try discriminate; semops_done. Qed.

Lemma getStatistics_bracket m w :
  IPCManager.shared_data_ m <> invalid_ptr ->
  lock_granted (SEM_STATISTICS K) m w ->
  spec (IPCManager.getStatistics K) m w
    (fun _ _ _ cs => semops cs = [P m (SEM_STATISTICS K); V m (SEM_STATISTICS K)]).
Proof. intros Hp Hl. locked_section Hl. all: try congruence; try discriminate; semops_done. Qed.

End Bracket.

(** X2.  A worker that is registered and then unregistered leaves the live
    records of the table as they were: the record is appended behind the
    live ones, and the removal finds it there, provided the pid had no record
    before and a slot was free.  (The slot itself keeps the bytes of the
    record; only the live count hides them.) *)
Theorem add_then_remove_restores_table K pid worker_id m w d :
  IPCManager.initialized_ m = true ->
  IPCManager.sem_id_ m <> -1 ->
  semaphores_respond w ->
  IPCManager.shared_data_ m = mapped d ->
  SharedMemoryData.wf d ->
  SharedMemoryData.worker_count d < constants.MAX_WORKER_PROCESSES ->
  listed pid (SharedMemoryData.live d) = false ->
  exists m' w' d',
    (IPCManager.addWorkerProcess K pid worker_id ;;;
     IPCManager.removeWorkerProcess K pid) m w = (Done true, m', w') /\
    IPCManager.shared_data_ m' = mapped d' /\
    SharedMemoryData.wf d' /\
    SharedMemoryData.live d' = SharedMemoryData.live d /\
    SharedMemoryData.worker_count d' = SharedMemoryData.worker_count d.
Proof.
  intros Hi Hs Hr Hd Hwf Hfree Hnew.
  assert (Hl : lock_granted (SEM_WORKER_LIST K) m w) by (repeat split; auto).
  destruct (addWorkerProcess_granted K pid worker_id m w d Hd Hwf Hl Hfree)
    as (t1 & t2 & d1 & w1 & cs1 & Hs1 & _ & Hwf1 & Hlive1 & Hcnt1).
  pose proof Hs1 as (_ & He1 & _).
  assert (Hl1 : lock_granted (SEM_WORKER_LIST K)
                  (IPCManager.set_shared_data_ (mapped d1) m) w1).
  { repeat split; simpl; auto. rewrite He1. apply Hr. }
  destruct (removeWorkerProcess_granted K pid
              (IPCManager.set_shared_data_ (mapped d1) m) w1 d1 eq_refl Hwf1 Hl1)
    as (d2 & w2 & cs2 & Hs2 & _ & _ & Hwf2 & Hlive2 & Hcnt2 & _).
  destruct (remove_first_snoc pid (SharedMemoryData.live d)
              (ProcessInfo.mk pid worker_id STARTING t1 t2) Hnew eq_refl) as [L1 L2].
  rewrite Hlive1, L1 in Hs2, Hcnt2. rewrite Hlive1, L2 in Hlive2.
  pose proof (steps_bind _ (fun _ => IPCManager.removeWorkerProcess K pid)
                _ _ _ _ _ _ _ _ _ _ Hs1 Hs2) as (E & _).
  eexists _, w2, d2. split; [exact E|]. simpl. repeat split; auto; try apply Hwf2. lia.
Qed.

(** Witness of X2: pid 300 is added to the table of two workers and taken
    out again. *)
Lemma add_then_remove_restores_table_witness :
  let m := Sample.manager Sample.two_workers in
  let w := Sample.world Sample.calm [] in
  exists m' w' d',
    (IPCManager.addWorkerProcess Sample.K 300 3 ;;;
     IPCManager.removeWorkerProcess Sample.K 300) m w = (Done true, m', w') /\
    IPCManager.shared_data_ m' = mapped d' /\
    SharedMemoryData.wf d' /\
    SharedMemoryData.live d' = SharedMemoryData.live Sample.two_workers /\
    SharedMemoryData.worker_count d' = SharedMemoryData.worker_count Sample.two_workers.
Proof.
  apply (add_then_remove_restores_table Sample.K 300 3
           (Sample.manager Sample.two_workers) (Sample.world Sample.calm [])
           Sample.two_workers).
  - reflexivity.
  - vm_compute; discriminate.
  - intros n a b c e. vm_compute. discriminate.
  - reflexivity.
  - split; [reflexivity | vm_compute; split; discriminate].
  - reflexivity.
  - reflexivity.
Defined.

(** X3.  Every operation on the shared table is one critical section: with
    its lock granted (and the segment not the invalid pointer) an operation
    issues exactly one P and one V, in this order and on its own semaphore,
    the worker-list semaphore for the four operations on the process table
    and the statistics semaphore for the two on the aggregate.  No operation
    returns with the lock still taken, and none takes the other lock. *)
Theorem table_operations_bracket_lock K m w :
  IPCManager.shared_data_ m <> invalid_ptr ->
  lock_granted (SEM_WORKER_LIST K) m w ->
  lock_granted (SEM_STATISTICS K) m w ->
  let workers := [P m (SEM_WORKER_LIST K); V m (SEM_WORKER_LIST K)] in
  let statistics := [P m (SEM_STATISTICS K); V m (SEM_STATISTICS K)] in
  (forall pid id,
     semops (calls_of (IPCManager.addWorkerProcess K pid id) m w) = workers) /\
  (forall pid,
     semops (calls_of (IPCManager.removeWorkerProcess K pid) m w) = workers) /\
  (forall pid st,
     semops (calls_of (IPCManager.updateWorkerStatus K pid st) m w) = workers) /\
  semops (calls_of (IPCManager.getWorkerProcesses K) m w) = workers /\
  (forall stats,
     semops (calls_of (IPCManager.updateStatistics K stats) m w) = statistics) /\
  semops (calls_of (IPCManager.getStatistics K) m w) = statistics.
Proof.
  intros Hp Hw Hs workers statistics. subst workers statistics.
  repeat split; intros;
    apply spec_calls_of with
      (Q := fun cs => semops cs = [P m _; V m _]).
  - apply addWorkerProcess_bracket; auto.
  - apply removeWorkerProcess_bracket; auto.
  - apply updateWorkerStatus_bracket; auto.
  - apply getWorkerProcesses_bracket; auto.
  - apply updateStatistics_bracket; auto.
  - apply getStatistics_bracket; auto.
Qed.

(** Witness of X3: an initialised manager on a kernel that grants every
    lock. *)
Lemma table_operations_bracket_lock_witness :
  let m := Sample.manager Sample.two_workers in
  let w := Sample.world Sample.calm [] in
  let workers := [P m (SEM_WORKER_LIST Sample.K); V m (SEM_WORKER_LIST Sample.K)] in
  let statistics := [P m (SEM_STATISTICS Sample.K); V m (SEM_STATISTICS Sample.K)] in
  (forall pid id,
     semops (calls_of (IPCManager.addWorkerProcess Sample.K pid id) m w) = workers) /\
  (forall pid,
     semops (calls_of (IPCManager.removeWorkerProcess Sample.K pid) m w) = workers) /\
  (forall pid st,
     semops (calls_of (IPCManager.updateWorkerStatus Sample.K pid st) m w) = workers) /\
  semops (calls_of (IPCManager.getWorkerProcesses Sample.K) m w) = workers /\
  (forall stats,
     semops (calls_of (IPCManager.updateStatistics Sample.K stats) m w) = statistics) /\
  semops (calls_of (IPCManager.getStatistics Sample.K) m w) = statistics.
Proof.
  apply (table_operations_bracket_lock Sample.K (Sample.manager Sample.two_workers)
           (Sample.world Sample.calm [])).
  - discriminate.
  - repeat split; vm_compute; discriminate.
  - repeat split; vm_compute; discriminate.
Defined.

Section Refusal.
Variable K : IpcConstants.

Ltac refused Hl :=
  unfold IPCManager.addWorkerProcess, IPCManager.removeWorkerProcess,
         IPCManager.updateWorkerStatus, IPCManager.updateStatistics,
         IPCManager.getStatistics, IPCManager.getWorkerProcesses;
  apply spec_bind; apply (lock_refused _ _ _ _ Hl); intros; cbv beta iota;
  simpl; spec_step; split; reflexivity.

Lemma refused_result {A} (c : M IPCManager.t A) (a : A) m w :
  spec c m w (fun o m' _ _ => o = Done a /\ m' = m) ->
  exists w', c m w = (Done a, m, w').
Proof. intros (o & s' & w' & cs & (E & _) & -> & ->). eauto. Qed.

Lemma addWorkerProcess_refused pid id m w :
  ~ lock_granted (SEM_WORKER_LIST K) m w ->
  exists w', IPCManager.addWorkerProcess K pid id m w = (Done false, m, w').
Proof. intros Hl. apply refused_result. refused Hl. Qed.

Lemma removeWorkerProcess_refused pid m w :
  ~ lock_granted (SEM_WORKER_LIST K) m w ->
  exists w', IPCManager.removeWorkerProcess K pid m w = (Done false, m, w').
Proof. intros Hl. apply refused_result. refused Hl. Qed.

Lemma updateWorkerStatus_refused pid st m w :
  ~ lock_granted (SEM_WORKER_LIST K) m w ->
  exists w', IPCManager.updateWorkerStatus K pid st m w = (Done false, m, w').
Proof. intros Hl. apply refused_result. refused Hl. Qed.

Lemma getWorkerProcesses_refused m w :
  ~ lock_granted (SEM_WORKER_LIST K) m w ->
  exists w', IPCManager.getWorkerProcesses K m w = (Done [], m, w').
Proof. intros Hl. apply refused_result. refused Hl. Qed.

Lemma updateStatistics_refused stats m w :
  ~ lock_granted (SEM_STATISTICS K) m w ->
  exists w', IPCManager.updateStatistics K stats m w = (Done false, m, w').
Proof. intros Hl. apply refused_result. refused Hl. Qed.

Lemma getStatistics_refused m w :
  ~ lock_granted (SEM_STATISTICS K) m w ->
  exists w', IPCManager.getStatistics K m w = (Done ProcessStatistics.zero, m, w').
Proof. intros Hl. apply refused_result. refused Hl. Qed.

End Refusal.

(** X4.  When the lock is not granted (the manager is not initialised, it
    has no semaphore set, or [semop] fails) no operation touches the shared
    state: the three updates of the process table and the update of the
    aggregate return false, the listing returns no record and the read of the
    aggregate returns zeroed statistics, exactly what an empty table and a
    fresh aggregate would give. *)
Theorem refused_lock_leaves_table_alone K m w :
  ~ lock_granted (SEM_WORKER_LIST K) m w ->
  ~ lock_granted (SEM_STATISTICS K) m w ->
  (forall pid id,
     exists w', IPCManager.addWorkerProcess K pid id m w = (Done false, m, w')) /\
  (forall pid,
     exists w', IPCManager.removeWorkerProcess K pid m w = (Done false, m, w')) /\
  (forall pid st,
     exists w', IPCManager.updateWorkerStatus K pid st m w = (Done false, m, w')) /\
  (exists w', IPCManager.getWorkerProcesses K m w = (Done [], m, w')) /\
  (forall stats,
     exists w', IPCManager.updateStatistics K stats m w = (Done false, m, w')) /\
  (exists w', IPCManager.getStatistics K m w = (Done ProcessStatistics.zero, m, w')).
Proof.
  intros Hw Hs. repeat split; intros.
  - apply addWorkerProcess_refused; auto.
  - apply removeWorkerProcess_refused; auto.
  - apply updateWorkerStatus_refused; auto.
  - apply getWorkerProcesses_refused; auto.
  - apply updateStatistics_refused; auto.
  - apply getStatistics_refused; auto.
Qed.

(** A manager that was initialised, holds a table of two workers, and has
    lost its semaphore set. *)
Lemma refused_lock_leaves_table_alone_witness :
  let m := IPCManager.set_sem_id_ (-1) (Sample.manager Sample.two_workers) in
  let w := Sample.world Sample.calm [] in
  (forall pid id,
     exists w', IPCManager.addWorkerProcess Sample.K pid id m w = (Done false, m, w')) /\
  (forall pid,
     exists w', IPCManager.removeWorkerProcess Sample.K pid m w = (Done false, m, w')) /\
  (forall pid st,
     exists w', IPCManager.updateWorkerStatus Sample.K pid st m w = (Done false, m, w')) /\
  (exists w', IPCManager.getWorkerProcesses Sample.K m w = (Done [], m, w')) /\
  (forall stats,
     exists w', IPCManager.updateStatistics Sample.K stats m w = (Done false, m, w')) /\
  (exists w',
     IPCManager.getStatistics Sample.K m w = (Done ProcessStatistics.zero, m, w')).
Proof.
  apply (refused_lock_leaves_table_alone Sample.K
           (IPCManager.set_sem_id_ (-1) (Sample.manager Sample.two_workers))
           (Sample.world Sample.calm [])).
  - intros (_ & H & _). apply H. reflexivity.
  - intros (_ & H & _). apply H. reflexivity.
Defined.

Ltac env_known :=
  repeat match goal with
         | H : env ?x = _ |- context [env ?x] => rewrite H
         end;
  unfold issue; simpl.

Ltac crit Hi Hs Hr :=
  repeat
    first
      [ eapply unlock_spec_calls;
          [ simpl; exact Hi | simpl; exact Hs | intros ? ? ? ? ? ]
      | eapply lock_spec;
          [ split; [simpl; exact Hi | split; [simpl; exact Hs | env_known; apply Hr]]
          | cbv beta iota ]
      | match goal with
        | |- spec (match ?x with _ => _ end) _ _ _ => destruct x eqn:?
        | |- spec (if ?x then _ else _) _ _ _ => destruct x eqn:?
        end
      | spec_step ].

(** X5.  Statistics written with [updateStatistics] are what the next
    [getStatistics] returns, whatever the aggregate held before, except for
    [last_update], which is the time of the write. *)
Theorem statistics_written_are_read_back K stats m w d :
  IPCManager.initialized_ m = true ->
  IPCManager.sem_id_ m <> -1 ->
  semaphores_respond w ->
  IPCManager.shared_data_ m = mapped d ->
  exists now m' w',
    (IPCManager.updateStatistics K stats ;;; IPCManager.getStatistics K) m w =
      (Done (ProcessStatistics.set_last_update now stats), m', w') /\
    clock_read w w' now /\
    global_stats m' = ProcessStatistics.set_last_update now stats /\
    semops (calls_between w w') =
      [P m (SEM_STATISTICS K); V m (SEM_STATISTICS K);
       P m (SEM_STATISTICS K); V m (SEM_STATISTICS K)].
Proof.
  intros Hi Hs Hr Hd.
  set (now := rv (answer (env w) (S (length (trace w))) TimeNow)).
  assert (Hspec :
    spec (IPCManager.updateStatistics K stats ;;; IPCManager.getStatistics K) m w
      (fun o m' _ cs =>
         o = Done (ProcessStatistics.set_last_update now stats) /\
         global_stats m' = ProcessStatistics.set_last_update now stats /\
         (exists after, cs = [P m (SEM_STATISTICS K)] ++ TimeNow :: after) /\
         semops cs = [P m (SEM_STATISTICS K); V m (SEM_STATISTICS K);
                      P m (SEM_STATISTICS K); V m (SEM_STATISTICS K)])).
  { unfold IPCManager.updateStatistics, IPCManager.getStatistics.
    crit Hi Hs Hr; try congruence; try discriminate.
    all: simpl in *.
    all: repeat match goal with
                | H : mapped _ = mapped _ |- _ => inversion H; subst; clear H
                | H : _ = mapped _ |- _ => rewrite H in *
                end; try congruence.
    split; [reflexivity|]. split; [reflexivity|]. split; [eexists; reflexivity|].
    rewrite !app_nil_r, semops_app, (semops_logs logs) by assumption.
    unfold semops, P, V. simpl.
    change (filter is_semop logs0) with (semops logs0).
    rewrite (semops_logs logs0) by assumption. reflexivity. }
  destruct Hspec as (o & m' & w' & cs & Hst & Ho & Hg & (after & Ha) & Hsem).
  pose proof (steps_calls _ _ _ _ _ _ _ Hst) as Hc.
  destruct Hst as (E & _). subst o.
  exists now, m', w'. split; [exact E|]. split; [|split; [exact Hg | rewrite Hc; exact Hsem]].
  exists [P m (SEM_STATISTICS K)], after. rewrite Hc. split; [exact Ha|].
  simpl. subst now. f_equal. f_equal. lia.
Qed.

(** Witness of X5: the snapshot of a restarted worker is written over an
    aggregate that counted 100 messages, and read back. *)
Lemma statistics_written_are_read_back_witness :
  let m := Sample.manager Sample.two_workers in
  let w := Sample.world Sample.calm [] in
  exists now m' w',
    (IPCManager.updateStatistics Sample.K Sample.fresh_snapshot ;;;
     IPCManager.getStatistics Sample.K) m w =
      (Done (ProcessStatistics.set_last_update now Sample.fresh_snapshot), m', w') /\
    clock_read w w' now /\
    global_stats m' = ProcessStatistics.set_last_update now Sample.fresh_snapshot /\
    semops (calls_between w w') =
      [P m (SEM_STATISTICS Sample.K); V m (SEM_STATISTICS Sample.K);
       P m (SEM_STATISTICS Sample.K); V m (SEM_STATISTICS Sample.K)].
Proof.
  apply (statistics_written_are_read_back Sample.K Sample.fresh_snapshot
           (Sample.manager Sample.two_workers) (Sample.world Sample.calm [])
           Sample.two_workers).
  - reflexivity.
  - vm_compute; discriminate.
  - intros n a b c e. vm_compute. discriminate.
  - reflexivity.
Defined.

(** X6.  The shutdown flag and the reload flag are written and read without
    the lock and without any call to the kernel.  With a segment attached a
    flag that was set is the flag that is read, and setting one flag leaves
    the other as it was; without a segment the write is dropped and the read
    answers false whatever was written. *)
Theorem flags_are_read_back flag m w :
  IPCManager.shared_data_ m <> invalid_ptr ->
  exists m1 m2,
    (IPCManager.setShutdownFlag flag ;;; IPCManager.getShutdownFlag) m w =
      (Done (flag && attached m), m1, w) /\
    result_of IPCManager.getReloadFlag m1 w = result_of IPCManager.getReloadFlag m w /\
    (IPCManager.setReloadFlag flag ;;; IPCManager.getReloadFlag) m w =
      (Done (flag && attached m), m2, w) /\
    result_of IPCManager.getShutdownFlag m2 w = result_of IPCManager.getShutdownFlag m w.
Proof.
  intros Hp. unfold attached, result_of.
  unfold IPCManager.setShutdownFlag, IPCManager.getShutdownFlag,
         IPCManager.setReloadFlag, IPCManager.getReloadFlag.
  munfold.
  destruct (IPCManager.shared_data_ m) as [| |d] eqn:Hd; [| congruence |].
  - exists m, m. rewrite Hd, andb_false_r. repeat split.
  - do 2 eexists. simpl. rewrite andb_true_r. repeat split.
Qed.

(** Witness of X6: the shutdown flag is raised in the table of two workers. *)
Lemma flags_are_read_back_witness :
  let m := Sample.manager Sample.two_workers in
  let w := Sample.world Sample.calm [] in
  exists m1 m2,
    (IPCManager.setShutdownFlag true ;;; IPCManager.getShutdownFlag) m w =
      (Done (true && attached m), m1, w) /\
    result_of IPCManager.getReloadFlag m1 w = result_of IPCManager.getReloadFlag m w /\
    (IPCManager.setReloadFlag true ;;; IPCManager.getReloadFlag) m w =
      (Done (true && attached m), m2, w) /\
    result_of IPCManager.getShutdownFlag m2 w = result_of IPCManager.getShutdownFlag m w.
Proof.
  apply (flags_are_read_back true (Sample.manager Sample.two_workers)
           (Sample.world Sample.calm [])).
  discriminate.
Defined.

(* ------------------------------------------------------------------ *)
(** ** Further properties: bring-up and release of the manager *)

Lemma spec_shmat shmid (m : IPCManager.t) w R :
  R (Done (if rv (answer (env w) (length (trace w)) (Shmat shmid)) =? -1
           then invalid_ptr
           else mapped (segment (env w) (length (trace w)))))
    m (issue (Shmat shmid) w) [Shmat shmid] ->
  spec (IPCManager.shmat shmid) m w R.
Proof.
  intros H. eapply spec_eq with (cs := [Shmat shmid]);
    [reflexivity | reflexivity | reflexivity | exact H].
Qed.

Lemma spec_when {S} (b : bool) (c : M S unit) s w R :
  (b = true -> spec c s w R) -> (b = false -> R (Done tt) s w []) ->
  spec (when b c) s w R.
Proof.
  intros H1 H2. destruct b; simpl; [apply H1; reflexivity | apply spec_ret; auto].
Qed.

Ltac walk :=
  repeat
    first
      [ apply spec_shmat; cbv beta iota
      | apply spec_when; [intros ? | intros ?]
      | match goal with
        | |- spec (match ?x with _ => _ end) _ _ _ => destruct x eqn:?
        | |- spec (if ?x then _ else _) _ _ _ => destruct x eqn:?
        end
      | spec_step ].

Section Connect.
Variable K : IpcConstants.

Lemma connectMessageQueue_post m w :
  spec (IPCManager.connectMessageQueue K) m w
    (fun o m' _ cs =>
       exists ok, o = Done ok /\
         (m' = m \/ exists v, m' = IPCManager.set_msg_queue_id_ v m) /\
         (ok = true -> IPCManager.msg_queue_id_ m' <> -1) /\
         forallb opens_only cs = true).
Proof.
  unfold IPCManager.connectMessageQueue. walk.
  all: eexists; split; [reflexivity|];
       split; [first [left; reflexivity | right; eexists; reflexivity]|];
       split; [try discriminate | reflexivity].
  intros _. simpl. apply Z.eqb_neq. assumption.
Qed.

Lemma connectSharedMemory_post m w :
  spec (IPCManager.connectSharedMemory K) m w
    (fun o m' _ cs =>
       exists ok, o = Done ok /\
         (m' = m \/ (exists v, m' = IPCManager.set_shm_id_ v m) \/
          exists v p, m' = IPCManager.set_shared_data_ p (IPCManager.set_shm_id_ v m)) /\
         (ok = true ->
            IPCManager.shm_id_ m' <> -1 /\
            exists k, IPCManager.shared_data_ m' = mapped (segment (env w) k)) /\
         forallb opens_only cs = true).
Proof.
  unfold IPCManager.connectSharedMemory. walk.
  all: eexists; split; [reflexivity|];
       split; [first [left; reflexivity | right; left; eexists; reflexivity
                     | right; right; do 2 eexists; reflexivity]|];
       split; [try discriminate | reflexivity].
  all: intros _; simpl; split; [apply Z.eqb_neq; assumption|].
  all: match goal with
       | H : (if ?b then _ else _) = _ |- _ => destruct b; inversion H; subst
       end.
  all: eexists; reflexivity.
Qed.

Lemma connectSemaphores_post m w :
  spec (IPCManager.connectSemaphores K) m w
    (fun o m' _ cs =>
       exists ok, o = Done ok /\
         (m' = m \/ exists v, m' = IPCManager.set_sem_id_ v m) /\
         (ok = true -> IPCManager.sem_id_ m' <> -1) /\
         forallb opens_only cs = true).
Proof.
  unfold IPCManager.connectSemaphores. walk.
  all: eexists; split; [reflexivity|];
       split; [first [left; reflexivity | right; eexists; reflexivity]|];
       split; [try discriminate | reflexivity].
  intros _. simpl. apply Z.eqb_neq. assumption.
Qed.

End Connect.

Section Create.
Variable K : IpcConstants.

Lemma createMessageQueue_post m w :
  spec (IPCManager.createMessageQueue K) m w
    (fun o m' _ _ =>
       exists ok, o = Done ok /\
         IPCManager.is_master_ m' = IPCManager.is_master_ m /\
         IPCManager.initialized_ m' = IPCManager.initialized_ m /\
         IPCManager.shm_id_ m' = IPCManager.shm_id_ m /\
         IPCManager.sem_id_ m' = IPCManager.sem_id_ m /\
         IPCManager.shared_data_ m' = IPCManager.shared_data_ m /\
         (ok = true -> IPCManager.msg_queue_id_ m' <> -1)).
Proof.
  unfold IPCManager.createMessageQueue. walk.
  all: eexists; split; [reflexivity|]; simpl; repeat split; try discriminate.
  all: intros _; simpl in *; apply Z.eqb_neq; assumption.
Qed.

Lemma createSharedMemory_post m w :
  spec (IPCManager.createSharedMemory K) m w
    (fun o m' _ _ =>
       exists ok, o = Done ok /\
         IPCManager.is_master_ m' = IPCManager.is_master_ m /\
         IPCManager.initialized_ m' = IPCManager.initialized_ m /\
         IPCManager.msg_queue_id_ m' = IPCManager.msg_queue_id_ m /\
         IPCManager.sem_id_ m' = IPCManager.sem_id_ m /\
         (ok = true ->
            IPCManager.shm_id_ m' <> -1 /\
            exists d, IPCManager.shared_data_ m' = mapped d)).
Proof.
  unfold IPCManager.createSharedMemory. walk.
  all: eexists; split; [reflexivity|]; simpl; repeat split; try discriminate.
  all: try (simpl in *; apply Z.eqb_neq; assumption).
  all: match goal with
       | H : (if ?b then _ else _) = _ |- _ => destruct b; inversion H; subst
       end; eexists; reflexivity.
Qed.

Lemma init_semaphores_post n i m w :
  spec (IPCManager.init_semaphores n i) m w
    (fun o m' _ _ => exists ok, o = Done ok /\ m' = m).
Proof.
  destruct (init_semaphores_frame n i m w) as (b & w' & l & E & Ee & Et).
  eapply spec_eq with (cs := rev l); [exact E | exact Ee | |].
  - rewrite rev_involutive. exact Et.
  - eauto.
Qed.

Lemma createSemaphores_post m w :
  spec (IPCManager.createSemaphores K) m w
    (fun o m' _ _ =>
       exists ok, o = Done ok /\
         IPCManager.is_master_ m' = IPCManager.is_master_ m /\
         IPCManager.initialized_ m' = IPCManager.initialized_ m /\
         IPCManager.msg_queue_id_ m' = IPCManager.msg_queue_id_ m /\
         IPCManager.shm_id_ m' = IPCManager.shm_id_ m /\
         IPCManager.shared_data_ m' = IPCManager.shared_data_ m /\
         (ok = true -> IPCManager.sem_id_ m' <> -1)).
Proof.
  unfold IPCManager.createSemaphores.
  repeat
    first
      [ eapply spec_weaken;
          [ apply init_semaphores_post
          | intros ? ? ? ? _ (? & -> & ->); cbv beta iota ]
      | apply spec_when; [intros ? | intros ?]
      | match goal with
        | |- spec (match ?x with _ => _ end) _ _ _ => destruct x eqn:?
        | |- spec (if ?x then _ else _) _ _ _ => destruct x eqn:?
        end
      | spec_step ].
  all: eexists; split; [reflexivity|]; simpl; repeat split; try discriminate.
  all: intros _; simpl in *; apply Z.eqb_neq; assumption.
Qed.

Lemma initializeSharedData_post m w d :
  IPCManager.shared_data_ m = mapped d ->
  spec IPCManager.initializeSharedData m w
    (fun o m' _ _ =>
       o = Done tt /\
       exists pid now,
         m' = IPCManager.set_shared_data_ (mapped (IPCManager.fresh_segment pid now)) m).
Proof.
  intros Hd. unfold IPCManager.initializeSharedData.
  apply spec_bind, spec_get. cbv beta iota. rewrite Hd. walk.
  split; [reflexivity|]. do 2 eexists. reflexivity.
Qed.

End Create.

Lemma spec_invisible (c : M IPCManager.t unit) m w R :
  invisible c -> R (Done tt) m w [] -> spec c m w R.
Proof.
  intros Hc H. eapply spec_eq with (cs := []);
    [apply Hc | reflexivity | reflexivity | exact H].
Qed.

Lemma spec_outcome {S A} (c : M S A) s w (Q : outcome A -> S -> World -> Prop) :
  spec c s w (fun o s' w' cs => Q o s' w') ->
  exists o s' w', c s w = (o, s', w') /\ Q o s' w'.
Proof. intros (o & s' & w' & cs & (E & _) & HQ). eauto. Qed.

(** X7.  The three functions a worker connects with only open what exists:
    besides [ftok], [shmat] and log lines they call [msgget], [shmget] and
    [semget] with the permission bits as the only flags, so they never
    create a resource and never remove one.  A call answers true only when it
    has stored a valid id (and, for the segment, attached it). *)
Theorem connect_only_opens K m w :
  (exists ok m' w',
     IPCManager.connectMessageQueue K m w = (Done ok, m', w') /\
     forallb opens_only (calls_between w w') = true /\
     (ok = true -> IPCManager.msg_queue_id_ m' <> -1)) /\
  (exists ok m' w',
     IPCManager.connectSharedMemory K m w = (Done ok, m', w') /\
     forallb opens_only (calls_between w w') = true /\
     (ok = true -> IPCManager.shm_id_ m' <> -1 /\ attached m' = true)) /\
  (exists ok m' w',
     IPCManager.connectSemaphores K m w = (Done ok, m', w') /\
     forallb opens_only (calls_between w w') = true /\
     (ok = true -> IPCManager.sem_id_ m' <> -1)).
Proof.
  split; [|split].
  - destruct (connectMessageQueue_post K m w)
      as (o & m' & w' & cs & Hst & ok & -> & _ & Hok & Hcs).
    exists ok, m', w'. rewrite (steps_calls _ _ _ _ _ _ _ Hst).
    destruct Hst as (E & _). auto.
  - destruct (connectSharedMemory_post K m w)
      as (o & m' & w' & cs & Hst & ok & -> & _ & Hok & Hcs).
    exists ok, m', w'. rewrite (steps_calls _ _ _ _ _ _ _ Hst).
    destruct Hst as (E & _). repeat split; auto.
    + apply Hok; auto.
    + destruct (Hok H) as (_ & k & Hk). unfold attached. rewrite Hk. reflexivity.
  - destruct (connectSemaphores_post K m w)
      as (o & m' & w' & cs & Hst & ok & -> & _ & Hok & Hcs).
    exists ok, m', w'. rewrite (steps_calls _ _ _ _ _ _ _ Hst).
    destruct Hst as (E & _). auto.
Qed.

(** X8.  The bring-up of the master's manager always returns.  When it
    answers true the manager is initialised, holds a valid id for the queue,
    the segment and the semaphore set, and the segment has been wiped: an
    empty table of 64 zeroed slots, a zero aggregate, both flags down, the
    master's pid and the start time, whatever the segment held before.  When
    it answers false, [initialized_] is as it was before the call. *)
Theorem initializeMaster_postcondition K setupSignalHandlers m w :
  invisible setupSignalHandlers ->
  exists ok m' w',
    IPCManager.initializeMaster K setupSignalHandlers m w = (Done ok, m', w') /\
    (ok = true ->
       IPCManager.initialized_ m' = true /\
       IPCManager.msg_queue_id_ m' <> -1 /\
       IPCManager.shm_id_ m' <> -1 /\
       IPCManager.sem_id_ m' <> -1 /\
       exists pid now,
         IPCManager.shared_data_ m' = mapped (IPCManager.fresh_segment pid now)) /\
    (ok = false -> IPCManager.initialized_ m' = IPCManager.initialized_ m) /\
    IPCManager.is_master_ m' = IPCManager.is_master_ m.
Proof.
  intros Hsetup.
  assert (Hspec :
    spec (IPCManager.initializeMaster K setupSignalHandlers) m w
      (fun o m' w' _ =>
         exists ok, o = Done ok /\
           (ok = true ->
              IPCManager.initialized_ m' = true /\
              IPCManager.msg_queue_id_ m' <> -1 /\
              IPCManager.shm_id_ m' <> -1 /\
              IPCManager.sem_id_ m' <> -1 /\
              exists pid now,
                IPCManager.shared_data_ m' = mapped (IPCManager.fresh_segment pid now)) /\
           (ok = false -> IPCManager.initialized_ m' = IPCManager.initialized_ m) /\
           IPCManager.is_master_ m' = IPCManager.is_master_ m)).
  { unfold IPCManager.initializeMaster.
    apply spec_bind, spec_log. cbv beta iota.
    apply spec_bind. eapply spec_weaken; [apply createMessageQueue_post|].
    intros o m1 w1 cs1 _ (ok1 & -> & M1 & I1 & _ & _ & _ & Q1). cbv beta iota.
    destruct ok1; simpl.
    2:{ walk. exists false. repeat split; auto; discriminate. }
    apply spec_bind. eapply spec_weaken; [apply createSharedMemory_post|].
    intros o m2 w2 cs2 _ (ok2 & -> & M2 & I2 & Q2 & _ & S2). cbv beta iota.
    destruct ok2; simpl.
    2:{ walk. exists false. repeat split; try discriminate; congruence. }
    apply spec_bind. eapply spec_weaken; [apply createSemaphores_post|].
    intros o m3 w3 cs3 _ (ok3 & -> & M3 & I3 & Q3 & S3 & D3 & E3). cbv beta iota.
    destruct ok3; simpl.
    2:{ walk. exists false. repeat split; try discriminate; congruence. }
    destruct (S2 eq_refl) as (Hshm & d & Hd).
    apply spec_bind. eapply spec_weaken;
      [apply (initializeSharedData_post m3 w3 d); congruence|].
    intros o m4 w4 cs4 _ (-> & pid & now & ->). cbv beta iota.
    apply spec_bind. apply spec_invisible; [exact Hsetup|]. cbv beta iota.
    walk. exists true. simpl. repeat split; try discriminate; try congruence.
    - rewrite Q3, Q2. auto.
    - auto.
    - eauto. }
  destruct (spec_outcome _ _ _ _ Hspec) as (o & m' & w' & E & ok & -> & H).
  exists ok, m', w'. split; [exact E | exact H].
Qed.

(** Witness of X8: a kernel that still holds the resources of an earlier
    run; the handler set-up is the empty step. *)
Lemma initializeMaster_postcondition_witness :
  let m := Sample.blank in
  let w := Sample.world Sample.leftover [] in
  exists ok m' w',
    IPCManager.initializeMaster Sample.K (ret tt) m w = (Done ok, m', w') /\
    (ok = true ->
       IPCManager.initialized_ m' = true /\
       IPCManager.msg_queue_id_ m' <> -1 /\
       IPCManager.shm_id_ m' <> -1 /\
       IPCManager.sem_id_ m' <> -1 /\
       exists pid now,
         IPCManager.shared_data_ m' = mapped (IPCManager.fresh_segment pid now)) /\
    (ok = false -> IPCManager.initialized_ m' = IPCManager.initialized_ m) /\
    IPCManager.is_master_ m' = IPCManager.is_master_ m.
Proof.
  apply (initializeMaster_postcondition Sample.K (ret tt) Sample.blank
           (Sample.world Sample.leftover [])).
  intros m w. reflexivity.
Defined.

(** X9.  The bring-up of a worker's manager always returns, and only opens:
    it creates nothing and removes nothing.  When it answers true the manager
    is initialised, holds three valid ids and is attached to the segment as
    the kernel hands it over: unlike the master, the worker does not wipe
    the shared state.  When it answers false, [initialized_] is as it was. *)
Theorem initializeWorker_attaches K setupSignalHandlers m w :
  invisible setupSignalHandlers ->
  exists ok m' w',
    IPCManager.initializeWorker K setupSignalHandlers m w = (Done ok, m', w') /\
    forallb opens_only (calls_between w w') = true /\
    (ok = true ->
       IPCManager.initialized_ m' = true /\
       IPCManager.msg_queue_id_ m' <> -1 /\
       IPCManager.shm_id_ m' <> -1 /\
       IPCManager.sem_id_ m' <> -1 /\
       exists k, IPCManager.shared_data_ m' = mapped (segment (env w) k)) /\
    (ok = false -> IPCManager.initialized_ m' = IPCManager.initialized_ m) /\
    IPCManager.is_master_ m' = IPCManager.is_master_ m.
Proof.
  intros Hsetup.
  assert (Hspec :
    spec (IPCManager.initializeWorker K setupSignalHandlers) m w
      (fun o m' w' cs =>
         exists ok, o = Done ok /\
           forallb opens_only cs = true /\
           (ok = true ->
              IPCManager.initialized_ m' = true /\
              IPCManager.msg_queue_id_ m' <> -1 /\
              IPCManager.shm_id_ m' <> -1 /\
              IPCManager.sem_id_ m' <> -1 /\
              exists k, IPCManager.shared_data_ m' = mapped (segment (env w) k)) /\
           (ok = false -> IPCManager.initialized_ m' = IPCManager.initialized_ m) /\
           IPCManager.is_master_ m' = IPCManager.is_master_ m)).
  { unfold IPCManager.initializeWorker.
    apply spec_bind, spec_log. cbv beta iota.
    apply spec_bind. eapply spec_weaken; [apply connectMessageQueue_post|].
    intros o m1 w1 cs1 E1 (ok1 & -> & F1 & Q1 & C1). cbv beta iota.
    assert (M1 : IPCManager.is_master_ m1 = IPCManager.is_master_ m /\
                 IPCManager.initialized_ m1 = IPCManager.initialized_ m)
      by (destruct F1 as [-> | (v & ->)]; auto).
    destruct M1 as [M1 I1].
    destruct ok1; simpl.
    2:{ walk. exists false. rewrite !forallb_app, C1. simpl.
        repeat split; auto; discriminate. }
    apply spec_bind. eapply spec_weaken; [apply connectSharedMemory_post|].
    intros o m2 w2 cs2 E2 (ok2 & -> & F2 & S2 & C2). cbv beta iota.
    assert (M2 : IPCManager.is_master_ m2 = IPCManager.is_master_ m1 /\
                 IPCManager.initialized_ m2 = IPCManager.initialized_ m1 /\
                 IPCManager.msg_queue_id_ m2 = IPCManager.msg_queue_id_ m1)
      by (destruct F2 as [-> | [(v & ->) | (v & p & ->)]]; auto).
    destruct M2 as (M2 & I2 & Q2).
    destruct ok2; simpl.
    2:{ walk. exists false. rewrite !forallb_app, C1, C2. simpl.
        repeat split; try discriminate; congruence. }
    apply spec_bind. eapply spec_weaken; [apply connectSemaphores_post|].
    intros o m3 w3 cs3 E3 (ok3 & -> & F3 & S3 & C3). cbv beta iota.
    assert (M3 : IPCManager.is_master_ m3 = IPCManager.is_master_ m2 /\
                 IPCManager.initialized_ m3 = IPCManager.initialized_ m2 /\
                 IPCManager.msg_queue_id_ m3 = IPCManager.msg_queue_id_ m2 /\
                 IPCManager.shm_id_ m3 = IPCManager.shm_id_ m2 /\
                 IPCManager.shared_data_ m3 = IPCManager.shared_data_ m2)
      by (destruct F3 as [-> | (v & ->)]; auto).
    destruct M3 as (M3 & I3 & Q3 & H3 & D3).
    destruct ok3; simpl.
    2:{ walk. exists false. rewrite !forallb_app, C1, C2, C3. simpl.
        repeat split; try discriminate; congruence. }
    destruct (S2 eq_refl) as (Hshm & k & Hk).
    apply spec_bind. apply spec_invisible; [exact Hsetup|]. cbv beta iota.
    walk. exists true. rewrite !forallb_app, C1, C2, C3. simpl.
    repeat split; try discriminate; try congruence.
    - rewrite Q3, Q2. auto.
    - auto.
    - exists k. rewrite D3, Hk. simpl in E1. rewrite E1. reflexivity. }
  destruct Hspec as (o & m' & w' & cs & Hst & ok & -> & Hcs & H).
  exists ok, m', w'. rewrite (steps_calls _ _ _ _ _ _ _ Hst).
  destruct Hst as (E & _). auto.
Qed.

(** Witness of X9: the empty set-up step. *)
Lemma initializeWorker_attaches_witness :
  let m := IPCManager.set_is_master_ false Sample.blank in
  let w := Sample.world Sample.calm [] in
  exists ok m' w',
    IPCManager.initializeWorker Sample.K (ret tt) m w = (Done ok, m', w') /\
    forallb opens_only (calls_between w w') = true /\
    (ok = true ->
       IPCManager.initialized_ m' = true /\
       IPCManager.msg_queue_id_ m' <> -1 /\
       IPCManager.shm_id_ m' <> -1 /\
       IPCManager.sem_id_ m' <> -1 /\
       exists k, IPCManager.shared_data_ m' = mapped (segment (env w) k)) /\
    (ok = false -> IPCManager.initialized_ m' = IPCManager.initialized_ m) /\
    IPCManager.is_master_ m' = IPCManager.is_master_ m.
Proof.
  apply (initializeWorker_attaches Sample.K (ret tt)
           (IPCManager.set_is_master_ false Sample.blank)
           (Sample.world Sample.calm [])).
  intros m w. reflexivity.
Defined.

(** X10.  [cleanup] releases once.  On a manager that is not initialised it
    does nothing at all.  On an initialised one it forgets the three ids and
    the segment and clears [initialized_]; the master removes exactly the
    resources it holds an id for, queue, segment and semaphores in this
    order, and a worker removes nothing.  A second [cleanup] is therefore
    without effect, and after it no lock is granted any more. *)
Theorem cleanup_releases_once shmdt m w :
  invisible shmdt ->
  exists m' w',
    IPCManager.cleanup shmdt m w = (Done tt, m', w') /\
    (IPCManager.initialized_ m = false -> m' = m /\ w' = w) /\
    (IPCManager.initialized_ m = true ->
       removals (calls_between w w') =
         (if IPCManager.is_master_ m then held m else []) /\
       IPCManager.msg_queue_id_ m' = -1 /\
       IPCManager.shm_id_ m' = -1 /\
       IPCManager.sem_id_ m' = -1 /\
       attached m' = false) /\
    IPCManager.initialized_ m' = false /\
    IPCManager.cleanup shmdt m' w' = (Done tt, m', w') /\
    (forall i w'', ~ lock_granted i m' w'').
Proof.
  intros Hshmdt.
  assert (Hspec :
    spec (IPCManager.cleanup shmdt) m w
      (fun o m' w' cs =>
         o = Done tt /\
         (IPCManager.initialized_ m = false -> m' = m /\ cs = []) /\
         (IPCManager.initialized_ m = true ->
            removals cs = (if IPCManager.is_master_ m then held m else []) /\
            IPCManager.msg_queue_id_ m' = -1 /\
            IPCManager.shm_id_ m' = -1 /\
            IPCManager.sem_id_ m' = -1 /\
            attached m' = false) /\
         IPCManager.initialized_ m' = false)).
  { unfold IPCManager.cleanup.
    repeat first [ apply spec_invisible; [exact Hshmdt | cbv beta iota] | progress walk ].
    all: simpl in *.
    all: repeat match goal with
                | H : negb ?b = _ |- _ => destruct b eqn:?; simpl in H; try discriminate H
                end.
    all: split; [reflexivity|].
    all: split; [intros; try congruence; auto|].
    all: split; [|auto].
    all: intros Hinit; try congruence; unfold held, removals, attached; simpl.
    all: repeat match goal with
                | H : ?x = _ |- context [?x] => rewrite H
                end; simpl.
    all: repeat split; try reflexivity. }
  destruct Hspec as (o & m' & w' & cs & Hst & -> & H0 & H1 & Hi').
  pose proof (steps_calls _ _ _ _ _ _ _ Hst) as Hc.
  destruct Hst as (E & Ee & Et).
  exists m', w'. split; [exact E|].
  split.
  { intros Hf. destruct (H0 Hf) as [-> ->]. split; auto.
    simpl in Et. destruct w, w'; simpl in *; congruence. }
  split; [rewrite Hc; exact H1|].
  split; [exact Hi'|].
  split.
  { unfold IPCManager.cleanup. munfold. rewrite Hi'. reflexivity. }
  intros i w'' (Hg & _). congruence.
Qed.

(** Witness of X10: the detach is the empty step. *)
Lemma cleanup_releases_once_witness :
  let m := Sample.manager Sample.two_workers in
  let w := Sample.world Sample.calm [] in
  exists m' w',
    IPCManager.cleanup (ret tt) m w = (Done tt, m', w') /\
    (IPCManager.initialized_ m = false -> m' = m /\ w' = w) /\
    (IPCManager.initialized_ m = true ->
       removals (calls_between w w') =
         (if IPCManager.is_master_ m then held m else []) /\
       IPCManager.msg_queue_id_ m' = -1 /\
       IPCManager.shm_id_ m' = -1 /\
       IPCManager.sem_id_ m' = -1 /\
       attached m' = false) /\
    IPCManager.initialized_ m' = false /\
    IPCManager.cleanup (ret tt) m' w' = (Done tt, m', w') /\
    (forall i w'', ~ lock_granted i m' w'').
Proof.
  apply (cleanup_releases_once (ret tt) (Sample.manager Sample.two_workers)
           (Sample.world Sample.calm [])).
  intros m w. reflexivity.
Defined.

(* ------------------------------------------------------------------ *)
(** ** Further properties: the supervisor *)

Lemma lookup_assign_same k v m : WorkerMap.lookup k (WorkerMap.assign k v m) = Some v.
Proof.
  induction m as [|[k' v'] m IH]; simpl.
  - rewrite Z.eqb_refl. reflexivity.
  - destruct (k <? k') eqn:E1; simpl.
    + rewrite Z.eqb_refl. reflexivity.
    + destruct (k =? k') eqn:E2; simpl.
      * rewrite Z.eqb_refl. reflexivity.
      * rewrite E2. exact IH.
Qed.

Lemma lookup_assign_other k k2 v m :
  k2 <> k -> WorkerMap.lookup k2 (WorkerMap.assign k v m) = WorkerMap.lookup k2 m.
Proof.
  intros Hne. apply Z.eqb_neq in Hne.
  induction m as [|[k' v'] m IH]; simpl.
  - rewrite Hne. reflexivity.
  - destruct (k <? k') eqn:E1; simpl.
    + rewrite Hne. reflexivity.
    + destruct (k =? k') eqn:E2; simpl.
      * apply Z.eqb_eq in E2. subst k'. rewrite Hne. reflexivity.
      * destruct (k2 =? k'); auto.
Qed.

Lemma forks_app a b : forks (a ++ b) = (forks a + forks b)%nat.
Proof. unfold forks. rewrite filter_app, length_app. reflexivity. Qed.

Lemma silent_or_fork_free cs :
  forallb (fun c => negb (is_fork c)) cs = true -> forks cs = 0%nat.
Proof.
  unfold forks. induction cs as [|c cs IH]; simpl; auto. intros H.
  apply andb_true_iff in H. destruct H as [H1 H2].
  destruct (is_fork c); simpl in *; [discriminate | auto].
Qed.

Section Forking.
Variable K : IpcConstants.

(** What [addWorkerProcess] can do, whatever the lock and the table. *)
Lemma addWorkerProcess_any pid id m w :
  spec (IPCManager.addWorkerProcess K pid id) m w
    (fun o _ _ cs =>
       (o = Done true \/ o = Done false \/ o = Abort Segfault) /\
       forallb inward cs = true).
Proof.
  unfold IPCManager.addWorkerProcess, IPCManager.lockSharedMemory,
         IPCManager.unlockSharedMemory.
  walk. all: split; [auto | reflexivity].
Qed.

(** What [createWorkerProcess] can do: no child on a failed fork; in the
    child, the worker's image; in the parent, a fresh slot. *)
Lemma createWorkerProcess_post id mst w :
  spec (MasterProcess.createWorkerProcess K id) mst w
    (fun o mst' _ cs =>
       forks cs = 1%nat /\
       MasterProcess.running_ mst' = MasterProcess.running_ mst /\
       ((o = Done false /\ mst' = mst) \/
        (o = Abort (WorkerImage id) /\ mst' = mst) \/
        ((o = Done true \/ o = Abort Segfault) /\
         exists pid t, 0 < pid /\
           MasterProcess.workers_ mst' =
             WorkerMap.assign id (WorkerInfo.mk pid id t 0 STARTING)
               (MasterProcess.workers_ mst)))).
Proof.
  unfold MasterProcess.createWorkerProcess, MasterProcess.ipc_call.
  repeat
    first
      [ apply spec_zoom; eapply spec_weaken;
          [ apply addWorkerProcess_any
          | intros ? ? ? ? _ (? & ?); cbv beta iota ]
      | match goal with
        | |- spec (match ?x with _ => _ end) _ _ _ => destruct x eqn:?
        | |- spec (if ?x then _ else _) _ _ _ => destruct x eqn:?
        | |- match ?o with Done _ => _ | Abort _ => _ end => destruct o
        end
      | spec_step ].
  all: rewrite ?forks_app; simpl.
  all: try (split; [reflexivity|]; split; [reflexivity|]; auto; fail).
  all: match goal with
       | H : forallb inward ?cs = true |- _ =>
           assert (forks cs = 0%nat) as ->
             by (apply silent_or_fork_free; apply forallb_forall; intros c Hc;
                 eapply forallb_forall in H; eauto; destruct c; simpl in *; auto;
                 discriminate)
       end.
  all: simpl; split; [reflexivity|]; split; [reflexivity|].
  all: right; right.
  all: split;
       [ repeat match goal with
                | H : _ \/ _ |- _ => destruct H
                end; subst; auto; try discriminate
       | do 2 eexists; split; [|reflexivity] ].
  all: match goal with
       | H1 : (?p <? 0) = false, H2 : (?p =? 0) = false |- 0 < ?p =>
           apply Z.ltb_ge in H1; apply Z.eqb_neq in H2; lia
       end.
Qed.

Lemma createWorkerProcesses_from_post n : forall i mst w,
  spec (MasterProcess.createWorkerProcesses_from K n i) mst w
    (fun o mst' _ cs =>
       MasterProcess.running_ mst' = MasterProcess.running_ mst /\
       (forall k, ~ (i < k <= i + Z.of_nat n) ->
          WorkerMap.lookup k (MasterProcess.workers_ mst') =
          WorkerMap.lookup k (MasterProcess.workers_ mst)) /\
       (o = Done true ->
          forks cs = n /\
          forall j, i < j <= i + Z.of_nat n -> started j (MasterProcess.workers_ mst')) /\
       (o = Done false ->
          exists j, i < j <= i + Z.of_nat n /\
            forks cs = Z.to_nat (j - i) /\
            forall k, i < k < j -> started k (MasterProcess.workers_ mst')) /\
       (forall r, o = Abort r ->
          r = Segfault \/ exists j, i < j <= i + Z.of_nat n /\ r = WorkerImage j)).
Proof.
  induction n as [|n IH]; intros i mst w; cbn [MasterProcess.createWorkerProcesses_from].
  - walk. simpl. repeat split; auto; try discriminate.
    intros j Hj. lia.
  - apply spec_bind. eapply spec_weaken; [apply createWorkerProcess_post|].
    intros o mst1 w1 cs1 _ (F1 & R1 & H1).
    destruct H1 as [(-> & ->) | [(-> & ->) | (Ho & pid & t & Hpid & W1)]].
    + (* the fork failed *)
      cbn [negb]. walk. rewrite forks_app, F1.
      split; [reflexivity|]. split; [auto|]. split; [discriminate|].
      split; [|discriminate].
      intros _. exists (i + 1). split; [lia|]. split; [|intros k Hk; lia].
      replace (i + 1 - i) with 1 by lia. reflexivity.
    + (* the child *)
      repeat split; auto; try discriminate.
      intros r Hr. inversion Hr; subst. right. exists (i + 1). split; [lia | reflexivity].
    + assert (Hframe : forall k, k <> i + 1 ->
                WorkerMap.lookup k (MasterProcess.workers_ mst1) =
                WorkerMap.lookup k (MasterProcess.workers_ mst))
        by (intros k Hk; rewrite W1; apply lookup_assign_other; auto).
      assert (Hnew : WorkerMap.lookup (i + 1) (MasterProcess.workers_ mst1) =
                     Some (WorkerInfo.mk pid (i + 1) t 0 STARTING))
        by (rewrite W1; apply lookup_assign_same).
      destruct Ho as [-> | ->].
      2:{ repeat split; auto; try discriminate.
          - intros k Hk. apply Hframe. lia.
          - intros r Hr. inversion Hr; subst. auto. }
      cbn [negb]. eapply spec_weaken; [apply IH|].
      intros o mst2 w2 cs2 _ (R2 & Fr2 & T2 & F2 & A2).
      assert (Hfirst : started (i + 1) (MasterProcess.workers_ mst2)).
      { exists pid, t. split; auto. rewrite Fr2 by lia. exact Hnew. }
      split; [congruence|]. split; [|split; [|split]].
      * intros k Hk. rewrite Fr2 by lia. apply Hframe. lia.
      * intros Ho. destruct (T2 Ho) as [T2a T2b]. rewrite forks_app, F1, T2a.
        split; [reflexivity|]. intros j Hj.
        destruct (Z.eq_dec j (i + 1)) as [-> | Hne]; auto. apply T2b. lia.
      * intros Ho. destruct (F2 Ho) as (j & Hj & Fj & Sj).
        exists j. split; [lia|]. split; [rewrite forks_app, F1, Fj; lia|].
        intros k Hk. destruct (Z.eq_dec k (i + 1)) as [-> | Hne]; auto. apply Sj. lia.
      * intros r Hr. destruct (A2 r Hr) as [-> | (j & Hj & ->)]; auto.
        right. exists j. split; [lia | reflexivity].
Qed.

End Forking.

(** X11.  [createWorkerProcesses] for [n] workers: when it answers true it
    has forked exactly [n] times and slots 1 to [n] of the supervisor's map
    each hold a freshly started worker; when it answers false the fork of
    some worker [j] failed, it has forked [j] times and given up, and the
    workers 1 to [j - 1] stay started (nothing is rolled back); in a forked
    child the function does not return but becomes the image of that worker.
    The slots outside 1 to [n] are not touched, so a count of zero or less
    starts nothing. *)
Theorem createWorkerProcesses_outcomes K n mst w :
  exists o mst' w',
    MasterProcess.createWorkerProcesses K n mst w = (o, mst', w') /\
    (forall k, ~ (1 <= k <= n) ->
       WorkerMap.lookup k (MasterProcess.workers_ mst') =
       WorkerMap.lookup k (MasterProcess.workers_ mst)) /\
    (o = Done true ->
       forks (calls_between w w') = Z.to_nat n /\
       forall j, 1 <= j <= n -> started j (MasterProcess.workers_ mst')) /\
    (o = Done false ->
       exists j, 1 <= j <= n /\
         forks (calls_between w w') = Z.to_nat j /\
         forall k, 1 <= k < j -> started k (MasterProcess.workers_ mst')) /\
    (forall r, o = Abort r ->
       r = Segfault \/ exists j, 1 <= j <= n /\ r = WorkerImage j).
Proof.
  assert (Hspec :
    spec (MasterProcess.createWorkerProcesses K n) mst w
      (fun o mst' _ cs =>
         (forall k, ~ (1 <= k <= n) ->
            WorkerMap.lookup k (MasterProcess.workers_ mst') =
            WorkerMap.lookup k (MasterProcess.workers_ mst)) /\
         (o = Done true ->
            forks cs = Z.to_nat n /\
            forall j, 1 <= j <= n -> started j (MasterProcess.workers_ mst')) /\
         (o = Done false ->
            exists j, 1 <= j <= n /\
              forks cs = Z.to_nat j /\
              forall k, 1 <= k < j -> started k (MasterProcess.workers_ mst')) /\
         (forall r, o = Abort r ->
            r = Segfault \/ exists j, 1 <= j <= n /\ r = WorkerImage j))).
  { unfold MasterProcess.createWorkerProcesses.
    apply spec_bind, spec_log. cbv beta iota.
    eapply spec_weaken; [apply createWorkerProcesses_from_post|].
    intros o mst' w' cs _ (_ & Fr & T & F & A).
    replace (forks ([Log INFO "Creating worker processes..."] ++ cs)) with (forks cs)
      by (rewrite forks_app; reflexivity).
    split; [|split; [|split]].
    - intros k Hk. apply Fr. lia.
    - intros Ho. destruct (T Ho) as [Ta Tb]. split; [exact Ta|].
      intros j Hj. apply Tb. lia.
    - intros Ho. destruct (F Ho) as (j & Hj & Fj & Sj).
      exists j. split; [lia|]. split; [rewrite Fj; f_equal; lia|].
      intros k Hk. apply Sj. lia.
    - intros r Hr. destruct (A r Hr) as [-> | (j & Hj & ->)]; auto.
      right. exists j. split; [lia | reflexivity]. }
  destruct Hspec as (o & mst' & w' & cs & Hst & H).
  exists o, mst', w'. rewrite (steps_calls _ _ _ _ _ _ _ Hst).
  destruct Hst as (E & _). split; [exact E | exact H].
Qed.

Lemma addWorkerProcess_full K pid id m w d :
  IPCManager.shared_data_ m = mapped d ->
  SharedMemoryData.worker_count d = constants.MAX_WORKER_PROCESSES ->
  spec (IPCManager.addWorkerProcess K pid id) m w
    (fun o m' _ _ => o = Done false /\ m' = m).
Proof.
  intros Hd Hfull.
  unfold IPCManager.addWorkerProcess, IPCManager.lockSharedMemory,
         IPCManager.unlockSharedMemory.
  repeat
    first
      [ match goal with
        | |- spec (match IPCManager.shared_data_ m with _ => _ end) _ _ _ => rewrite Hd
        | |- spec (if SharedMemoryData.worker_count d <? _ then _ else _) _ _ _ =>
            rewrite Hfull; cbv beta iota delta [Z.ltb constants.MAX_WORKER_PROCESSES];
            simpl
        | |- spec (match ?x with _ => _ end) _ _ _ => destruct x eqn:?
        | |- spec (if ?x then _ else _) _ _ _ => destruct x eqn:?
        end
      | spec_step ].
  all: split; reflexivity.
Qed.

(** X12.  [createWorkerProcess] does not look at the answer of
    [addWorkerProcess].  With the shared table full, a successful fork is
    still reported as success and the worker is entered in the supervisor's
    own map, while the shared state stays as it was: the new worker has no
    record in the table the liveness sweep reads. *)
Theorem createWorkerProcess_ignores_full_table K worker_id mst w d :
  IPCManager.shared_data_ (MasterProcess.ipc mst) = mapped d ->
  SharedMemoryData.wf d ->
  SharedMemoryData.worker_count d = constants.MAX_WORKER_PROCESSES ->
  0 < rv (answer (env w) (length (trace w)) Fork) ->
  exists w',
    MasterProcess.createWorkerProcess K worker_id mst w =
      (Done true,
       MasterProcess.set_workers_
         (WorkerMap.assign worker_id
            (WorkerInfo.mk (rv (answer (env w) (length (trace w)) Fork)) worker_id
               (rv (answer (env w) (S (length (trace w))) TimeNow)) 0 STARTING)
            (MasterProcess.workers_ mst)) mst,
       w') /\
    In Fork (calls_between w w').
Proof.
  intros Hd Hwf Hfull Hpid.
  assert (Hspec :
    spec (MasterProcess.createWorkerProcess K worker_id) mst w
      (fun o mst' _ cs =>
         o = Done true /\
         mst' = MasterProcess.set_workers_
                  (WorkerMap.assign worker_id
                     (WorkerInfo.mk (rv (answer (env w) (length (trace w)) Fork)) worker_id
                        (rv (answer (env w) (S (length (trace w))) TimeNow)) 0 STARTING)
                     (MasterProcess.workers_ mst)) mst /\
         In Fork cs)).
  { unfold MasterProcess.createWorkerProcess, MasterProcess.ipc_call.
    apply spec_bind, spec_sys. cbv beta iota.
    destruct (rv (answer (env w) (length (trace w)) Fork) <? 0) eqn:E1;
      [apply Z.ltb_lt in E1; lia|].
    destruct (rv (answer (env w) (length (trace w)) Fork) =? 0) eqn:E2;
      [apply Z.eqb_eq in E2; lia|].
    apply spec_bind, spec_time. cbv beta iota.
    apply spec_bind, spec_modify. cbv beta iota.
    apply spec_bind, spec_zoom.
    eapply spec_weaken; [apply (addWorkerProcess_full K _ _ _ _ d); auto|].
    intros o m' w' cs _ (-> & ->). cbv beta iota.
    walk. split; [reflexivity|]. split; [destruct mst; reflexivity|].
    simpl. auto. }
  destruct Hspec as (o & mst' & w' & cs & Hst & -> & -> & Hin).
  exists w'. rewrite (steps_calls _ _ _ _ _ _ _ Hst).
  destruct Hst as (E & _). split; [exact E | exact Hin].
Qed.

(** Witness of X12: a supervisor whose shared table is full forks worker 65
    as pid 101. *)
Lemma createWorkerProcess_ignores_full_table_witness :
  let mst := MasterProcess.mk true [] (Sample.manager Sample.full_table)
               false false false in
  let w := Sample.world Sample.calm [] in
  exists w',
    MasterProcess.createWorkerProcess Sample.K 65 mst w =
      (Done true,
       MasterProcess.set_workers_
         (WorkerMap.assign 65
            (WorkerInfo.mk (rv (answer (env w) (length (trace w)) Fork)) 65
               (rv (answer (env w) (S (length (trace w))) TimeNow)) 0 STARTING)
            (MasterProcess.workers_ mst)) mst,
       w') /\
    In Fork (calls_between w w').
Proof.
  apply (createWorkerProcess_ignores_full_table Sample.K 65
           (MasterProcess.mk true [] (Sample.manager Sample.full_table) false false false)
           (Sample.world Sample.calm []) Sample.full_table).
  - reflexivity.
  - apply sample_full_table_wf.
  - reflexivity.
  - reflexivity.
Defined.

Section Reaping.
Variable K : IpcConstants.

Lemma spec_ask {S A X} (h : World -> X) (f : X -> M S A) s w R :
  spec (f (h w)) s w R -> spec (fun s w => f (h w) s w) s w R.
Proof. intros H. exact H. Qed.

Lemma reap_unknown pids : forall mst w,
  (forall pid, In pid pids -> WorkerMap.find_if_pid pid (MasterProcess.workers_ mst) = None) ->
  spec (MasterProcess.reap_loop pids (MasterProcess.handleDeadWorker_one K)) mst w
    (fun o mst' _ cs => o = Done tt /\ mst' = mst /\ forallb reaps_or_logs cs = true).
Proof.
  induction pids as [|pid pids IH]; intros mst w Hun; cbn [MasterProcess.reap_loop].
  - walk. auto.
  - apply spec_bind, spec_sys. cbv beta iota.
    destruct (0 <? pid); [|walk; auto].
    apply spec_bind. unfold MasterProcess.handleDeadWorker_one.
    apply spec_bind, spec_log. cbv beta iota.
    apply spec_bind, spec_get. cbv beta iota.
    rewrite (Hun pid) by (left; reflexivity).
    apply spec_ret.
    eapply spec_weaken; [apply IH; intros p Hp; apply Hun; right; exact Hp|].
    intros o mst' w' cs _ (-> & -> & Hcs). simpl. auto.
Qed.

(** [removeWorkerProcess], whatever the lock: a segment stays a segment and
    its flags stay as they were. *)
Lemma removeWorkerProcess_any pid m w d :
  IPCManager.shared_data_ m = mapped d ->
  spec (IPCManager.removeWorkerProcess K pid) m w
    (fun o m' _ cs =>
       exists ok d', o = Done ok /\
         IPCManager.shared_data_ m' = mapped d' /\
         SharedMemoryData.shutdown_flag d' = SharedMemoryData.shutdown_flag d /\
         forallb inward cs = true).
Proof.
  intros Hd.
  unfold IPCManager.removeWorkerProcess, IPCManager.lockSharedMemory,
         IPCManager.unlockSharedMemory.
  repeat
    first
      [ match goal with
        | |- spec (match IPCManager.shared_data_ m with _ => _ end) _ _ _ => rewrite Hd
        | |- spec (match ?x with _ => _ end) _ _ _ => destruct x eqn:?
        | |- spec (if ?x then _ else _) _ _ _ => destruct x eqn:?
        end
      | spec_step ].
  all: do 2 eexists; split; [reflexivity|]; simpl;
       split; [first [reflexivity | eassumption]|]; split; reflexivity.
Qed.

Lemma tracked_pids_incr it : forall m,
  tracked_pids (WorkerMap.incr_restart_count it m) = tracked_pids m.
Proof.
  unfold tracked_pids. induction it; intros [|[k v] m]; simpl; auto.
  rewrite (IHit m). reflexivity.
Qed.

End Reaping.

(** X13.  Children that the supervisor does not track are reaped and
    ignored: when no reaped pid is the pid of a tracked worker,
    [handleDeadWorker] leaves the supervisor as it is, touches neither the
    shared table nor the process map, forks nothing, and only calls [waitpid]
    and the logger. *)
Theorem unknown_children_are_ignored K mst w :
  (forall pid, In pid (reaped (env w) (length (trace w))) ->
     WorkerMap.find_if_pid pid (MasterProcess.workers_ mst) = None) ->
  exists w',
    MasterProcess.handleDeadWorker K mst w = (Done tt, mst, w') /\
    forallb reaps_or_logs (calls_between w w') = true.
Proof.
  intros Hun.
  destruct (reap_unknown K _ mst w Hun) as (o & mst' & w' & cs & Hst & -> & -> & Hcs).
  exists w'. rewrite <- (steps_calls _ _ _ _ _ _ _ Hst) in Hcs.
  destruct Hst as (E & _). split; [exact E | exact Hcs].
Qed.

(** Witness of X13: the child 999 is not a worker of the supervisor that
    tracks pid 100. *)
Lemma unknown_children_are_ignored_witness :
  let w := Sample.world Sample.calm [999] in
  exists w',
    MasterProcess.handleDeadWorker Sample.K Sample.supervisor w =
      (Done tt, Sample.supervisor, w') /\
    forallb reaps_or_logs (calls_between w w') = true.
Proof.
  apply (unknown_children_are_ignored Sample.K Sample.supervisor
           (Sample.world Sample.calm [999])).
  intros pid [<- | []]. reflexivity.
Defined.

Lemma createWorkerProcess_fails K id mst w R :
  rv (answer (env w) (length (trace w)) Fork) < 0 ->
  R (Done false) mst
    (issue (Log LERROR "Failed to fork worker process") (issue Fork w))
    [Fork; Log LERROR "Failed to fork worker process"] ->
  spec (MasterProcess.createWorkerProcess K id) mst w R.
Proof.
  intros Hf H. unfold MasterProcess.createWorkerProcess.
  apply spec_bind, spec_sys. cbv beta iota.
  apply Z.ltb_lt in Hf. rewrite Hf. walk. exact H.
Qed.

(** X14.  When the fork of a replacement fails, the dead worker's slot stays
    in the supervisor's map with the pid of the dead process and a restart
    count one higher: the failure is logged and nothing else is done.  The
    set of pids the supervisor tracks (and will signal on shutdown) is
    unchanged, although the process is gone. *)
Theorem failed_respawn_keeps_dead_record K mst w d pid it :
  reaped (env w) (length (trace w)) = [pid] ->
  0 < pid ->
  WorkerMap.find_if_pid pid (MasterProcess.workers_ mst) = Some it ->
  MasterProcess.running_ mst = true ->
  IPCManager.shared_data_ (MasterProcess.ipc mst) = mapped d ->
  SharedMemoryData.shutdown_flag d = false ->
  (forall n, rv (answer (env w) n Fork) < 0) ->
  exists mst' w',
    MasterProcess.handleDeadWorker K mst w = (Done tt, mst', w') /\
    MasterProcess.workers_ mst' =
      WorkerMap.incr_restart_count it (MasterProcess.workers_ mst) /\
    tracked_pids (MasterProcess.workers_ mst') = tracked_pids (MasterProcess.workers_ mst) /\
    In (Log LERROR "Failed to restart worker process") (calls_between w w').
Proof.
  intros Hreaped Hpid Hfind Hrun Hd Hflag Hfork.
  assert (Hspec :
    spec (MasterProcess.handleDeadWorker K) mst w
      (fun o mst' _ cs =>
         o = Done tt /\
         MasterProcess.workers_ mst' =
           WorkerMap.incr_restart_count it (MasterProcess.workers_ mst) /\
         In (Log LERROR "Failed to restart worker process") cs)).
  { change (spec (MasterProcess.reap_loop (reaped (env w) (length (trace w)))
                    (MasterProcess.handleDeadWorker_one K)) mst w
              (fun o mst' _ cs =>
                 o = Done tt /\
                 MasterProcess.workers_ mst' =
                   WorkerMap.incr_restart_count it (MasterProcess.workers_ mst) /\
                 In (Log LERROR "Failed to restart worker process") cs)).
    rewrite Hreaped. cbn [MasterProcess.reap_loop].
    apply spec_bind, spec_sys. cbv beta iota.
    apply Z.ltb_lt in Hpid. rewrite Hpid.
    apply spec_bind. unfold MasterProcess.handleDeadWorker_one, MasterProcess.ipc_call.
    apply spec_bind, spec_log. cbv beta iota.
    apply spec_bind, spec_get. cbv beta iota.
    rewrite Hfind.
    apply spec_bind, spec_zoom.
    eapply spec_weaken; [apply (removeWorkerProcess_any K pid _ _ d Hd)|].
    intros o m1 w1 cs1 E1 (ok & d1 & -> & Hd1 & Hf1 & _). cbv beta iota.
    apply spec_bind, spec_get. cbv beta iota.
    simpl (MasterProcess.running_ _). rewrite Hrun.
    apply spec_bind. apply spec_bind, spec_zoom.
    unfold IPCManager.getShutdownFlag.
    apply spec_bind, spec_get. cbv beta iota.
    simpl (MasterProcess.ipc _). rewrite Hd1. apply spec_ret.
    apply spec_ret. rewrite Hf1, Hflag. cbn [negb].
    apply spec_bind, spec_log. cbv beta iota.
    apply spec_bind, spec_modify. cbv beta iota.
    apply spec_bind. apply createWorkerProcess_fails.
    { unfold issue. simpl. rewrite E1. simpl. apply Hfork. }
    cbv beta iota. apply spec_log.
    walk. split; [reflexivity|]. split; [reflexivity|].
    rewrite !in_app_iff. simpl. tauto. }
  destruct Hspec as (o & mst' & w' & cs & Hst & -> & Hw & Hin).
  exists mst', w'. rewrite (steps_calls _ _ _ _ _ _ _ Hst).
  destruct Hst as (E & _). split; [exact E|]. split; [exact Hw|].
  split; [rewrite Hw; apply tracked_pids_incr | exact Hin].
Qed.

(** Witness of X14: worker 1 (pid 100, restarted three times) dies on a
    kernel whose [fork] fails. *)
Lemma failed_respawn_keeps_dead_record_witness :
  let no_fork := fun n c => match c with
                            | Fork => mkSysret (-1) 11
                            | _ => Sample.calm n c
                            end in
  let w := Sample.world no_fork [100] in
  let mst := Sample.supervisor in
  exists mst' w',
    MasterProcess.handleDeadWorker Sample.K mst w = (Done tt, mst', w') /\
    MasterProcess.workers_ mst' =
      WorkerMap.incr_restart_count 0 (MasterProcess.workers_ mst) /\
    tracked_pids (MasterProcess.workers_ mst') = tracked_pids (MasterProcess.workers_ mst) /\
    In (Log LERROR "Failed to restart worker process") (calls_between w w').
Proof.
  apply (failed_respawn_keeps_dead_record Sample.K Sample.supervisor
           (Sample.world (fun n c => match c with
                                     | Fork => mkSysret (-1) 11
                                     | _ => Sample.calm n c
                                     end) [100])
           (Sample.shared [ProcessInfo.mk 100 1 RUNNING 500 990] ProcessStatistics.zero)
           100 0).
  - reflexivity.
  - reflexivity.
  - reflexivity.
  - reflexivity.
  - reflexivity.
  - reflexivity.
  - intros n. reflexivity.
Defined.

Section Messages.
Variable K : IpcConstants.

Lemma updateWorkerStatus_any pid st m w :
  spec (IPCManager.updateWorkerStatus K pid st) m w
    (fun o _ _ cs =>
       ((exists ok, o = Done ok) \/ o = Abort Segfault) /\ forallb inward cs = true).
Proof.
  unfold IPCManager.updateWorkerStatus, IPCManager.lockSharedMemory,
         IPCManager.unlockSharedMemory.
  walk. all: split; [eauto | reflexivity].
Qed.

Lemma updateStatistics_any stats m w :
  spec (IPCManager.updateStatistics K stats) m w
    (fun o _ _ cs =>
       ((exists ok, o = Done ok) \/ o = Abort Segfault) /\ forallb inward cs = true).
Proof.
  unfold IPCManager.updateStatistics, IPCManager.lockSharedMemory,
         IPCManager.unlockSharedMemory.
  walk. all: split; [eauto | reflexivity].
Qed.

Lemma set_ipc_own mst : MasterProcess.set_ipc (MasterProcess.ipc mst) mst = mst.
Proof. destruct mst; reflexivity. Qed.

Lemma processIPCMessages_loop_frame msgs : forall mst w,
  spec (MasterProcess.processIPCMessages_loop K msgs) mst w
    (fun o mst' _ cs =>
       (o = Done tt \/ o = Abort Segfault) /\
       (exists ipc', mst' = MasterProcess.set_ipc ipc' mst) /\
       forallb inward cs = true).
Proof.
  induction msgs as [|message msgs IH]; intros mst w;
    cbn [MasterProcess.processIPCMessages_loop].
  - walk. all: split; [auto|]; split; [|reflexivity].
    all: exists (MasterProcess.ipc mst); symmetry; apply set_ipc_own.
  - apply spec_bind, spec_get. cbv beta iota.
    destruct (negb _ || _).
    { walk. split; [auto|]; split; [|reflexivity].
      exists (MasterProcess.ipc mst); symmetry; apply set_ipc_own. }
    apply spec_bind, spec_sys. cbv beta iota.
    apply spec_bind, spec_log. cbv beta iota.
    apply spec_bind.
    + unfold MasterProcess.handleHeartbeatMessage, MasterProcess.handleStatisticsMessage,
             MasterProcess.handleErrorReportMessage, MasterProcess.updateGlobalStatistics,
             MasterProcess.ipc_call.
      destruct (type message).
      all: repeat
             first
               [ apply spec_zoom; eapply spec_weaken;
                   [ first [apply updateWorkerStatus_any | apply updateStatistics_any]
                   | intros ? ? ? ? _ ([(? & ->) | ->] & ?); cbv beta iota ]
               | spec_step ].
      all: try match goal with
               | |- spec (MasterProcess.processIPCMessages_loop _ _) _ _ _ =>
                   eapply spec_weaken; [apply IH|];
                   intros o2 mst2 w2 cs2 _ (Ho2 & (ipc2 & ->) & Hcs2);
                   split; [exact Ho2|]; split; [exists ipc2; reflexivity|]
               end.
      all: try (split; [auto|]; split; [eexists; reflexivity|]).
      all: rewrite ?forallb_app; simpl;
           repeat match goal with
                  | H : forallb inward ?l = true |- context [forallb inward ?l] =>
                      rewrite H
                  end; reflexivity.
Qed.

End Messages.

(** X15.  Handling the workers' messages changes nothing of the supervisor
    but the shared state: whatever the queue delivers, [processIPCMessages]
    leaves [running_], the process map and the three signal flags as they
    were, and it only receives, locks, reads the clock and logs; it never
    forks, signals, sends, sleeps or reaps.  It returns, unless the manager
    holds the invalid pointer of a failed attach. *)
Theorem messages_only_touch_shared_state K mst w :
  exists o mst' w',
    MasterProcess.processIPCMessages K mst w = (o, mst', w') /\
    (o = Done tt \/ o = Abort Segfault) /\
    (exists ipc', mst' = MasterProcess.set_ipc ipc' mst) /\
    forallb inward (calls_between w w') = true.
Proof.
  destruct (processIPCMessages_loop_frame K (inbox (env w) (length (trace w))) mst w)
    as (o & mst' & w' & cs & Hst & H).
  exists o, mst', w'. rewrite (steps_calls _ _ _ _ _ _ _ Hst).
  destruct Hst as (E & _). split; [exact E | exact H].
Qed.

(** X16.  A liveness sweep that does not get the table lock sees no record
    at all, and so signals nobody, however long the workers have been
    silent. *)
Theorem sweep_without_lock_signals_nobody K mst w :
  ~ lock_granted (SEM_WORKER_LIST K) (MasterProcess.ipc mst) w ->
  exists w',
    MasterProcess.monitorWorkerProcesses K mst w = (Done tt, mst, w') /\
    kills (calls_between w w') = [].
Proof.
  intros Hl.
  assert (Hspec :
    spec (MasterProcess.monitorWorkerProcesses K) mst w
      (fun o mst' _ cs => o = Done tt /\ mst' = mst /\ kills cs = [])).
  { unfold MasterProcess.monitorWorkerProcesses, MasterProcess.ipc_call,
           IPCManager.getWorkerProcesses.
    apply spec_bind, spec_zoom, spec_bind.
    apply (lock_refused _ _ _ _ Hl). intros w1 cs1 E1 Hcs1. cbv beta iota.
    apply spec_ret. apply spec_bind, spec_time. cbv beta iota.
    cbn [for_each]. apply spec_ret.
    split; [reflexivity|]. split; [apply set_ipc_own|].
    rewrite !kills_app. simpl. rewrite app_nil_r.
    destruct Hcs1 as [-> | (logs & -> & Hlogs)]; [reflexivity|].
    unfold P. simpl. rewrite app_nil_r. apply silent_kills. apply forallb_forall.
    intros c Hc.
    eapply forallb_forall in Hlogs; eauto. destruct c; simpl in *; auto; discriminate. }
  destruct Hspec as (o & mst' & w' & cs & Hst & -> & -> & Hk).
  exists w'. rewrite (steps_calls _ _ _ _ _ _ _ Hst).
  destruct Hst as (E & _). split; [exact E | exact Hk].
Qed.

(** Witness of X16: both workers have been silent for a day, and the
    manager has no semaphore set. *)
Lemma sweep_without_lock_signals_nobody_witness :
  let mst := MasterProcess.set_ipc
               (IPCManager.set_sem_id_ (-1) (Sample.manager Sample.two_workers))
               Sample.supervisor2 in
  let w := Sample.world (fun n c => match c with
                                    | TimeNow => mkSysret 90000 0
                                    | _ => Sample.calm n c
                                    end) [] in
  exists w',
    MasterProcess.monitorWorkerProcesses Sample.K mst w = (Done tt, mst, w') /\
    kills (calls_between w w') = [].
Proof.
  apply (sweep_without_lock_signals_nobody Sample.K
           (MasterProcess.set_ipc
              (IPCManager.set_sem_id_ (-1) (Sample.manager Sample.two_workers))
              Sample.supervisor2)
           (Sample.world (fun n c => match c with
                                     | TimeNow => mkSysret 90000 0
                                     | _ => Sample.calm n c
                                     end) [])).
  intros (_ & H & _). apply H. reflexivity.
Defined.

(* ------------------------------------------------------------------ *)
(** ** Further properties: the worker *)

(** X17.  A record of a category for which no buffer was set up is counted
    and dropped: [onMarketData] adds one to [messages_processed] and the
    record's size to [data_received], stamps [last_update], and leaves every
    buffer as it was; nothing reaches the sink. *)
Theorem unconfigured_category_is_counted_and_dropped sizeof_MarketData data x w :
  WorkerProcess.data_buffers_ x (md_type data) = None ->
  exists w',
    WorkerProcess.onMarketData sizeof_MarketData data x w =
      (Done tt,
       WorkerProcess.set_statistics_
         (WorkerProcess.count_message sizeof_MarketData
            (rv (answer (env w) (length (trace w)) TimeNow))
            (WorkerProcess.statistics_ x)) x,
       w') /\
    calls_between w w' = [TimeNow; Log TRACE "Market data received"].
Proof.
  intros Hnone.
  assert (Hspec :
    spec (WorkerProcess.onMarketData sizeof_MarketData data) x w
      (fun o x' _ cs =>
         o = Done tt /\
         x' = WorkerProcess.set_statistics_
                (WorkerProcess.count_message sizeof_MarketData
                   (rv (answer (env w) (length (trace w)) TimeNow))
                   (WorkerProcess.statistics_ x)) x /\
         cs = [TimeNow; Log TRACE "Market data received"])).
  { unfold WorkerProcess.onMarketData.
    apply spec_bind, spec_time. cbv beta iota.
    apply spec_bind, spec_modify. cbv beta iota.
    apply spec_bind, spec_get. cbv beta iota.
    simpl (WorkerProcess.data_buffers_ _). rewrite Hnone.
    walk. auto. }
  destruct Hspec as (o & x' & w' & cs & Hst & -> & -> & Hcs).
  exists w'. rewrite (steps_calls _ _ _ _ _ _ _ Hst).
  destruct Hst as (E & _). split; [exact E | exact Hcs].
Qed.

(** Witness of X17: the sample worker has no buffer for NEWS. *)
Lemma unconfigured_category_is_counted_and_dropped_witness :
  let data := mkMarketData "n" NEWS 1 in
  let x := Sample.worker in
  let w := Sample.world Sample.calm [] in
  exists w',
    WorkerProcess.onMarketData 64 data x w =
      (Done tt,
       WorkerProcess.set_statistics_
         (WorkerProcess.count_message 64
            (rv (answer (env w) (length (trace w)) TimeNow))
            (WorkerProcess.statistics_ x)) x,
       w') /\
    calls_between w w' = [TimeNow; Log TRACE "Market data received"].
Proof.
  apply (unconfigured_category_is_counted_and_dropped 64 (mkMarketData "n" NEWS 1)
           Sample.worker (Sample.world Sample.calm [])).
  reflexivity.
Defined.

Lemma store_same k v b : WorkerProcess.store k v b k = Some v.
Proof. unfold WorkerProcess.store. rewrite MarketDataType_eqb_refl. reflexivity. Qed.

Lemma store_other k k' v b : k' <> k -> WorkerProcess.store k v b k' = b k'.
Proof.
  intros H. unfold WorkerProcess.store. rewrite MarketDataType_eqb_neq; auto.
Qed.

(** X18.  What a flush does with a batch the sink does not take.  Without a
    database manager the batch is dropped and an error counted.  With one,
    the batch is handed to the sink once; if the sink throws, the buffer is
    kept for the next flush and an error is counted; if the sink answers
    false, the buffer is emptied all the same, so the records are lost, and
    an error is counted; if it answers true, the buffer is emptied and
    [data_sent] grows by the size of the batch.  The other buffers are not
    touched. *)
Theorem flush_failure_modes sizeof_MarketData t x w a rest :
  WorkerProcess.data_buffers_ x t = Some (a :: rest) ->
  let buffer := a :: rest in
  let r := answer (env w) (length (trace w)) (SaveBatch buffer) in
  let errors := WorkerProcess.count_error (WorkerProcess.statistics_ x) in
  exists x' w',
    WorkerProcess.flushDataBuffer sizeof_MarketData t x w = (Done tt, x', w') /\
    (forall k, k <> t ->
       WorkerProcess.data_buffers_ x' k = WorkerProcess.data_buffers_ x k) /\
    (WorkerProcess.db_manager_ x = false ->
       saves (calls_between w w') = [] /\
       WorkerProcess.data_buffers_ x' t = Some [] /\
       WorkerProcess.statistics_ x' = errors) /\
    (WorkerProcess.db_manager_ x = true ->
       saves (calls_between w w') = [buffer] /\
       (WorkerProcess.throws r = true ->
          WorkerProcess.data_buffers_ x' t = Some buffer /\
          WorkerProcess.statistics_ x' = errors) /\
       (WorkerProcess.throws r = false -> rv r = 0 ->
          WorkerProcess.data_buffers_ x' t = Some [] /\
          WorkerProcess.statistics_ x' = errors) /\
       (WorkerProcess.throws r = false -> rv r <> 0 ->
          WorkerProcess.data_buffers_ x' t = Some [] /\
          WorkerProcess.statistics_ x' =
            WorkerProcess.count_sent
              (u64 (Z.of_nat (length buffer) * sizeof_MarketData))
              (WorkerProcess.statistics_ x))).
Proof.
  intros Hb buffer r errors.
  assert (Hr : r = answer (env w) (length (trace w)) (SaveBatch (a :: rest))) by reflexivity.
  assert (Hbuf : buffer = a :: rest) by reflexivity.
  clearbody r buffer.
  assert (Hspec :
    spec (WorkerProcess.flushDataBuffer sizeof_MarketData t) x w
      (fun o x' _ cs =>
         o = Done tt /\
         (forall k, k <> t ->
            WorkerProcess.data_buffers_ x' k = WorkerProcess.data_buffers_ x k) /\
         (WorkerProcess.db_manager_ x = false ->
            saves cs = [] /\
            WorkerProcess.data_buffers_ x' t = Some [] /\
            WorkerProcess.statistics_ x' = errors) /\
         (WorkerProcess.db_manager_ x = true ->
            saves cs = [buffer] /\
            (WorkerProcess.throws r = true ->
               WorkerProcess.data_buffers_ x' t = Some buffer /\
               WorkerProcess.statistics_ x' = errors) /\
            (WorkerProcess.throws r = false -> rv r = 0 ->
               WorkerProcess.data_buffers_ x' t = Some [] /\
               WorkerProcess.statistics_ x' = errors) /\
            (WorkerProcess.throws r = false -> rv r <> 0 ->
               WorkerProcess.data_buffers_ x' t = Some [] /\
               WorkerProcess.statistics_ x' =
                 WorkerProcess.count_sent
                   (u64 (Z.of_nat (length buffer) * sizeof_MarketData))
                   (WorkerProcess.statistics_ x))))).
  { unfold WorkerProcess.flushDataBuffer.
    apply spec_bind, spec_get. cbv beta iota. rewrite Hb.
    walk.
    all: rewrite <- ?Hr in *; rewrite <- ?Hbuf in *.
    all: simpl; split; [reflexivity|].
    all: split; [intros k Hk; rewrite ?store_other by exact Hk; reflexivity|].
    all: split; [intros Hdb; try congruence|intros Hdb; try congruence].
    all: rewrite ?store_same.
    all: repeat match goal with
                | H : negb (_ =? _) = true |- _ => apply negb_true_iff, Z.eqb_neq in H
                | H : negb (_ =? _) = false |- _ => apply negb_false_iff, Z.eqb_eq in H
                end.
    all: repeat split; intros; try congruence; auto. }
  destruct Hspec as (o & x' & w' & cs & Hst & -> & H).
  exists x', w'. rewrite (steps_calls _ _ _ _ _ _ _ Hst).
  destruct Hst as (E & _). split; [exact E | exact H].
Qed.

(** Witness of X18: the sample worker's TICK buffer holds one record. *)
Lemma flush_failure_modes_witness :
  let x := Sample.worker in
  let w := Sample.world Sample.calm [] in
  let buffer := [Sample.tick "a"] in
  let r := answer (env w) (length (trace w)) (SaveBatch buffer) in
  let errors := WorkerProcess.count_error (WorkerProcess.statistics_ x) in
  exists x' w',
    WorkerProcess.flushDataBuffer 64 TICK x w = (Done tt, x', w') /\
    (forall k, k <> TICK ->
       WorkerProcess.data_buffers_ x' k = WorkerProcess.data_buffers_ x k) /\
    (WorkerProcess.db_manager_ x = false ->
       saves (calls_between w w') = [] /\
       WorkerProcess.data_buffers_ x' TICK = Some [] /\
       WorkerProcess.statistics_ x' = errors) /\
    (WorkerProcess.db_manager_ x = true ->
       saves (calls_between w w') = [buffer] /\
       (WorkerProcess.throws r = true ->
          WorkerProcess.data_buffers_ x' TICK = Some buffer /\
          WorkerProcess.statistics_ x' = errors) /\
       (WorkerProcess.throws r = false -> rv r = 0 ->
          WorkerProcess.data_buffers_ x' TICK = Some [] /\
          WorkerProcess.statistics_ x' = errors) /\
       (WorkerProcess.throws r = false -> rv r <> 0 ->
          WorkerProcess.data_buffers_ x' TICK = Some [] /\
          WorkerProcess.statistics_ x' =
            WorkerProcess.count_sent (u64 (Z.of_nat (length buffer) * 64))
              (WorkerProcess.statistics_ x))).
Proof.
  apply (flush_failure_modes 64 TICK Sample.worker (Sample.world Sample.calm [])
           (Sample.tick "a") []).
  reflexivity.
Defined.

Section Arrivals.
Variable sizeof_MarketData : Z.

(** One arrival keeps every buffer below the batch size, when the sink does
    not throw. *)
Lemma onMarketData_within_batch data x w :
  sink_never_throws w ->
  within_batch x ->
  spec (WorkerProcess.onMarketData sizeof_MarketData data) x w
    (fun o x' _ _ =>
       o = Done tt /\ within_batch x' /\
       WorkerProcess.config x' = WorkerProcess.config x).
Proof.
  intros Hsink Hin.
  unfold WorkerProcess.onMarketData.
  apply spec_bind, spec_time. cbv beta iota.
  apply spec_bind, spec_modify. cbv beta iota.
  apply spec_bind, spec_get. cbv beta iota.
  simpl (WorkerProcess.data_buffers_ _).
  destruct (WorkerProcess.data_buffers_ x (md_type data)) as [buffer|] eqn:Hb.
  2:{ walk. split; [reflexivity|]. split; [|reflexivity].
      intros t b. simpl. apply Hin. }
  pose proof (Hin _ _ Hb) as Hlen.
  apply spec_bind. apply spec_bind, spec_modify. cbv beta iota.
  apply spec_bind, spec_get. cbv beta iota.
  simpl (WorkerProcess.config _).
  - destruct (Z.of_nat (length (buffer ++ [data])) >=?
              u64 (batch_size (WorkerProcess.config x))) eqn:Hfull; simpl.
    + (* the batch is full: it is flushed *)
      unfold WorkerProcess.flushDataBuffer.
      apply spec_bind, spec_get. cbv beta iota.
      simpl (WorkerProcess.data_buffers_ _). rewrite store_same.
      destruct (buffer ++ [data]) as [|a rest] eqn:Hnew;
        [destruct buffer; discriminate|].
      walk.
      all: try match goal with
               | H : WorkerProcess.throws _ = true |- _ =>
                   rewrite Hsink in H; discriminate H
               end.
      all: split; [reflexivity|]; split; [|reflexivity].
      all: intros t b; simpl; unfold WorkerProcess.store;
           destruct (MarketDataType_eqb t (md_type data));
           [ intros Hs; inversion Hs; subst; simpl; lia | apply Hin ].
    + (* below the batch size: the record is kept *)
      walk. split; [reflexivity|]. split; [|reflexivity].
      intros t b. simpl. unfold WorkerProcess.store.
      destruct (MarketDataType_eqb t (md_type data)); [|apply Hin].
      intros Hs. inversion Hs; subst. rewrite Z.geb_leb in Hfull.
      apply Z.leb_gt in Hfull. exact Hfull.
Qed.

Lemma arrivals_within_batch datas : forall x w,
  sink_never_throws w ->
  within_batch x ->
  spec (for_each datas (WorkerProcess.onMarketData sizeof_MarketData)) x w
    (fun o x' _ _ => o = Done tt /\ within_batch x').
Proof.
  induction datas as [|data datas IH]; intros x w Hsink Hin; cbn [for_each].
  - apply spec_ret. auto.
  - apply spec_bind. eapply spec_weaken; [apply onMarketData_within_batch; auto|].
    intros o x1 w1 cs1 E1 (-> & Hin1 & Hc1). cbv beta iota.
    eapply spec_weaken; [apply IH|].
    + eapply sink_never_throws_env; eauto.
    + exact Hin1.
    + intros o x2 w2 cs2 _ H. exact H.
Qed.

End Arrivals.

(** X19.  The buffers stay bounded.  As long as the sink does not throw,
    any run of arrivals that starts with every buffer below the batch size
    ends with every buffer below the batch size: a buffer that reaches the
    batch size is emptied by the same call, whether the sink accepts the
    batch or not.  The batch size is the unsigned number the code compares
    with, so the bound says little for a negative [batch_size]. *)
Theorem buffers_stay_below_batch_size sizeof_MarketData datas x w :
  sink_never_throws w ->
  within_batch x ->
  exists x' w',
    for_each datas (WorkerProcess.onMarketData sizeof_MarketData) x w =
      (Done tt, x', w') /\
    within_batch x'.
Proof.
  intros Hsink Hin.
  destruct (arrivals_within_batch sizeof_MarketData datas x w Hsink Hin)
    as (o & x' & w' & cs & (E & _) & -> & H).
  eauto.
Qed.

(** Witness of X19: three ticks arrive at the sample worker, whose batch
    size is 2. *)
Lemma buffers_stay_below_batch_size_witness :
  let datas := [Sample.tick "b"; Sample.tick "c"; Sample.tick "d"] in
  let x := Sample.worker in
  let w := Sample.world Sample.calm [] in
  exists x' w',
    for_each datas (WorkerProcess.onMarketData 64) x w = (Done tt, x', w') /\
    within_batch x'.
Proof.
  apply (buffers_stay_below_batch_size 64
           [Sample.tick "b"; Sample.tick "c"; Sample.tick "d"]
           Sample.worker (Sample.world Sample.calm [])).
  - intros n batch. reflexivity.
  - intros t b. destruct t; simpl; intros H; inversion H; subst; reflexivity.
Defined.

(** X20.  A negative batch size switches the size trigger off.  The buffer
    size is compared with the batch size as an unsigned number, so a negative
    [batch_size] (an [int]) stands for a number above 2^63: a record that
    arrives is appended and nothing is handed to the sink, however many
    records the buffer holds. *)
Theorem negative_batch_size_never_fills sizeof_MarketData data x w buffer :
  WorkerProcess.data_buffers_ x (md_type data) = Some buffer ->
  - 2 ^ 31 <= batch_size (WorkerProcess.config x) < 0 ->
  Z.of_nat (length buffer) < 2 ^ 63 ->
  exists x' w',
    WorkerProcess.onMarketData sizeof_MarketData data x w = (Done tt, x', w') /\
    saves (calls_between w w') = [] /\
    WorkerProcess.data_buffers_ x' (md_type data) = Some (buffer ++ [data]).
Proof.
  intros Hb Hneg Hlen.
  assert (Hspec :
    spec (WorkerProcess.onMarketData sizeof_MarketData data) x w
      (fun o x' _ cs =>
         o = Done tt /\ saves cs = [] /\
         WorkerProcess.data_buffers_ x' (md_type data) = Some (buffer ++ [data]))).
  { unfold WorkerProcess.onMarketData.
    apply spec_bind, spec_time. cbv beta iota.
    apply spec_bind, spec_modify. cbv beta iota.
    apply spec_bind, spec_get. cbv beta iota.
    simpl (WorkerProcess.data_buffers_ _). rewrite Hb.
    apply spec_bind. apply spec_bind, spec_modify. cbv beta iota.
    apply spec_bind, spec_get. cbv beta iota.
    simpl (WorkerProcess.config _).
    assert (Hu : (Z.of_nat (length (buffer ++ [data])) >=?
                  u64 (batch_size (WorkerProcess.config x))) = false).
    { rewrite Z.geb_leb. apply Z.leb_gt. rewrite length_app. simpl.
      unfold u64.
      assert (E : batch_size (WorkerProcess.config x) mod 2 ^ 64 =
                  batch_size (WorkerProcess.config x) + 2 ^ 64).
      { symmetry. apply Z.mod_unique with (q := -1); lia. }
      rewrite E. lia. }
    rewrite Hu. unfold when. walk. split; [reflexivity|]. split; [reflexivity|].
    simpl. apply store_same. }
  destruct Hspec as (o & x' & w' & cs & Hst & -> & H).
  exists x', w'. rewrite (steps_calls _ _ _ _ _ _ _ Hst).
  destruct Hst as (E & _). split; [exact E | exact H].
Qed.

(** Witness of X20: the sample worker with a batch size of -1. *)
Lemma negative_batch_size_never_fills_witness :
  let x := WorkerProcess.mk 2 true true true 0 ProcessStatistics.zero
             (WorkerProcess.data_buffers_ Sample.worker)
             (WorkerProcess.ipc Sample.worker) (mkConfig (-1) 100 5) false false in
  let w := Sample.world Sample.calm [] in
  exists x' w',
    WorkerProcess.onMarketData 64 (Sample.tick "b") x w = (Done tt, x', w') /\
    saves (calls_between w w') = [] /\
    WorkerProcess.data_buffers_ x' TICK = Some ([Sample.tick "a"] ++ [Sample.tick "b"]).
Proof.
  apply (negative_batch_size_never_fills 64 (Sample.tick "b")
           (WorkerProcess.mk 2 true true true 0 ProcessStatistics.zero
              (WorkerProcess.data_buffers_ Sample.worker)
              (WorkerProcess.ipc Sample.worker) (mkConfig (-1) 100 5) false false)
           (Sample.world Sample.calm []) [Sample.tick "a"]).
  - reflexivity.
  - vm_compute. split; [discriminate | reflexivity].
  - vm_compute. reflexivity.
Defined.

(** X21.  The worker's loop leaves on a shutdown signal, or on the shared
    shutdown flag, without flushing: the worker is exactly as it was when the
    loop was entered, so the records its buffers hold are still there, and
    nothing has been handed to the sink or sent to the supervisor.  One turn
    of fuel is enough, whatever the kernel answers. *)
Theorem mainLoop_leaves_without_flushing
    sizeof_MarketData handleReload handleReconnection fuel x w :
  WorkerProcess.running_ x = true ->
  WorkerProcess.g_shutdown_requested x = true \/
  (WorkerProcess.g_reload_requested x = false /\
   result_of IPCManager.getShutdownFlag (WorkerProcess.ipc x) w = Done true) ->
  exists w',
    WorkerProcess.mainLoop sizeof_MarketData handleReload handleReconnection
      (S fuel) x w = (Done tt, x, w') /\
    saves (calls_between w w') = [] /\
    sends (calls_between w w') = [] /\
    sleeps (calls_between w w') = [].
Proof.
  intros Hrun Hwhy.
  assert (Hspec :
    spec (WorkerProcess.mainLoop sizeof_MarketData handleReload handleReconnection
            (S fuel)) x w
      (fun o x' _ cs =>
         o = Done tt /\ x' = x /\ saves cs = [] /\ sends cs = [] /\ sleeps cs = [])).
  { unfold WorkerProcess.mainLoop, WorkerProcess.mainLoop_init, WorkerProcess.steady_now.
    repeat spec_step. rewrite Hrun.
    unfold WorkerProcess.mainLoop_body, WorkerProcess.steady_now.
    repeat spec_step.
    destruct Hwhy as [Hsig | (Hrel & Hflag)].
    - rewrite Hsig. repeat spec_step. repeat split; auto.
    - assert (Hflag' : exists d,
                IPCManager.shared_data_ (WorkerProcess.ipc x) = mapped d /\
                SharedMemoryData.shutdown_flag d = true).
      { unfold result_of, IPCManager.getShutdownFlag, bind, get, ret, stop in Hflag.
        destruct (IPCManager.shared_data_ (WorkerProcess.ipc x)) as [| |d];
          simpl in Hflag; try discriminate.
        injection Hflag as Hf. eauto. }
      destruct Hflag' as (d & Hd & Hf).
      destruct (WorkerProcess.g_shutdown_requested x).
      { repeat spec_step. repeat split; auto. }
      rewrite Hrel. unfold when, WorkerProcess.ipc_call, IPCManager.getShutdownFlag.
      repeat spec_step. rewrite Hd. repeat spec_step. rewrite Hf.
      repeat spec_step. repeat split; auto. destruct x; reflexivity. }
  destruct Hspec as (o & x' & w' & cs & Hst & -> & -> & H).
  exists w'. rewrite (steps_calls _ _ _ _ _ _ _ Hst).
  destruct Hst as (E & _). split; [exact E | exact H].
Qed.

(** Witness of X21: SIGTERM has arrived at the sample worker, whose TICK
    buffer holds a record. *)
Lemma mainLoop_leaves_without_flushing_witness :
  let x := WorkerProcess.set_g_shutdown_requested true Sample.worker in
  let w := Sample.world Sample.calm [] in
  exists w',
    WorkerProcess.mainLoop 64 (ret tt) (ret tt) 1 x w = (Done tt, x, w') /\
    saves (calls_between w w') = [] /\
    sends (calls_between w w') = [] /\
    sleeps (calls_between w w') = [].
Proof.
  apply (mainLoop_leaves_without_flushing 64 (ret tt) (ret tt) 0
           (WorkerProcess.set_g_shutdown_requested true Sample.worker)
           (Sample.world Sample.calm [])).
  - reflexivity.
  - left. reflexivity.
Defined.

Section Inbox.
Variable handleReload : M WorkerProcess.t unit.

Lemma set_running_own x : WorkerProcess.set_running_ (WorkerProcess.running_ x) x = x.
Proof. destruct x; reflexivity. Qed.

Lemma worker_inbox_loop msgs : forall x w,
  IPCManager.initialized_ (WorkerProcess.ipc x) = true ->
  IPCManager.msg_queue_id_ (WorkerProcess.ipc x) <> -1 ->
  (forall message, In message msgs -> type message <> RELOAD) ->
  spec (WorkerProcess.processIPCMessages_loop handleReload msgs) x w
    (fun o x' _ cs =>
       o = Done tt /\
       x' = WorkerProcess.set_running_
              (WorkerProcess.running_ x && negb (existsb is_shutdown msgs)) x /\
       receives cs = S (length msgs) /\
       saves cs = [] /\ sends cs = []).
Proof.
  induction msgs as [|message msgs IH]; intros x w Hi Hq Hno;
    cbn [WorkerProcess.processIPCMessages_loop].
  - apply spec_bind, spec_get. cbv beta iota.
    rewrite Hi. apply Z.eqb_neq in Hq. rewrite Hq. cbn [negb orb].
    walk. all: simpl; rewrite andb_true_r, set_running_own; auto.
  - apply spec_bind, spec_get. cbv beta iota.
    rewrite Hi. pose proof Hq as Hq'. apply Z.eqb_neq in Hq'. rewrite Hq'. cbn [negb orb].
    apply spec_bind, spec_sys. cbv beta iota.
    apply spec_bind, spec_log. cbv beta iota.
    assert (Hm : type message <> RELOAD) by (apply Hno; left; reflexivity).
    assert (Hrest : forall m', In m' msgs -> type m' <> RELOAD)
      by (intros m' Hm'; apply Hno; right; exact Hm').
    unfold is_shutdown at 1. cbn [existsb].
    destruct (type message) eqn:Ht; try congruence.
    all: repeat spec_step.
    all: eapply spec_weaken; [apply IH; simpl; auto|].
    all: intros o x' w' cs _ (-> & -> & Hr & Hs & Hd).
    all: split; [reflexivity|].
    all: unfold receives in *;
         rewrite ?filter_app, ?length_app, ?saves_app; simpl;
         rewrite ?Hr, ?Hs; simpl.
    all: split; [destruct x; simpl; rewrite ?andb_false_r; reflexivity|].
    all: split; [reflexivity|]; split; [reflexivity|].
    all: unfold sends in *; rewrite ?flat_map_app; simpl; rewrite ?Hd; reflexivity.
Qed.

End Inbox.

(** X22.  A SHUTDOWN message stops the worker at the end of the turn, not
    at once.  With the queue attached and no RELOAD message waiting, one pass
    over the inbox receives every waiting message (one more [msgrcv] finds
    the queue empty), clears [running_] if a SHUTDOWN was among them, and
    changes nothing else: the messages behind the SHUTDOWN are still taken
    off the queue, and the buffers are not flushed by the message. *)
Theorem shutdown_message_clears_running handleReload x w :
  IPCManager.initialized_ (WorkerProcess.ipc x) = true ->
  IPCManager.msg_queue_id_ (WorkerProcess.ipc x) <> -1 ->
  (forall message, In message (inbox (env w) (length (trace w))) ->
     type message <> RELOAD) ->
  exists w',
    WorkerProcess.processIPCMessages handleReload x w =
      (Done tt,
       WorkerProcess.set_running_
         (WorkerProcess.running_ x &&
          negb (existsb is_shutdown (inbox (env w) (length (trace w))))) x,
       w') /\
    receives (calls_between w w') = S (length (inbox (env w) (length (trace w)))) /\
    saves (calls_between w w') = [].
Proof.
  intros Hi Hq Hno.
  destruct (worker_inbox_loop handleReload _ x w Hi Hq Hno)
    as (o & x' & w' & cs & Hst & -> & -> & Hr & Hs & _).
  exists w'. rewrite (steps_calls _ _ _ _ _ _ _ Hst).
  destruct Hst as (E & _). split; [exact E|]. auto.
Qed.

(** Witness of X22: a heartbeat echo, a SHUTDOWN and another message wait
    in the sample worker's queue. *)
Lemma shutdown_message_clears_running_witness :
  let msgs := [Sample.heartbeat; mkIPCMessage SHUTDOWN 1 4242 1000 (heartbeat_data 0);
               Sample.fresh_statistics] in
  let w := mkWorld (mkEnv Sample.calm (fun _ => []) (fun _ => msgs)
                      (fun _ => Sample.shared [] ProcessStatistics.zero) (fun _ => []))
                   [] in
  let x := Sample.worker in
  exists w',
    WorkerProcess.processIPCMessages (ret tt) x w =
      (Done tt,
       WorkerProcess.set_running_
         (WorkerProcess.running_ x &&
          negb (existsb is_shutdown (inbox (env w) (length (trace w))))) x,
       w') /\
    receives (calls_between w w') = S (length (inbox (env w) (length (trace w)))) /\
    saves (calls_between w w') = [].
Proof.
  apply (shutdown_message_clears_running (ret tt) Sample.worker
           (mkWorld (mkEnv Sample.calm (fun _ => [])
                       (fun _ => [Sample.heartbeat;
                                  mkIPCMessage SHUTDOWN 1 4242 1000 (heartbeat_data 0);
                                  Sample.fresh_statistics])
                       (fun _ => Sample.shared [] ProcessStatistics.zero) (fun _ => []))
                    [])).
  - reflexivity.
  - vm_compute. discriminate.
  - intros message [<- | [<- | [<- | []]]]; discriminate.
Defined.

(* ------------------------------------------------------------------ *)
(** ** The configuration manager *)

(** *** Numbers and their text *)

Lemma digits_lead (d : Decimal.uint) (tail : string) :
  leading_digits tail = EmptyString ->
  leading_digits (NilEmpty.string_of_uint d ++ tail) = NilEmpty.string_of_uint d.
Proof.
  intros Ht. induction d; simpl; [exact Ht | ..];
    rewrite IHd; reflexivity.
Qed.

Lemma digits_unsigned (d : Decimal.uint) (tail : string) :
  d <> Decimal.Nil ->
  exists c rest,
    (NilEmpty.string_of_uint d ++ tail)%string = String c rest /\
    isdigit c = true /\ NilEmpty.string_of_uint d <> EmptyString.
Proof.
  intros Hd. destruct d; [congruence | ..]; simpl;
    eexists; eexists; (split; [reflexivity | split; [reflexivity | discriminate]]).
Qed.

Lemma digit_is_no_sign (c : ascii) (rest : string) :
  isdigit c = true ->
  skip_space (String c rest) = String c rest /\
  match String c rest with
  | String "-" r => (true, r)
  | String "+" r => (false, r)
  | _ => (false, String c rest)
  end = (false, String c rest).
Proof.
  destruct c as [[] [] [] [] [] [] [] []]; intros H; try discriminate H;
    split; reflexivity.
Qed.

Lemma empty_false (s : string) : s <> EmptyString -> empty s = false.
Proof. destruct s; [congruence | reflexivity]. Qed.

Lemma of_uint_pos (p : positive) : Z.of_uint (Pos.to_uint p) = Z.pos p.
Proof. exact (DecimalZ.of_to (Z.pos p)). Qed.

(** What [stoi] makes of an unsigned numeral followed by other text. *)
Lemma stoi_unsigned (d : Decimal.uint) (tail : string) :
  d <> Decimal.Nil -> leading_digits tail = EmptyString ->
  stoi (NilEmpty.string_of_uint d ++ tail) =
  if (INT_MIN <=? Z.of_uint d) && (Z.of_uint d <=? INT_MAX)
  then Some (Z.of_uint d) else None.
Proof.
  intros Hd Ht. destruct (digits_unsigned d tail Hd) as (c & rest & E & Hc & Hne).
  destruct (digit_is_no_sign c rest Hc) as [Hs Hm].
  unfold stoi. rewrite E, Hs, Hm, <- E, (digits_lead d tail Ht).
  rewrite (empty_false _ Hne), NilEmpty.usu. reflexivity.
Qed.

Lemma stoi_negative (d : Decimal.uint) (tail : string) :
  d <> Decimal.Nil -> leading_digits tail = EmptyString ->
  stoi (String "-" (NilEmpty.string_of_uint d ++ tail)) =
  if (INT_MIN <=? - Z.of_uint d) && (- Z.of_uint d <=? INT_MAX)
  then Some (- Z.of_uint d) else None.
Proof.
  intros Hd Ht. destruct (digits_unsigned d tail Hd) as (c & rest & E & Hc & Hne).
  unfold stoi.
  change (skip_space (String "-" (NilEmpty.string_of_uint d ++ tail)))
    with (String "-" (NilEmpty.string_of_uint d ++ tail)).
  cbv beta iota zeta.
  rewrite (digits_lead d tail Ht), (empty_false _ Hne), NilEmpty.usu. reflexivity.
Qed.

(** [stoi] reads back what [to_string] writes, whatever follows it, as long
    as that does not go on with a digit; outside [int] it fails. *)
Lemma stoi_to_string (n : Z) (tail : string) :
  leading_digits tail = EmptyString ->
  stoi (to_string n ++ tail) =
  if (INT_MIN <=? n) && (n <=? INT_MAX) then Some n else None.
Proof.
  intros Ht. unfold to_string. destruct n as [|p|p]; simpl Z.to_int.
  - apply (stoi_unsigned (Decimal.D0 Decimal.Nil) tail); [discriminate | exact Ht].
  - unfold NilZero.string_of_int, NilZero.string_of_uint.
    pose proof (DecimalPos.Unsigned.to_uint_nonnil p) as Hn.
    destruct (Pos.to_uint p) eqn:E; [congruence | ..]; rewrite <- E in *;
      rewrite stoi_unsigned, of_uint_pos by assumption; reflexivity.
  - unfold NilZero.string_of_int, NilZero.string_of_uint.
    pose proof (DecimalPos.Unsigned.to_uint_nonnil p) as Hn.
    destruct (Pos.to_uint p) eqn:E; [congruence | ..]; rewrite <- E in *;
      (change (String "-" (NilEmpty.string_of_uint (Pos.to_uint p)) ++ tail)%string
         with (String "-" (NilEmpty.string_of_uint (Pos.to_uint p) ++ tail));
       rewrite stoi_negative, of_uint_pos by assumption; reflexivity).
Qed.

Lemma to_string_nonempty (n : Z) (tail : string) : empty (to_string n ++ tail) = false.
Proof.
  unfold to_string. destruct n as [|p|p]; simpl Z.to_int; try reflexivity.
  - unfold NilZero.string_of_int, NilZero.string_of_uint.
    pose proof (DecimalPos.Unsigned.to_uint_nonnil p) as Hn.
    destruct (Pos.to_uint p); [congruence | ..]; reflexivity.
Qed.

Lemma append_empty (s : string) : (s ++ EmptyString)%string = s.
Proof. induction s; simpl; congruence. Qed.

(** *** The raw map *)

Lemma getString_setString (c : ConfigManager.t) (section key value section' key' d : string) :
  ConfigManager.getString (ConfigManager.setString section key value c) section' key' d =
  if String.eqb section' section && String.eqb key' key then value
  else ConfigManager.getString c section' key' d.
Proof.
  unfold ConfigManager.getString, ConfigManager.setString, ConfigManager.assign. simpl.
  destruct (String.eqb_spec section' section) as [->|Hs]; simpl.
  - destruct (String.eqb key' key); [reflexivity |].
    destruct (ConfigManager.raw_config_ c section); reflexivity.
  - reflexivity.
Qed.

(** X23. What a setter stores, the getter of the same type reads back,
    whatever default it is given: a string as it is, an [int] through its
    decimal text, a [bool] through the words true and false.  Every other
    key keeps its value. *)
Theorem setters_are_read_back (c : ConfigManager.t) (section key : string)
    (s : string) (n : Z) (b : bool) (ds : string) (dn : Z) (db : bool) :
  INT_MIN <= n <= INT_MAX ->
  ConfigManager.getString (ConfigManager.setString section key s c) section key ds = s /\
  ConfigManager.getInt (ConfigManager.setInt section key n c) section key dn = n /\
  ConfigManager.getBool (ConfigManager.setBool section key b c) section key db = b /\
  (forall section' key' d, (section', key') <> (section, key) ->
     ConfigManager.getString (ConfigManager.setString section key s c) section' key' d =
     ConfigManager.getString c section' key' d).
Proof.
  intros Hn. repeat split.
  - rewrite getString_setString, !String.eqb_refl. reflexivity.
  - unfold ConfigManager.getInt, ConfigManager.setInt.
    rewrite getString_setString, !String.eqb_refl. cbv beta iota zeta. simpl andb.
    cbv iota.
    rewrite <- (append_empty (to_string n)).
    rewrite to_string_nonempty, stoi_to_string by reflexivity. simpl negb. cbv iota.
    replace ((INT_MIN <=? n) && (n <=? INT_MAX)) with true; [reflexivity |].
    symmetry. apply andb_true_iff. split; apply Z.leb_le; lia.
  - unfold ConfigManager.getBool, ConfigManager.setBool.
    rewrite getString_setString, !String.eqb_refl. destruct b; reflexivity.
  - intros section' key' d Hne. rewrite getString_setString.
    destruct (String.eqb_spec section' section) as [->|]; [| reflexivity].
    destruct (String.eqb_spec key' key) as [->|]; [congruence | reflexivity].
Qed.

Lemma setters_are_read_back_witness :
  let c := ConfigManager.instance in
  ConfigManager.getString (ConfigManager.setString "database" "port" "3306" c)
    "database" "port" "x" = "3306"%string /\
  ConfigManager.getInt (ConfigManager.setInt "database" "port" (-42) c)
    "database" "port" 7 = -42 /\
  ConfigManager.getBool (ConfigManager.setBool "database" "port" false c)
    "database" "port" true = false /\
  (forall section' key' d, (section', key') <> ("database", "port")%string ->
     ConfigManager.getString (ConfigManager.setString "database" "port" "3306" c)
       section' key' d =
     ConfigManager.getString c section' key' d).
Proof.
  apply (setters_are_read_back ConfigManager.instance "database" "port" "3306" (-42)
           false "x" 7 true).
  vm_compute. split; discriminate.
Defined.

(** X24. [getInt] reads the number a value starts with and ignores what
    follows it, so a value such as a port with a remark behind it still
    counts; a number outside [int] gives the default. *)
Theorem getInt_reads_the_leading_number (c : ConfigManager.t) (section key : string)
    (n : Z) (tail : string) (d : Z) :
  ConfigManager.getString c section key "" = (to_string n ++ tail)%string ->
  leading_digits tail = EmptyString ->
  ConfigManager.getInt c section key d =
  if (INT_MIN <=? n) && (n <=? INT_MAX) then n else d.
Proof.
  intros Hv Ht. unfold ConfigManager.getInt. rewrite Hv. cbv zeta.
  rewrite to_string_nonempty, stoi_to_string by exact Ht. simpl negb. cbv iota.
  destruct ((INT_MIN <=? n) && (n <=? INT_MAX)); reflexivity.
Qed.

Lemma getInt_reads_the_leading_number_witness :
  let c := ConfigManager.setString "database" "port" "3306 # the port"
             ConfigManager.instance in
  ConfigManager.getInt c "database" "port" 1 = 3306.
Proof.
  apply (getInt_reads_the_leading_number
           (ConfigManager.setString "database" "port" "3306 # the port"
              ConfigManager.instance)
           "database" "port" 3306 " # the port" 1); reflexivity.
Defined.

(** *** Names *)

Lemma toupper_tolower (c : ascii) : toupper (tolower c) = toupper c.
Proof. destruct c as [[] [] [] [] [] [] [] []]; reflexivity. Qed.

Lemma transform_toupper_tolower (s : string) :
  transform toupper (transform tolower s) = transform toupper s.
Proof. induction s; simpl; [reflexivity |]. rewrite toupper_tolower, IHs. reflexivity. Qed.

(** X25. The three name parsers do not look at the case of the letters: two
    names that become equal once their letters are lowered give the same
    log level, the same market and the same data type. *)
Theorem names_are_matched_without_case (a b : string) :
  transform tolower a = transform tolower b ->
  ConfigManager.stringToLogLevel a = ConfigManager.stringToLogLevel b /\
  ConfigManager.stringToMarketType a = ConfigManager.stringToMarketType b /\
  ConfigManager.stringToDataType a = ConfigManager.stringToDataType b.
Proof.
  intros H. repeat split.
  - unfold ConfigManager.stringToLogLevel. rewrite H. reflexivity.
  - unfold ConfigManager.stringToMarketType.
    rewrite <- (transform_toupper_tolower a), <- (transform_toupper_tolower b), H.
    reflexivity.
  - unfold ConfigManager.stringToDataType. rewrite H. reflexivity.
Qed.

Lemma names_are_matched_without_case_witness :
  ConfigManager.stringToLogLevel "Warning" = ConfigManager.stringToLogLevel "wARNING" /\
  ConfigManager.stringToMarketType "Hk" = ConfigManager.stringToMarketType "hK" /\
  ConfigManager.stringToDataType "Hk" = ConfigManager.stringToDataType "hK".
Proof.
  split; [| split].
  - apply (names_are_matched_without_case "Warning" "wARNING"). reflexivity.
  - apply (names_are_matched_without_case "Hk" "hK"). reflexivity.
  - apply (names_are_matched_without_case "Hk" "hK"). reflexivity.
Defined.

(** *** Trimming and splitting *)

Lemma erase_front_head (s : string) :
  erase_front s = EmptyString \/
  exists c r, erase_front s = String c r /\ blank c = false.
Proof.
  induction s as [|c r IH]; simpl; [left; reflexivity |].
  destruct (blank c) eqn:E; [exact IH |]. right. exists c, r. split; [reflexivity | exact E].
Qed.

Lemma erase_back_head (c : ascii) (r : string) :
  blank c = false -> exists r', erase_back (String c r) = String c r'.
Proof.
  intros E. simpl. destruct (erase_back r); [rewrite E |]; eexists; reflexivity.
Qed.

Lemma erase_back_idem (s : string) : erase_back (erase_back s) = erase_back s.
Proof.
  induction s as [|c r IH]; simpl; [reflexivity |].
  destruct (erase_back r) as [|k kept] eqn:E.
  - destruct (blank c) eqn:B; simpl; [reflexivity | rewrite B; reflexivity].
  - change (erase_back (String c (String k kept)))
      with (match erase_back (String k kept) with
            | EmptyString => if blank c then EmptyString else String c EmptyString
            | kept' => String c kept'
            end).
    rewrite IH. reflexivity.
Qed.

Lemma trim_idem (s : string) : trim (trim s) = trim s.
Proof.
  unfold trim. destruct (erase_front_head s) as [E | (c & r & E & B)]; rewrite E.
  - reflexivity.
  - destruct (erase_back_head c r B) as [r' E']. rewrite E'.
    simpl erase_front. rewrite B, <- E'. apply erase_back_idem.
Qed.

Lemma erase_front_scan (d : ascii) (s : string) :
  find_char d s = None -> find_char d (erase_front s) = None.
Proof.
  induction s as [|c r IH]; simpl; [reflexivity |].
  destruct (Ascii.eqb c d) eqn:E; [discriminate |].
  intros H. destruct (blank c); [| simpl; rewrite E; exact H].
  apply IH. destruct (find_char d r); [discriminate | reflexivity].
Qed.

Lemma erase_back_scan (d : ascii) (s : string) :
  find_char d s = None -> find_char d (erase_back s) = None.
Proof.
  induction s as [|c r IH]; simpl; [reflexivity |].
  destruct (Ascii.eqb c d) eqn:E; [discriminate |].
  intros H. assert (Hr : find_char d r = None)
    by (destruct (find_char d r); [discriminate | reflexivity]).
  specialize (IH Hr). destruct (erase_back r) as [|k kept].
  - destruct (blank c); simpl; [reflexivity | rewrite E; reflexivity].
  - change (find_char d (String c (String k kept)))
      with (if Ascii.eqb c d then Some O
            else option_map S (find_char d (String k kept))).
    rewrite E, IH. reflexivity.
Qed.

Lemma getlines_scan (d : ascii) (s item : string) :
  In item (getlines d s) -> find_char d item = None.
Proof.
  revert item. induction s as [|c r IH]; simpl; [contradiction |].
  intros item. destruct (Ascii.eqb c d) eqn:E.
  - intros [<- | H]; [reflexivity | exact (IH _ H)].
  - destruct (getlines d r) as [|first items].
    + intros [<- | []]. simpl. rewrite E. reflexivity.
    + intros [<- | H].
      * simpl. rewrite E, (IH first (or_introl eq_refl)). reflexivity.
      * apply IH. right. exact H.
Qed.

(** X26. No item [splitString] returns is empty, begins or ends with a
    space or a tab (trimming it again changes nothing), or holds the
    delimiter. *)
Theorem splitString_items_are_clean (str : string) (delimiter : ascii) (item : string) :
  In item (ConfigManager.splitString str delimiter) ->
  item <> EmptyString /\ trim item = item /\ find_char delimiter item = None.
Proof.
  unfold ConfigManager.splitString. intros H.
  apply filter_In in H. destruct H as [H Hne].
  apply in_map_iff in H. destruct H as (raw & <- & Hraw).
  split; [| split].
  - intros E. rewrite E in Hne. discriminate.
  - apply trim_idem.
  - unfold trim. apply erase_back_scan, erase_front_scan, (getlines_scan _ str), Hraw.
Qed.

Lemma splitString_items_are_clean_witness :
  ConfigManager.splitString " SH, ,  SZ ,," "," = ["SH"; "SZ"]%string /\
  "SZ"%string <> EmptyString /\ trim "SZ" = "SZ"%string /\ find_char "," "SZ" = None.
Proof.
  split; [reflexivity |].
  apply (splitString_items_are_clean " SH, ,  SZ ,," "," "SZ").
  vm_compute. right. left. reflexivity.
Defined.

(** *** Loading *)

Lemma getString_raw (c c' : ConfigManager.t) (section key d : string) :
  ConfigManager.raw_config_ c' = ConfigManager.raw_config_ c ->
  ConfigManager.getString c' section key d = ConfigManager.getString c section key d.
Proof. unfold ConfigManager.getString. intros ->. reflexivity. Qed.

Lemma getInt_raw (c c' : ConfigManager.t) (section key : string) (d : Z) :
  ConfigManager.raw_config_ c' = ConfigManager.raw_config_ c ->
  ConfigManager.getInt c' section key d = ConfigManager.getInt c section key d.
Proof. unfold ConfigManager.getInt. intros H. rewrite (getString_raw c c') by exact H. reflexivity. Qed.

(** The sections are read one after the other, then the outcome is checked. *)
Lemma loadConfig_opened (nproc : Z) (path text : string) (c : ConfigManager.t) (w : World) :
  ConfigManager.loadConfig nproc path (Some text) c w =
  ConfigManager.validateConfig
    (ConfigManager.parsePerformanceConfig
       (ConfigManager.parseMonitoringConfig
          (ConfigManager.parseMarketDataConfig
             (ConfigManager.parseSdkConfig
                (ConfigManager.parseDatabaseConfig
                   (ConfigManager.parseLoggingConfig
                      (ConfigManager.parseWorkerConfig
                         (ConfigManager.parseMasterConfig nproc
                            (ConfigManager.set_raw_config_ (ConfigManager.parse_text text)
                               (ConfigManager.set_config_file_path_ path c)))))))))) w.
Proof. reflexivity. Qed.

Lemma validateConfig_keeps (c : ConfigManager.t) (w : World) :
  exists b w', ConfigManager.validateConfig c w = (Done b, c, w') /\
               (b = true -> w' = w).
Proof.
  unfold ConfigManager.validateConfig. munfold.
  repeat match goal with
         | |- context [if ?b then _ else _] => destruct b
         end; eexists; eexists; (split; [reflexivity | congruence]).
Qed.

Lemma validateConfig_true (c : ConfigManager.t) (w : World) (c' : ConfigManager.t)
    (w' : World) :
  ConfigManager.validateConfig c w = (Done true, c', w') ->
  let cfg := ConfigManager.config_ c in
  0 <= ConfigManager.Master.worker_processes (ConfigManager.Config.master cfg)
    <= constants.MAX_WORKER_PROCESSES /\
  0 < ConfigManager.Worker.worker_connections (ConfigManager.Config.worker cfg)
    <= constants.MAX_CONNECTIONS_PER_WORKER /\
  ConfigManager.Database.host (ConfigManager.Config.database cfg) <> EmptyString /\
  0 < ConfigManager.Database.port (ConfigManager.Config.database cfg) <= 65535 /\
  0 < ConfigManager.Database.pool_size (ConfigManager.Config.database cfg) <= 100 /\
  0 < ConfigManager.Logging.max_log_size (ConfigManager.Config.logging cfg) /\
  0 < ConfigManager.Logging.max_log_files (ConfigManager.Config.logging cfg).
Proof.
  unfold ConfigManager.validateConfig. munfold.
  repeat match goal with
         | |- context [if ?b then _ else _] => destruct b eqn:?
         end; intros H; try discriminate H.
  repeat match goal with
         | H : _ || _ = false |- _ => apply orb_false_iff in H; destruct H
         end.
  repeat match goal with
         | H : (_ <? _) = false |- _ => apply Z.ltb_ge in H
         | H : (_ <=? _) = false |- _ => apply Z.leb_gt in H
         | H : (_ >? _) = false |- _ => rewrite Z.gtb_ltb in H; apply Z.ltb_ge in H
         end.
  repeat split; try lia.
  intros E. rewrite E in *. discriminate.
Qed.

Lemma to_int_small (z : Z) : INT_MIN <= z <= INT_MAX -> to_int z = z.
Proof.
  unfold INT_MIN, INT_MAX, to_int. intros H.
  rewrite Z.mod_small by lia. lia.
Qed.

(** X27. [loadConfig] answers true only for a file that could be opened and
    whose values pass every check: at most [MAX_WORKER_PROCESSES] workers
    and none negative, between 1 and [MAX_CONNECTIONS_PER_WORKER]
    connections, a database host, a port up to 65535, a pool of 1 to 100,
    positive log size and count; nothing is logged then. *)
Theorem loadConfig_accepts_only_within_bounds (nproc : Z) (path : string)
    (file : option string) (c : ConfigManager.t) (w : World)
    (c' : ConfigManager.t) (w' : World) :
  ConfigManager.loadConfig nproc path file c w = (Done true, c', w') ->
  let cfg := ConfigManager.config_ c' in
  file <> None /\ w' = w /\
  0 <= ConfigManager.Master.worker_processes (ConfigManager.Config.master cfg)
    <= constants.MAX_WORKER_PROCESSES /\
  0 < ConfigManager.Worker.worker_connections (ConfigManager.Config.worker cfg)
    <= constants.MAX_CONNECTIONS_PER_WORKER /\
  ConfigManager.Database.host (ConfigManager.Config.database cfg) <> EmptyString /\
  0 < ConfigManager.Database.port (ConfigManager.Config.database cfg) <= 65535 /\
  0 < ConfigManager.Database.pool_size (ConfigManager.Config.database cfg) <= 100 /\
  0 < ConfigManager.Logging.max_log_size (ConfigManager.Config.logging cfg) /\
  0 < ConfigManager.Logging.max_log_files (ConfigManager.Config.logging cfg).
Proof.
  intros H. destruct file as [text|]; [| discriminate H].
  rewrite loadConfig_opened in H.
  match type of H with
  | ConfigManager.validateConfig ?x _ = _ =>
      destruct (validateConfig_keeps x w) as (b & w1 & E & Hw)
  end.
  pose proof H as H'. rewrite E in H'. injection H' as -> <- <-.
  split; [discriminate | split; [auto |]].
  exact (validateConfig_true _ _ _ _ H).
Qed.

Lemma loadConfig_accepts_only_within_bounds_witness :
  exists c',
    ConfigManager.loadConfig 4 "feeder.conf" (Some ("[database]" ++ String "010" "port = 3307")%string) ConfigManager.instance (Sample.world Sample.calm []) =
      (Done true, c', Sample.world Sample.calm []) /\
    ConfigManager.Master.worker_processes
      (ConfigManager.Config.master (ConfigManager.config_ c')) = 4 /\
    0 < ConfigManager.Database.port
          (ConfigManager.Config.database (ConfigManager.config_ c')) <= 65535.
Proof.
  eexists. split; [lazy; reflexivity |]. split; [reflexivity |].
  eapply (loadConfig_accepts_only_within_bounds 4 "feeder.conf" (Some ("[database]" ++ String "010" "port = 3307")%string) ConfigManager.instance (Sample.world Sample.calm [])).
  lazy. reflexivity.
Defined.

Lemma reloadConfig_opened (nproc : Z) (text : string) (c : ConfigManager.t) (w : World) :
  ConfigManager.reloadConfig nproc (Some text) c w =
  ConfigManager.loadConfig nproc (ConfigManager.config_file_path_ c) (Some text) c w.
Proof. reflexivity. Qed.

(** Whether the checks pass or not, a load of a file that opens leaves what
    it read in place: the names of the file are behind those the two lists
    held. *)
Lemma loadConfig_lists (nproc : Z) (path text : string) (c : ConfigManager.t) (w : World) :
  exists b c' w',
    ConfigManager.loadConfig nproc path (Some text) c w = (Done b, c', w') /\
    ConfigManager.MarketDataConfig.markets
      (ConfigManager.Config.market_data (ConfigManager.config_ c')) =
      ConfigManager.MarketDataConfig.markets
        (ConfigManager.Config.market_data (ConfigManager.config_ c)) ++
      map ConfigManager.stringToMarketType
        (ConfigManager.splitString
           (ConfigManager.getString
              (ConfigManager.set_raw_config_ (ConfigManager.parse_text text) c)
              "market_data" "markets" "SH,SZ") ",") /\
    ConfigManager.MarketDataConfig.data_types
      (ConfigManager.Config.market_data (ConfigManager.config_ c')) =
      ConfigManager.MarketDataConfig.data_types
        (ConfigManager.Config.market_data (ConfigManager.config_ c)) ++
      map ConfigManager.stringToDataType
        (ConfigManager.splitString
           (ConfigManager.getString
              (ConfigManager.set_raw_config_ (ConfigManager.parse_text text) c)
              "market_data" "data_types" "tick,kline") ",").
Proof.
  rewrite loadConfig_opened.
  match goal with
  | |- context [ConfigManager.validateConfig ?x w] =>
      destruct (validateConfig_keeps x w) as (b & w1 & E & _);
      exists b, x, w1
  end.
  split; [exact E |].
  cbv [ConfigManager.parsePerformanceConfig ConfigManager.parseMonitoringConfig
       ConfigManager.parseMarketDataConfig ConfigManager.parseSdkConfig
       ConfigManager.parseDatabaseConfig ConfigManager.parseLoggingConfig
       ConfigManager.parseWorkerConfig ConfigManager.parseMasterConfig
       ConfigManager.set_config_ ConfigManager.set_raw_config_
       ConfigManager.set_config_file_path_ ConfigManager.config_
       ConfigManager.raw_config_ ConfigManager.config_file_path_
       ConfigManager.Config.market_data ConfigManager.MarketDataConfig.markets
       ConfigManager.MarketDataConfig.data_types ConfigManager.getString].
  split; reflexivity.
Qed.

(** X28. [parseMarketDataConfig] pushes the markets and the data types of
    the file behind those the configuration holds already, and nothing
    empties the two lists: whether the checks pass or not, loading a file
    and reloading it leaves every market and every data type of the file
    twice in the configuration. *)
Theorem reload_repeats_the_lists (nproc : Z) (path text : string)
    (c : ConfigManager.t) (w : World) :
  let read := ConfigManager.set_raw_config_ (ConfigManager.parse_text text) c in
  let markets :=
    map ConfigManager.stringToMarketType
      (ConfigManager.splitString
         (ConfigManager.getString read "market_data" "markets" "SH,SZ") ",") in
  let data_types :=
    map ConfigManager.stringToDataType
      (ConfigManager.splitString
         (ConfigManager.getString read "market_data" "data_types" "tick,kline") ",") in
  let held c := ConfigManager.Config.market_data (ConfigManager.config_ c) in
  exists b1 c1 w1 b2 c2 w2,
    ConfigManager.loadConfig nproc path (Some text) c w = (Done b1, c1, w1) /\
    ConfigManager.reloadConfig nproc (Some text) c1 w1 = (Done b2, c2, w2) /\
    ConfigManager.MarketDataConfig.markets (held c1) =
      ConfigManager.MarketDataConfig.markets (held c) ++ markets /\
    ConfigManager.MarketDataConfig.data_types (held c1) =
      ConfigManager.MarketDataConfig.data_types (held c) ++ data_types /\
    ConfigManager.MarketDataConfig.markets (held c2) =
      ConfigManager.MarketDataConfig.markets (held c) ++ markets ++ markets /\
    ConfigManager.MarketDataConfig.data_types (held c2) =
      ConfigManager.MarketDataConfig.data_types (held c) ++ data_types ++ data_types.
Proof.
  cbv zeta.
  destruct (loadConfig_lists nproc path text c w) as (b1 & c1 & w1 & E1 & Hm1 & Hd1).
  destruct (loadConfig_lists nproc (ConfigManager.config_file_path_ c1) text c1 w1)
    as (b2 & c2 & w2 & E2 & Hm2 & Hd2).
  rewrite (getString_raw (ConfigManager.set_raw_config_ (ConfigManager.parse_text text) c))
    in Hm2, Hd2 by reflexivity.
  exists b1, c1, w1, b2, c2, w2.
  split; [exact E1 |]. split; [rewrite reloadConfig_opened; exact E2 |].
  split; [exact Hm1 |]. split; [exact Hd1 |].
  rewrite Hm2, Hd2, Hm1, Hd1, <- !app_assoc. split; reflexivity.
Qed.

(** X29. When the file gives no worker count, or gives 0, the count is the
    number of processors; on a machine with more than
    [MAX_WORKER_PROCESSES] of them the check of the count then fails, and
    [loadConfig] answers false after one error line. *)
Theorem default_worker_count_fails_on_large_machines (nproc : Z) (path text : string)
    (c : ConfigManager.t) (w : World) :
  ConfigManager.getInt
    (ConfigManager.set_raw_config_ (ConfigManager.parse_text text) c)
    "master" "worker_processes" 0 = 0 ->
  constants.MAX_WORKER_PROCESSES < nproc <= INT_MAX ->
  exists c' w',
    ConfigManager.loadConfig nproc path (Some text) c w = (Done false, c', w') /\
    ConfigManager.Master.worker_processes
      (ConfigManager.Config.master (ConfigManager.config_ c')) = nproc /\
    calls_between w w' = [Log LERROR "Invalid worker_processes"].
Proof.
  intros H0 Hn.
  assert (Hw : ConfigManager.Master.worker_processes
                 (ConfigManager.Config.master
                    (ConfigManager.config_
                       (ConfigManager.parseMasterConfig nproc
                          (ConfigManager.set_raw_config_ (ConfigManager.parse_text text)
                             (ConfigManager.set_config_file_path_ path c))))) = nproc).
  { unfold ConfigManager.parseMasterConfig. cbv zeta. simpl.
    rewrite (getInt_raw (ConfigManager.set_raw_config_ (ConfigManager.parse_text text) c))
      by reflexivity.
    rewrite H0. simpl.
    unfold constants.MAX_WORKER_PROCESSES, INT_MIN, INT_MAX in *.
    rewrite Z.max_r by lia. apply to_int_small. unfold INT_MIN, INT_MAX. lia. }
  rewrite loadConfig_opened.
  match goal with
  | |- context [ConfigManager.validateConfig ?x w] => set (c' := x)
  end.
  assert (Hw' : ConfigManager.Master.worker_processes
                  (ConfigManager.Config.master (ConfigManager.config_ c')) = nproc)
    by exact Hw.
  exists c', (issue (Log LERROR "Invalid worker_processes") w).
  split; [| split; [exact Hw' | apply calls_between_rev; reflexivity]].
  unfold ConfigManager.validateConfig. munfold. rewrite Hw'.
  replace (nproc >? constants.MAX_WORKER_PROCESSES) with true.
  - rewrite orb_true_r. reflexivity.
  - symmetry. rewrite Z.gtb_ltb. apply Z.ltb_lt. lia.
Qed.

Lemma default_worker_count_fails_on_large_machines_witness :
  exists c' w',
    ConfigManager.loadConfig 128 "feeder.conf" (Some "[master]"%string)
      ConfigManager.instance (Sample.world Sample.calm []) = (Done false, c', w') /\
    ConfigManager.Master.worker_processes
      (ConfigManager.Config.master (ConfigManager.config_ c')) = 128 /\
    calls_between (Sample.world Sample.calm []) w' =
      [Log LERROR "Invalid worker_processes"].
Proof.
  apply (default_worker_count_fails_on_large_machines 128 "feeder.conf" "[master]"
           ConfigManager.instance (Sample.world Sample.calm [])).
  - reflexivity.
  - vm_compute. split; [reflexivity | discriminate].
Defined.

(** *** Reading the file *)

Lemma assign_trimmed (section key value : string) (raw : ConfigManager.Raw) :
  trimmed raw -> trim key = key -> trim value = value ->
  trimmed (ConfigManager.assign section key value raw).
Proof.
  intros Hraw Hk Hv s keys k v. unfold ConfigManager.assign.
  destruct (String.eqb s section) eqn:Es.
  - intros Hs. injection Hs as <-.
    destruct (String.eqb_spec k key) as [->|Hne].
    + intros Hf. injection Hf as <-. split; assumption.
    + destruct (raw section) as [old|] eqn:Eo; [| discriminate].
      intros Hf. exact (Hraw section old k v Eo Hf).
  - apply Hraw.
Qed.

Lemma parse_line_trimmed (raw : ConfigManager.Raw) (current line : string) :
  trimmed raw -> trimmed (fst (ConfigManager.parse_line (raw, current) line)).
Proof.
  intros Hraw. unfold ConfigManager.parse_line.
  destruct (trim line) as [|first rest]; [exact Hraw |].
  destruct (Ascii.eqb first "#"); [exact Hraw |].
  destruct (Ascii.eqb first "[" && Ascii.eqb (back (String first rest)) "]");
    [exact Hraw |].
  destruct (find_char "=" (String first rest)); [| exact Hraw].
  cbv zeta. apply assign_trimmed; [exact Hraw | apply trim_idem | apply trim_idem].
Qed.

Lemma parse_lines_trimmed (lines : list string) (raw : ConfigManager.Raw) (current : string) :
  trimmed raw -> trimmed (fst (fold_left ConfigManager.parse_line lines (raw, current))).
Proof.
  revert raw current. induction lines as [|line lines IH]; intros raw current Hraw.
  - exact Hraw.
  - change (trimmed (fst (fold_left ConfigManager.parse_line lines
                            (ConfigManager.parse_line (raw, current) line)))).
    pose proof (parse_line_trimmed raw current line Hraw) as H.
    destruct (ConfigManager.parse_line (raw, current) line) as [raw' current'].
    apply IH. exact H.
Qed.

(** X30. A value read from a parsed file has no space or tab at either end,
    and only a key without them is ever found: a lookup gives the default,
    or the key is trimmed and so is the value it gives. *)
Theorem parsed_values_are_trimmed (text : string) (c : ConfigManager.t)
    (section key d : string) :
  let read := ConfigManager.set_raw_config_ (ConfigManager.parse_text text) c in
  let value := ConfigManager.getString read section key d in
  value = d \/ (trim key = key /\ trim value = value).
Proof.
  cbv zeta. unfold ConfigManager.getString. simpl ConfigManager.raw_config_.
  assert (H : trimmed (ConfigManager.parse_text text)).
  { apply parse_lines_trimmed. intros s keys k v Hs. discriminate Hs. }
  destruct (ConfigManager.parse_text text section) as [keys|] eqn:Es; [| left; reflexivity].
  destruct (keys key) as [value|] eqn:Ek; [| left; reflexivity].
  right. exact (H section keys key value Es Ek).
Qed.
